(** * Call-control middleware: one-X orchestrator and ACR recording cache

    A shallow embedding of [api/onex.js] (call origination, control actions,
    audit inserts) and [api/acr.js] (archive search, media cache, range
    streaming), with the properties stated about them.

    Conventions of the embedding.
    - A JavaScript string is a [string]; its characters stand for code units.
    - A JavaScript number that the code only uses as an integer (parsed with
      [parseInt], a file size, a counter) is a [Z]; [NaN] is [None]. Where
      the size of the number matters (the bounds of a byte range, the days
      of a window) it is a [JS.Num]: a double with an integer value, an
      infinity or [NaN].
    - A [Date] is the reading of the local clock at its instant, in
      milliseconds, or the invalid date; the time zone of the process is a
      field of the environment.
    - A value that may be [undefined], [null] or a string is an
      [option string]; truthiness is [truthy].
    - Every remote service (one-X endpoint, Java monitor, archive, SQL
      server, transcoder) is a field of an environment record that gives the
      answer of the service; every request sent to one is an event of the
      trace that the handler returns next to its response. Logging is not
      modelled. *)

From Stdlib Require Import ZArith Ascii String List Lia Bool Permutation Sorted.
From Stdlib Require Import DecimalString.
From stdpp Require Import base option list strings gmap.

Open Scope Z_scope.

(** ** JavaScript values *)

Module JS.

(** [!!v] for a value that is [undefined]/[null] or a string. *)
Definition truthy (v : option string) : bool :=
  match v with
  | Some s => negb (String.eqb s "")
  | None => false
  end.

(** [a || b]. *)
Definition or (a b : option string) : option string :=
  if truthy a then a else b.

(** [String(v || '')]. *)
Definition strOrEmpty (v : option string) : string :=
  match or v (Some "") with
  | Some s => s
  | None => ""
  end.

Definition isDigit (c : ascii) : bool :=
  let n := N_of_ascii c in ((48 <=? n) && (n <=? 57))%N.

Definition isLower (c : ascii) : bool :=
  let n := N_of_ascii c in ((97 <=? n) && (n <=? 122))%N.

Definition isUpper (c : ascii) : bool :=
  let n := N_of_ascii c in ((65 <=? n) && (n <=? 90))%N.

(** White space and line terminators that fit in one of our code units:
    TAB, LF, VT, FF, CR, SP and NBSP. *)
Definition isSpace (c : ascii) : bool :=
  let n := N_of_ascii c in
  (((9 <=? n) && (n <=? 13)) || (n =? 32) || (n =? 160))%N.

Fixpoint all (p : ascii -> bool) (s : string) : bool :=
  match s with
  | EmptyString => true
  | String c s' => p c && all p s'
  end.

Fixpoint map (f : ascii -> ascii) (s : string) : string :=
  match s with
  | EmptyString => EmptyString
  | String c s' => String (f c) (map f s')
  end.

(** [s.slice(0, n)]. *)
Fixpoint take (n : nat) (s : string) : string :=
  match n, s with
  | O, _ => EmptyString
  | _, EmptyString => EmptyString
  | S n', String c s' => String c (take n' s')
  end.

(** The longest prefix of [s] made of characters in [p], and the rest. *)
Fixpoint span (p : ascii -> bool) (s : string) : string * string :=
  match s with
  | EmptyString => (EmptyString, EmptyString)
  | String c s' =>
      if p c then let '(a, b) := span p s' in (String c a, b)
      else (EmptyString, s)
  end.

Definition trimStart (s : string) : string := snd (span isSpace s).

(** [s.trimEnd()]: a white-space character goes when nothing but white
    space follows it. *)
Fixpoint trimEnd (s : string) : string :=
  match s with
  | EmptyString => EmptyString
  | String c s' =>
      match trimEnd s' with
      | EmptyString => if isSpace c then EmptyString else String c EmptyString
      | t => String c t
      end
  end.

(** [s.trim()]. *)
Definition trim (s : string) : string := trimEnd (trimStart s).

Definition digitVal (c : ascii) : Z := Z.of_N (N_of_ascii c) - 48.

(** The value of a string of decimal digits, read left to right. *)
Fixpoint digitsValue (acc : Z) (s : string) : Z :=
  match s with
  | EmptyString => acc
  | String c s' => digitsValue (10 * acc + digitVal c) s'
  end.

(** [parseInt(s, 10)]: leading white space is skipped, then an optional
    sign, then the longest run of decimal digits; [None] is [NaN]. *)
Definition parseInt (s : string) : option Z :=
  let s1 := trimStart s in
  let '(neg, s2) :=
    match s1 with
    | String c r =>
        if Ascii.eqb c "-" then (true, r)
        else if Ascii.eqb c "+" then (false, r) else (false, s1)
    | EmptyString => (false, s1)
    end in
  let '(ds, _) := span isDigit s2 in
  match ds with
  | EmptyString => None
  | _ => let v := digitsValue 0 ds in Some (if neg then - v else v)
  end.

(** The decimal digits of an integer: [String(n)] for a safe integer. *)
Definition showZ (n : Z) : string := NilZero.string_of_int (Z.to_int n).

(** [s.split(sep)] for a one-character separator. *)
Fixpoint splitOn (sep : ascii) (s : string) : list string :=
  match s with
  | EmptyString => [EmptyString]
  | String c s' =>
      if Ascii.eqb c sep then EmptyString :: splitOn sep s'
      else match splitOn sep s' with
           | seg :: rest => String c seg :: rest
           | [] => [String c EmptyString]
           end
  end.

(** [s.slice(n)] for [n >= 0]. *)
Fixpoint drop (n : nat) (s : string) : string :=
  match n, s with
  | O, _ => s
  | _, EmptyString => EmptyString
  | S n', String _ s' => drop n' s'
  end.

(** [s.slice(-n)]. *)
Definition takeLast (n : nat) (s : string) : string :=
  drop (String.length s - n) s.

(** [s.padStart(2, '0')]. *)
Definition padStart2 (s : string) : string :=
  match String.length s with
  | O => "00"
  | S O => "0" +:+ s
  | _ => s
  end.

(** [s.startsWith(p)]. *)
Definition startsWith (s p : string) : bool := String.prefix p s.

Definition toLowerChar (c : ascii) : ascii :=
  if isUpper c then ascii_of_N (N_of_ascii c + 32) else c.

(** [s.toLowerCase()] on the characters A-Z. *)
Definition toLowerCase (s : string) : string := map toLowerChar s.

(** *** Numbers beyond the safe integers

    A Number that is an integer, an infinity or [NaN]; [Fin z] is the
    double whose value is the integer [z]. *)
Inductive Num : Type :=
| Fin (z : Z)
| PosInf
| NegInf
| NaN.

Definition MAX_SAFE_INTEGER : Z := 9007199254740991.

(** The double nearest to a natural number, ties to even; a result of
    [2^1024] or more stands for an overflow. *)
Definition nearest (z : Z) : Z :=
  if z <? 2 ^ 53 then z
  else
    let e := Z.log2 z - 52 in
    let q := Z.shiftr z e in
    let r := z - Z.shiftl q e in
    let half := Z.shiftl 1 (e - 1) in
    let q' := if (half <? r) || ((r =? half) && Z.odd q) then q + 1 else q in
    Z.shiftl q' e.

(** The Number that an integer is read as, or rounded to. *)
Definition number (z : Z) : Num :=
  let m := nearest (Z.abs z) in
  if 2 ^ 1024 <=? m then (if z <? 0 then NegInf else PosInf)
  else Fin (if z <? 0 then - m else m).

(** The Number of a result of [parseInt]. *)
Definition toNum (v : option Z) : Num :=
  match v with Some z => number z | None => NaN end.

(** [a - b]. *)
Definition sub (a b : Num) : Num :=
  match a, b with
  | NaN, _ | _, NaN => NaN
  | PosInf, PosInf | NegInf, NegInf => NaN
  | PosInf, _ | _, NegInf => PosInf
  | NegInf, _ | _, PosInf => NegInf
  | Fin x, Fin y => number (x - y)
  end.

(** [a + b]. *)
Definition add (a b : Num) : Num :=
  match a, b with
  | NaN, _ | _, NaN => NaN
  | PosInf, NegInf | NegInf, PosInf => NaN
  | PosInf, _ | _, PosInf => PosInf
  | NegInf, _ | _, NegInf => NegInf
  | Fin x, Fin y => number (x + y)
  end.

(** [a > b]. *)
Definition gt (a b : Num) : bool :=
  match a, b with
  | NaN, _ | _, NaN => false
  | Fin x, Fin y => y <? x
  | PosInf, PosInf | NegInf, _ | _, PosInf => false
  | PosInf, _ | _, NegInf => true
  end.

(** The integer of a Number, when it is finite. *)
Definition intOf (v : Num) : option Z :=
  match v with Fin z => Some z | _ => None end.

Fixpoint zeros (n : nat) : string :=
  match n with O => EmptyString | S n' => String "0" (zeros n') end.

(** Number::toString looks for the fewest digits [k], with the digits [s]
    and the exponent [n], such that [s * 10^(n-k)] is read back as [x]:
    the candidates [(s, n)] with [k] digits. *)
Definition digitCandidates (x k : Z) : list (Z * Z) :=
  let len := Z.of_nat (String.length (showZ x)) in
  List.flat_map
    (fun n =>
       if n <? k then []
       else
         let p := 10 ^ (n - k) in
         List.filter
           (fun c => (10 ^ (k - 1) <=? fst c) && (fst c <? 10 ^ k)
                     && (nearest (fst c * p) =? x))
           [(x / p, n); (x / p + 1, n)])
    [len; len + 1].

(** Of two candidates, the one whose value is closer to [x]. *)
Definition closer (x k : Z) (a b : Z * Z) : Z * Z :=
  let dist (c : Z * Z) := Z.abs (fst c * 10 ^ (snd c - k) - x) in
  if dist b <? dist a then b
  else if (dist b =? dist a) && Z.even (fst b) then b else a.

(** The fewest digits: [(k, s, n)]. A double has at most 17 of them. *)
Definition shortest (x : Z) : option (Z * Z * Z) :=
  List.fold_right
    (fun k found =>
       match digitCandidates x k with
       | c :: cs =>
           let best := List.fold_left (closer x k) cs c in
           Some (k, fst best, snd best)
       | [] => found
       end)
    None [1; 2; 3; 4; 5; 6; 7; 8; 9; 10; 11; 12; 13; 14; 15; 16; 17].

(** [String(x)] for a double [x >= 0] with an integer value. *)
Definition showFin (x : Z) : string :=
  if x <? 2 ^ 53 then showZ x
  else
    match shortest x with
    | Some (k, s, n) =>
        if n <=? 21 then showZ s +:+ zeros (Z.to_nat (n - k))
        else
          match showZ s with
          | String d rest =>
              String d (if k =? 1 then "" else "." +:+ rest) +:+ "e+" +:+ showZ (n - 1)
          | EmptyString => EmptyString
          end
    | None => showZ x
    end.

(** [String(v)]. *)
Definition numText (v : Num) : string :=
  match v with
  | Fin z => if z <? 0 then "-" +:+ showFin (- z) else showFin z
  | PosInf => "Infinity"
  | NegInf => "-Infinity"
  | NaN => "NaN"
  end.

End JS.

(** ** [api/onex.js]: configuration and small helpers *)

Module Onex.

(** The environment variables read when the module is loaded. *)
Record Config := {
  CALL_PREFIX : string;                     (* process.env.CALL_PREFIX || '' *)
  UCID_POLL_INTERVAL_MS : option Z;         (* parseInt(...) *)
  UCID_POLL_MAX_ATTEMPTS : option Z;        (* parseInt(process.env.UCID_POLL_MAX) *)
  UCID_MONITOR_TIMEOUT_MS : option Z;
  JAVA_UCID_BASEURL : option string;
  ONEX_SCHEME : string;
  ONEX_PORT : string;
  ONEX_API_PATH : string
}.

(** [withPrefix(phone)]. *)
Definition withPrefix (cfg : Config) (phone : option string) : string :=
  let p := JS.strOrEmpty phone in
  if negb (JS.truthy (Some (CALL_PREFIX cfg))) then p
  else if JS.startsWith p (CALL_PREFIX cfg) then p
       else CALL_PREFIX cfg +:+ p.

(** *** Answers of the remote services *)

(** What an awaited call gives: a value, or an exception with its message. *)
Inductive Answer (A : Type) : Type :=
| Returned (a : A)
| Thrown (msg : string).
Arguments Returned {A} a.
Arguments Thrown {A} msg.

(** The attributes of [<RegisterClientResponse>]. *)
Record RegisterAttrs := {
  reg_ClientId : option string;     (* reg.ClientId *)
  reg_clientId : option string      (* reg.clientId *)
}.

(** The attributes of [<VoiceInteractionCreated>] in a notification. *)
Record VoiceAttrs := {
  ObjectId : option string;
  UCID : option string
}.

(** The JSON body of the Java monitor. *)
Record JavaData := {
  java_ok : bool;
  java_ucid : option string
}.

Record Env := {
  (* new URL(deviceIp) with ONEX_API_PATH appended to its path when missing,
     printed back; Thrown when deviceIp does not parse as a URL *)
  urlWithApiPath : string -> Answer string;
  (* Date.now(), printed *)
  now : string;
  (* the SELECT of getStationByIp: recordset[0]?.station *)
  stationRow : string -> Answer (option string);
  (* GET /registerclient, parsed *)
  registerAnswer : string -> Answer RegisterAttrs;
  (* GET /unregisterclient *)
  unregisterAnswer : string -> Answer unit;
  (* GET <java>/monitor *)
  javaAnswer : string -> Answer JavaData;
  (* GET /voice/makecall *)
  makecallAnswer : Answer unit;
  (* GET /nextnotification at the given attempt, parsed:
     NextNotificationResponse.VoiceInteractionCreated[0].$ when present *)
  notifyAnswer : Z -> Answer (option VoiceAttrs);
  (* GET /voice/<action>, parsed: attrs.ResponseCode *)
  voiceAnswer : string -> Answer (option string);
  (* the INSERT of either audit table *)
  insertAnswer : Answer unit
}.

(** *** Requests sent to the remote services *)

Record CallLogRow := {
  row_ucid : option string;
  row_ticket_number : string;
  row_client_phone : string;
  row_device_ip : string;
  row_client_id : string;
  row_interaction_id : string;
  row_agent_user : option string
}.

Record ActionLogRow := {
  arow_action : string;
  arow_device_ip : string;
  arow_interaction_id : string;
  arow_success : bool;
  arow_agent_user : option string
}.

Inductive Event : Type :=
| EvStationQuery (deviceIp : string)
| EvRegisterClient (baseUrl name : string)
| EvUnregisterClient (baseUrl clientid : string)
| EvJavaMonitor (station : string)
| EvMakeCall (baseUrl clientid number device : string)
| EvNextNotification (baseUrl clientid : string) (attempt : Z)
| EvDelay (ms : Z)
| EvVoiceAction (baseUrl action clientid : string) (interactionid : option string)
| EvInsertCallLog (row : CallLogRow)
| EvInsertActionLog (row : ActionLogRow).

Definition isUnregister (e : Event) : bool :=
  match e with EvUnregisterClient _ _ => true | _ => false end.

Definition isPoll (e : Event) : bool :=
  match e with EvNextNotification _ _ _ => true | _ => false end.

Definition isDelay (e : Event) : bool :=
  match e with EvDelay _ => true | _ => false end.

Definition isCallLogInsert (e : Event) : bool :=
  match e with EvInsertCallLog _ => true | _ => false end.

Definition isActionLogInsert (e : Event) : bool :=
  match e with EvInsertActionLog _ => true | _ => false end.

Definition countEvents (p : Event -> bool) (tr : list Event) : nat :=
  length (List.filter p tr).

(** *** Responses *)

Inductive Body : Type :=
| BMissing (missing : list string)        (* { success:false, missing, message } *)
| BMessage (message : string)             (* { success:false, message } *)
| BOutcome (success : bool) (ucid interactionId : option string)
           (clientId : string) (dialed : option string) (station : option string)
| BAction (success : bool) (code clientId interactionId : option string).

Record Response := { status : Z; body : Body }.

(** *** One-X helpers *)

(** [/^https?:\/\//i.test(s)]. *)
Definition isHttpUrl (s : string) : bool :=
  let l := JS.toLowerCase s in
  String.prefix "http://" l || String.prefix "https://" l.

(** A character of the class [[a-zA-Z0-9.\-:]]. *)
Definition isHostChar (c : ascii) : bool :=
  JS.isLower c || JS.isUpper c || JS.isDigit c
  || Ascii.eqb c "." || Ascii.eqb c "-" || Ascii.eqb c ":".

Fixpoint includes (c : ascii) (s : string) : bool :=
  match s with
  | EmptyString => false
  | String d s' => Ascii.eqb c d || includes c s'
  end.

(** [buildBaseUrl(deviceIp)]. *)
Definition buildBaseUrl (cfg : Config) (env : Env) (deviceIp : string) : Answer string :=
  if isHttpUrl deviceIp then urlWithApiPath env deviceIp
  else
    let host := JS.trim deviceIp in
    if String.eqb host "" then Thrown "Missing required deviceIp"
    else if negb (JS.all isHostChar host) then Thrown "Invalid device IP/host"
    else
      let needsPort := negb (includes ":" host) in
      let portPart := if needsPort then ":" +:+ ONEX_PORT cfg else "" in
      Returned (ONEX_SCHEME cfg +:+ "://" +:+ host +:+ portPart +:+ ONEX_API_PATH cfg).

(** [unregisterClient]: one GET, its failure is caught and logged. *)
Definition unregisterClient (baseUrl clientid : string) : list Event :=
  [EvUnregisterClient baseUrl clientid].

(** The second half of [ensureClient]: register, and read the client id. *)
Definition registerFresh (env : Env) (baseUrl preferredName : string)
    : list Event * Answer (string * bool) :=
  ([EvRegisterClient baseUrl preferredName],
   match registerAnswer env preferredName with
   | Thrown m => Thrown m
   | Returned reg =>
       let clientId := JS.or (reg_ClientId reg) (reg_clientId reg) in
       if negb (JS.truthy clientId) then Thrown "Failed to register One-X client"
       else Returned (JS.strOrEmpty clientId, true)
   end).

(** [ensureClient]: the trace, and [{ clientId, created }] or an exception. *)
Definition ensureClient (env : Env) (baseUrl preferredName : string)
    (providedClientId : option string) : list Event * Answer (string * bool) :=
  if JS.truthy providedClientId
  then ([], Returned (JS.strOrEmpty providedClientId, false))
  else registerFresh env baseUrl preferredName.

(** [getStationByIp]: one SELECT; an error is caught and gives [null]. *)
Definition getStationByIp (env : Env) (deviceIp : string) : list Event * option string :=
  ([EvStationQuery deviceIp],
   match stationRow env deviceIp with
   | Returned st => JS.or st None
   | Thrown _ => None
   end).

(** [getUcidFromJava]: no request without [JAVA_UCID_BASEURL]; otherwise one
    GET whose failure is caught; the ucid when [data.ok && data.ucid]. *)
Definition getUcidFromJava (cfg : Config) (env : Env) (station : string)
    : list Event * option string :=
  if negb (JS.truthy (JAVA_UCID_BASEURL cfg)) then ([], None)
  else
    ([EvJavaMonitor station],
     match javaAnswer env station with
     | Returned data =>
         if java_ok data && JS.truthy (java_ucid data) then java_ucid data else None
     | Thrown _ => None
     end).

(** [insertOnexCallLog]: skipped without interaction id or client id;
    otherwise one INSERT whose failure is caught and logged. *)
Definition insertOnexCallLog (ucid : option string)
    (ticketNumber clientPhone deviceIp : option string) (clientId : option string)
    (interactionId : option string) (agentUser : option string) : list Event :=
  if negb (JS.truthy interactionId) || negb (JS.truthy clientId) then []
  else
    [EvInsertCallLog
       {| row_ucid := ucid;
          row_ticket_number := JS.strOrEmpty ticketNumber;
          row_client_phone := JS.strOrEmpty clientPhone;
          row_device_ip := JS.strOrEmpty deviceIp;
          row_client_id := JS.strOrEmpty clientId;
          row_interaction_id := JS.strOrEmpty interactionId;
          row_agent_user := JS.or agentUser None |}].

(** [insertOnexActionLog]: always one INSERT; its failure is caught. *)
Definition insertOnexActionLog (action : string) (deviceIp interactionId : option string)
    (success : bool) (agentUser : option string) : list Event :=
  let safeInteractionId := JS.or interactionId (Some "(by-ip)") in
  [EvInsertActionLog
     {| arow_action := action;
        arow_device_ip := JS.strOrEmpty deviceIp;
        arow_interaction_id := JS.strOrEmpty safeInteractionId;
        arow_success := success;
        arow_agent_user := JS.or agentUser None |}].

(** *** The notification poll of [startcall]

    [while (attempts < MAX && (!interactionId || !ucidFromOnex))]; [fuel]
    bounds the number of iterations of the model. The result is the trace
    and the final [interactionId] and [ucidFromOnex]. *)
Fixpoint pollLoop (env : Env) (baseUrl clientid : string) (interval max : Z)
    (fuel : nat) (attempts : Z) (interactionId ucidFromOnex : option string)
    : list Event * option string * option string :=
  match fuel with
  | O => ([], interactionId, ucidFromOnex)
  | S fuel' =>
      if (attempts <? max)
         && (negb (JS.truthy interactionId) || negb (JS.truthy ucidFromOnex))
      then
        let attempts := attempts + 1 in
        match notifyAnswer env attempts with
        | Returned (Some voice) =>
            (* break *)
            ([EvNextNotification baseUrl clientid attempts],
             JS.or (ObjectId voice) interactionId,
             JS.or (UCID voice) ucidFromOnex)
        | _ =>
            let '(tr, i, u) :=
              pollLoop env baseUrl clientid interval max fuel' attempts
                       interactionId ucidFromOnex in
            (EvNextNotification baseUrl clientid attempts :: EvDelay interval :: tr, i, u)
        end
      else ([], interactionId, ucidFromOnex)
  end.

(** Enough iterations for the loop to end by its own condition. *)
Definition pollFuel (max : Z) : nat := Z.to_nat max.

(** *** GET /api/onex/startcall *)

Record Query := {
  ticketNumber : option string;
  clientPhone : option string;
  deviceIp : option string;
  agentUser : option string;
  clientid : option string;
  interactionid : option string
}.

Definition missingOf (fields : list (string * option string)) : list string :=
  List.map fst (List.filter (fun f => negb (JS.truthy (snd f))) fields).

Definition clientNameOf (env : Env) (q : Query) : string :=
  "CRM_" +:+ JS.strOrEmpty (JS.or (agentUser q) (Some "anon")) +:+ "_"
  +:+ JS.strOrEmpty (ticketNumber q) +:+ "_" +:+ now env.

(** The [try] block of [startcall]. The result is the trace, the values of
    [createdTemp] and [clientid] when the block is left, and the response or
    the exception that leaves it. *)
Definition startcallTry (cfg : Config) (env : Env) (q : Query)
    (baseUrl : string) (station : option string) (interval max : Z)
    : list Event * (bool * option string) * Answer Response :=
  let dialNumber := withPrefix cfg (clientPhone q) in
  let '(tr1, ensured) := ensureClient env baseUrl (clientNameOf env q) (clientid q) in
  match ensured with
  | Thrown m => (tr1, (false, clientid q), Thrown m)
  | Returned (cid, created) =>
      let '(trJ, javaUcid) :=
        if JS.truthy station
        then getUcidFromJava cfg env (JS.strOrEmpty station)
        else ([], None) in
      let trCall := [EvMakeCall baseUrl cid dialNumber (JS.strOrEmpty (deviceIp q))] in
      match makecallAnswer env with
      | Thrown m => (tr1 ++ trJ ++ trCall, (created, Some cid), Thrown m)
      | Returned _ =>
          let '(trP, interactionId, ucidFromOnex) :=
            pollLoop env baseUrl cid interval max (pollFuel max) 0 None None in
          let ucidFromJava := javaUcid in
          let ucid := JS.or ucidFromJava (JS.or ucidFromOnex None) in
          let trDb :=
            insertOnexCallLog ucid (ticketNumber q) (clientPhone q) (deviceIp q)
              (Some cid) interactionId (JS.or (agentUser q) (Some "")) in
          (tr1 ++ trJ ++ trCall ++ trP ++ trDb, (created, Some cid),
           Returned {| status := 200;
                       body := BOutcome (JS.truthy interactionId) ucid
                                 (JS.or interactionId None) cid (clientPhone q)
                                 (JS.or station None) |})
      end
  end.

(** The [finally] block shared by all handlers. *)
Definition finallyUnregister (createdTemp : bool) (clientid : option string)
    (baseUrl : string) : list Event :=
  if createdTemp then unregisterClient baseUrl (JS.strOrEmpty clientid) else [].

Definition startcall (cfg : Config) (env : Env) (q : Query) : list Event * Response :=
  let missing :=
    missingOf [("ticketNumber", ticketNumber q); ("clientPhone", clientPhone q);
               ("deviceIp", deviceIp q)] in
  if negb (Nat.eqb (length missing) 0) then
    ([], {| status := 400; body := BMissing missing |})
  else
    match UCID_POLL_INTERVAL_MS cfg, UCID_POLL_MAX_ATTEMPTS cfg with
    | Some interval, Some max =>
        match buildBaseUrl cfg env (JS.strOrEmpty (deviceIp q)) with
        | Thrown m => ([], {| status := 400; body := BMessage m |})
        | Returned baseUrl =>
            let '(trS, station) := getStationByIp env (JS.strOrEmpty (deviceIp q)) in
            let '(trT, (createdTemp, cid), result) :=
              startcallTry cfg env q baseUrl station interval max in
            let response :=
              match result with
              | Returned r => r
              | Thrown m =>
                  {| status := 500;
                     body := BMessage (JS.strOrEmpty (JS.or (Some m) (Some "internal error"))) |}
              end in
            (trS ++ trT ++ finallyUnregister createdTemp cid baseUrl, response)
        end
    | _, _ =>
        ([], {| status := 500;
                body := BMessage "Polling variables not configured (UCID_POLL_INTERVAL_MS / UCID_POLL_MAX)" |})
    end.

(** *** GET /api/onex/release, hold, unhold, mute, unmute

    The five handlers have one shape; they differ in the parameters they
    require, in what they send and in the fields of their responses. *)

Inductive Action := Release | Hold | Unhold | Mute | Unmute.

Definition actionPath (a : Action) : string :=
  match a with
  | Release => "release" | Hold => "hold" | Unhold => "unhold"
  | Mute => "mute" | Unmute => "unmute"
  end.

Definition actionTag (a : Action) : string :=
  match a with
  | Release => "RELEASE" | Hold => "HOLD" | Unhold => "UNHOLD"
  | Mute => "MUTE" | Unmute => "UNMUTE"
  end.

(** [release], [hold] and [unhold] address an interaction. *)
Definition usesInteraction (a : Action) : bool :=
  match a with Release | Hold | Unhold => true | Mute | Unmute => false end.

Definition actionClientName (env : Env) (a : Action) (q : Query) : string :=
  "CRM_" +:+ JS.strOrEmpty (JS.or (agentUser q) (Some "anon")) +:+ "_"
  +:+ actionTag a +:+ "_" +:+ now env.

(** [oneXVoiceAction]: one GET, parsed; the result is [attrs.ResponseCode]. *)
Definition oneXVoiceAction (env : Env) (baseUrl : string) (a : Action)
    (clientid : string) (interactionid : option string)
    : list Event * Answer (option string) :=
  ([EvVoiceAction baseUrl (actionPath a) clientid interactionid],
   voiceAnswer env (actionPath a)).

(** The body sent after the action, by handler and by [ok]. *)
Definition actionBody (a : Action) (ok : bool) (code : option string)
    (cid : string) (q : Query) : Body :=
  match a with
  | Release => BAction ok code (Some cid) (interactionid q)
  | Hold | Unhold => BAction ok code (if ok then None else Some cid) None
  | Mute | Unmute => BAction ok code None None
  end.

(** The [try] block of a control handler. *)
Definition actionTry (cfg : Config) (env : Env) (a : Action) (q : Query)
    : list Event * (bool * option string * option string) * Answer Response :=
  let loggedId :=
    if usesInteraction a then interactionid q else JS.or (interactionid q) None in
  match buildBaseUrl cfg env (JS.strOrEmpty (deviceIp q)) with
  | Thrown m => ([], (false, clientid q, None), Thrown m)
  | Returned baseUrl =>
      let '(tr1, ensured) :=
        ensureClient env baseUrl (actionClientName env a q) (clientid q) in
      match ensured with
      | Thrown m => (tr1, (false, clientid q, Some baseUrl), Thrown m)
      | Returned (cid, created) =>
          let '(tr2, answered) :=
            oneXVoiceAction env baseUrl a cid
              (if usesInteraction a then interactionid q else None) in
          match answered with
          | Thrown m => (tr1 ++ tr2, (created, Some cid, Some baseUrl), Thrown m)
          | Returned code =>
              let ok := match code with Some c => String.eqb c "0" | None => false end in
              let trDb :=
                insertOnexActionLog (actionTag a) (deviceIp q) loggedId ok
                  (JS.or (agentUser q) (Some "")) in
              (tr1 ++ tr2 ++ trDb, (created, Some cid, Some baseUrl),
               Returned {| status := if ok then 200 else 502;
                           body := actionBody a ok code cid q |})
          end
      end
  end.

Definition controlAction (cfg : Config) (env : Env) (a : Action) (q : Query)
    : list Event * Response :=
  if negb (JS.truthy (deviceIp q))
     || (usesInteraction a && negb (JS.truthy (interactionid q)))
  then
    ([], {| status := 400;
            body := BMessage (if usesInteraction a
                              then "deviceIp and interactionid are required"
                              else "deviceIp is required") |})
  else
    let loggedId :=
      if usesInteraction a then interactionid q else JS.or (interactionid q) None in
    let '(trT, (createdTemp, cid, baseUrl), result) := actionTry cfg env a q in
    let '(trC, response) :=
      match result with
      | Returned r => ([], r)
      | Thrown m =>
          (insertOnexActionLog (actionTag a) (deviceIp q) loggedId false
             (JS.or (agentUser q) (Some "")),
           {| status := 500; body := BMessage m |})
      end in
    (trT ++ trC ++ finallyUnregister createdTemp cid (JS.strOrEmpty baseUrl), response).

(** *** Vocabulary of the statements about [startcall] *)

(** [n] rounds of "poll, then wait", numbered from [from + 1]. *)
Fixpoint pollsAndDelays (baseUrl clientid : string) (interval from : Z) (n : nat)
    : list Event :=
  match n with
  | O => []
  | S n' =>
      EvNextNotification baseUrl clientid (from + 1) :: EvDelay interval
        :: pollsAndDelays baseUrl clientid interval (from + 1) n'
  end.

(** A poll that brought no [VoiceInteractionCreated]: it threw, or its
    notification was something else. *)
Definition noVoice (a : Answer (option VoiceAttrs)) : Prop :=
  match a with Returned (Some _) => False | _ => True end.

(** The polls and waits of a trace, in order. *)
Definition pollingOf (tr : list Event) : list Event :=
  List.filter (fun e => isPoll e || isDelay e) tr.

(** The request is well formed, the module is configured, and the session
    [cid] is there ([created] by the handler or not), so that the handler
    gets as far as placing the call. *)
Record Ready (cfg : Config) (env : Env) (q : Query)
    (baseUrl cid : string) (created : bool) (interval max : Z) : Prop := {
  ready_ticket : JS.truthy (ticketNumber q) = true;
  ready_phone : JS.truthy (clientPhone q) = true;
  ready_device : JS.truthy (deviceIp q) = true;
  ready_interval : UCID_POLL_INTERVAL_MS cfg = Some interval;
  ready_max : UCID_POLL_MAX_ATTEMPTS cfg = Some max;
  ready_url : buildBaseUrl cfg env (JS.strOrEmpty (deviceIp q)) = Returned baseUrl;
  ready_client :
    snd (ensureClient env baseUrl (clientNameOf env q) (clientid q))
      = Returned (cid, created)
}.

(** The station label that [startcall] resolves. *)
Definition stationOf (env : Env) (q : Query) : option string :=
  snd (getStationByIp env (JS.strOrEmpty (deviceIp q))).

(** The side-channel value: what the Java monitor gave for the station. *)
Definition sideChannelUcid (cfg : Config) (env : Env) (q : Query) : option string :=
  if JS.truthy (stationOf env q)
  then snd (getUcidFromJava cfg env (JS.strOrEmpty (stationOf env q)))
  else None.

(** The notification-channel values: interaction id and ucid after polling. *)
Definition notified (env : Env) (baseUrl cid : string) (interval max : Z)
    : option string * option string :=
  let '(_, i, u) := pollLoop env baseUrl cid interval max (pollFuel max) 0 None None in
  (i, u).

(** *** Masking and the load-time check *)

(** A line terminator, which the dot of a pattern does not match: LF or CR. *)
Definition isLineTerminator (c : ascii) : bool :=
  let n := N_of_ascii c in ((n =? 10) || (n =? 13))%N.

(** The lookahead [(?=.{4})]: four characters follow, none a line
    terminator. *)
Definition fourAhead (s : string) : bool :=
  match s with
  | String a (String b (String c (String d _))) =>
      negb (isLineTerminator a) && negb (isLineTerminator b)
      && negb (isLineTerminator c) && negb (isLineTerminator d)
  | _ => false
  end.

(** [s.replace(/.(?=.{4})/g, '*')]: a character is replaced when the dot
    matches it and the lookahead holds after it. *)
Fixpoint maskChars (s : string) : string :=
  match s with
  | EmptyString => EmptyString
  | String c rest =>
      String (if negb (isLineTerminator c) && fourAhead rest then "*"%char else c)
             (maskChars rest)
  end.

(** [maskPhone(p)]. *)
Definition maskPhone (p : option string) : option string :=
  if JS.truthy p then Some (maskChars (JS.strOrEmpty p)) else p.

(** [n] stars. *)
Fixpoint stars (n : nat) : string :=
  match n with O => EmptyString | S n' => String "*" (stars n') end.

(** The settings that [assertEnv] looks at, besides those of [Config]. *)
Record Settings := {
  DB_USER : option string;
  DB_PASS : option string;
  DB_SERVER : option string;
  DB_NAME : option string;
  CALL_TABLE_NAME : option string;
  ACTION_TABLE_NAME : option string;
  DEVICE_MAP_TABLE_NAME : option string;
  settings_cfg : Config
}.

(** The names that [assertEnv] pushes on [missing], in its order. *)
Definition missingSettings (s : Settings) : list string :=
  let cfg := settings_cfg s in
  missingOf [("DB_USER", DB_USER s); ("DB_PASS", DB_PASS s);
             ("DB_SERVER", DB_SERVER s); ("DB_NAME", DB_NAME s);
             ("CALL_TABLE_NAME", CALL_TABLE_NAME s);
             ("ACTION_TABLE_NAME", ACTION_TABLE_NAME s);
             ("DEVICE_MAP_TABLE_NAME", DEVICE_MAP_TABLE_NAME s)]
  ++ match UCID_POLL_INTERVAL_MS cfg with
     | Some _ => []
     | None => ["UCID_POLL_INTERVAL_MS"]
     end
  ++ match UCID_POLL_MAX_ATTEMPTS cfg with
     | Some _ => []
     | None => ["UCID_POLL_MAX"]
     end
  ++ missingOf [("ONEX_SCHEME", Some (ONEX_SCHEME cfg));
                ("ONEX_PORT", Some (ONEX_PORT cfg));
                ("ONEX_API_PATH", Some (ONEX_API_PATH cfg))].

(** [assertEnv()]: throws when a required variable is missing. *)
Definition assertEnv (s : Settings) : Answer unit :=
  let missing := missingSettings s in
  if negb (Nat.eqb (length missing) 0)
  then Thrown ("Missing required environment variables: " +:+ String.concat ", " missing)
  else Returned tt.

(** *** Vocabulary of the statements about the handlers *)

Definition isJavaMonitor (e : Event) : bool :=
  match e with EvJavaMonitor _ => true | _ => false end.

(** The time that a trace spends waiting. *)
Definition totalDelay (tr : list Event) : Z :=
  List.fold_right (fun e acc => match e with EvDelay ms => ms + acc | _ => acc end) 0 tr.

(** The request passes the checks that [startcall] makes before its first
    request. *)
Definition accepted (cfg : Config) (env : Env) (q : Query) : Prop :=
  JS.truthy (ticketNumber q) = true
  /\ JS.truthy (clientPhone q) = true
  /\ JS.truthy (deviceIp q) = true
  /\ UCID_POLL_INTERVAL_MS cfg <> None
  /\ UCID_POLL_MAX_ATTEMPTS cfg <> None
  /\ exists baseUrl, buildBaseUrl cfg env (JS.strOrEmpty (deviceIp q)) = Returned baseUrl.

(** The outcome says that the call has an interaction. *)
Definition succeeded (r : Response) : bool :=
  match body r with
  | BOutcome true _ _ _ _ _ => true
  | _ => false
  end.

(** The request has what the control handler of [a] requires. *)
Definition actionAccepted (a : Action) (q : Query) : bool :=
  JS.truthy (deviceIp q)
  && (negb (usesInteraction a) || JS.truthy (interactionid q)).

(** The services in which a failure of the station lookup reads as no
    station, and a failure of the Java monitor as an answer that is not
    ok. *)
Definition withoutSideFailures (env : Env) : Env :=
  {| urlWithApiPath := urlWithApiPath env;
     now := now env;
     stationRow :=
       fun ip => match stationRow env ip with
                 | Thrown _ => Returned None
                 | r => r
                 end;
     registerAnswer := registerAnswer env;
     unregisterAnswer := unregisterAnswer env;
     javaAnswer :=
       fun st => match javaAnswer env st with
                 | Thrown _ => Returned {| java_ok := false; java_ucid := None |}
                 | r => r
                 end;
     makecallAnswer := makecallAnswer env;
     notifyAnswer := notifyAnswer env;
     voiceAnswer := voiceAnswer env;
     insertAnswer := insertAnswer env |}.

End Onex.

(** ** [api/acr.js]: dates and the search window *)

Module Acr.

Import Onex (Answer, Returned, Thrown).

Record Config := {
  ACR_SCHEME : string;
  ACR_HOST : string;
  ACR_PORT : string;
  ACR_PATH : string;
  MEDIA_ROOT : string;
  USE_LOCAL_DEFAULT : bool
}.

(** The calendar fields that a [Date] reads in local time:
    [getFullYear()], [getMonth()] (0 to 11) and [getDate()]. *)
Record Date := { year : Z; month : Z; day : Z }.

(** The day number of a calendar date (days since 1970-01-01), for a
    month from 1 to 12 and a day counted from the first of that month. *)
Definition daysFromCivil (y m d : Z) : Z :=
  let y' := if m <=? 2 then y - 1 else y in
  let era := y' / 400 in
  let yoe := y' - era * 400 in
  let doy := (153 * (m + (if 2 <? m then -3 else 9)) + 2) / 5 + d - 1 in
  let doe := yoe * 365 + yoe / 4 - yoe / 100 + doy in
  era * 146097 + doe - 719468.

(** The calendar date of a day number. *)
Definition civilFromDays (z : Z) : Date :=
  let z := z + 719468 in
  let era := z / 146097 in
  let doe := z - era * 146097 in
  let yoe := (doe - doe / 1460 + doe / 36524 - doe / 146096) / 365 in
  let y := yoe + era * 400 in
  let doy := doe - (365 * yoe + yoe / 4 - yoe / 100) in
  let mp := (5 * doy + 2) / 153 in
  let d := doy - (153 * mp + 2) / 5 + 1 in
  let m := if mp <? 10 then mp + 3 else mp - 9 in
  {| year := if m <=? 2 then y + 1 else y; month := m - 1; day := d |}.

Definition msPerDay : Z := 86400000.

(** The largest time value of a [Date], either way from the epoch. *)
Definition maxTime : Z := 8640000000000000.

(** The time zone of the process. A reading of the local clock is in
    milliseconds since 1970-01-01T00:00 on that clock. [utcOf tz t] is
    [UTC(t)], the instant, in milliseconds since the epoch, that the
    reading [t] is taken for; [localOf tz u] is [LocalTime(u)], the
    reading of the local clock at the instant [u]. *)
Record TimeZone := { utcOf : Z -> Z; localOf : Z -> Z }.

(** The zone of a process that runs in UTC. *)
Definition utc : TimeZone := {| utcOf := fun t => t; localOf := fun u => u |}.

(** [LocalTime(UTC(t))]: it is [t] itself wherever the local clock shows
    [t] at some instant; a reading that the clock skips is taken for an
    instant that reads otherwise. *)
Definition relocalize (tz : TimeZone) (t : Z) : Z := localOf tz (utcOf tz t).

(** A [Date] object is kept as the local reading of its instant, [None]
    being the invalid date. [dateOf tz t] is the [Date] that the
    constructor and the setters make of the reading [t]:
    [TimeClip(UTC(t))]. *)
Definition dateOf (tz : TimeZone) (t : Z) : option Z :=
  if Z.abs (utcOf tz t) <=? maxTime then Some (relocalize tz t) else None.

(** The getters read the calendar fields of the local reading. *)
Definition fieldsOf (t : Z) : Date := civilFromDays (t / msPerDay).

(** [MakeDay(y, monthIndex, d)]: a month index outside 0..11 and a day
    outside the month carry over. *)
Definition makeDay (y monthIndex d : Z) : Z :=
  let ym := y + monthIndex / 12 in
  let mn := monthIndex mod 12 in
  daysFromCivil ym (mn + 1) 1 + (d - 1).

(** [new Date(y, monthIndex, d, 0, 0, 0, 0)], in local time. *)
Definition newDate (tz : TimeZone) (y monthIndex d : Z) : option Z :=
  dateOf tz (makeDay y monthIndex d * msPerDay).

(** [dt.setDate(dt.getDate() + n)]: the day changes, the time within the
    day is kept, in local time. *)
Definition addDays (tz : TimeZone) (t : Z) (n : Z) : option Z :=
  let f := fieldsOf t in
  dateOf tz (makeDay (year f) (month f) (day f + n) * msPerDay + t mod msPerDay).

(** [toDDMMYY(d)], for the fields of [d]; the getters of the invalid date
    give NaN, which is printed as it is, and [slice(-2)] keeps its last
    two letters. *)
Definition toDDMMYY (d : option Date) : string :=
  match d with
  | Some dt =>
      let dd := JS.padStart2 (JS.showZ (day dt)) in
      let mm := JS.padStart2 (JS.showZ (month dt + 1)) in
      let yy := JS.takeLast 2 (JS.showZ (year dt)) in
      dd +:+ "/" +:+ mm +:+ "/" +:+ yy
  | None => "NaN/NaN/aN"
  end.

(** [/^\d{4}-\d{2}-\d{2}$/.test(s)]. *)
Definition testYMD (s : string) : bool :=
  let '(a, r1) := JS.span JS.isDigit s in
  match r1 with
  | String c1 r1' =>
      let '(b, r2) := JS.span JS.isDigit r1' in
      match r2 with
      | String c2 r2' =>
          let '(c, r3) := JS.span JS.isDigit r2' in
          Nat.eqb (String.length a) 4 && Ascii.eqb c1 "-"
          && Nat.eqb (String.length b) 2 && Ascii.eqb c2 "-"
          && Nat.eqb (String.length c) 2 && String.eqb r3 ""
      | EmptyString => false
      end
  | EmptyString => false
  end.

(** [parseYMD(ymd)]: strict YYYY-MM-DD. *)
Definition parseYMD (tz : TimeZone) (ymd : option string) : option Z :=
  let s := JS.trim (JS.strOrEmpty ymd) in
  if negb (testYMD s) then None
  else
    match List.map JS.parseInt (JS.splitOn "-" s) with
    | [Some y; Some m; Some d] =>
        if (y <? 1970) || (2100 <? y) then None
        else if (m <? 1) || (12 <? m) then None
        else if (d <? 1) || (31 <? d) then None
        else
          match newDate tz y (m - 1) d with
          | Some dt =>
              if negb (year (fieldsOf dt) =? y) || negb (month (fieldsOf dt) =? m - 1)
                 || negb (day (fieldsOf dt) =? d)
              then None
              else Some dt
          | None => None
          end
    | _ => None
    end.

(** The part of [req.query] that the archive handlers read, with the two
    request headers that matter. *)
Record Query := {
  ucid : option string;
  number : option string;
  startdate : option string;
  enddate : option string;
  windowDays : option string;
  starttime : option string;
  endtime : option string;
  limit : option string;
  redirect : option string;
  local : option string;
  range : option string;          (* req.headers.range *)
  isHead : bool                   (* req.method === 'HEAD' *)
}.

(** The window of a search: the fields of its first day and of its last
    day, [None] when the end is the invalid date, and the two parameters
    made of them. *)
Record Window := { w_start : Date; w_end : option Date; w_p1 : string; w_p3 : string }.

(** [computeRangeFromQuery(q)], given the start date that the handler has
    already trimmed. *)
Definition computeRangeFromQuery (tz : TimeZone) (q : Query) (startdate : string)
    : Answer Window :=
  match parseYMD tz (Some startdate) with
  | None => Thrown "Invalid startdate (expected YYYY-MM-DD)"
  | Some start =>
      let finish (e : option Z) :=
        Returned {| w_start := fieldsOf start; w_end := option_map fieldsOf e;
                    w_p1 := toDDMMYY (Some (fieldsOf start));
                    w_p3 := toDDMMYY (option_map fieldsOf e) |} in
      if JS.truthy (enddate q) then
        match parseYMD tz (enddate q) with
        | None => Thrown "Invalid enddate (expected YYYY-MM-DD)"
        | Some e => finish (Some e)
        end
      else
        match windowDays q with
        | Some w =>
            match JS.toNum (JS.parseInt w) with
            | JS.Fin wd =>
                if wd <=? 0
                then Thrown "Invalid windowDays (must be positive integer)"
                else finish (addDays tz start wd)
            | _ => Thrown "Invalid windowDays (must be positive integer)"
            end
        | None => finish (Some start)
        end
  end.

(** [/^Invalid (startdate|enddate|windowDays)/.test(message)]. *)
Definition isInputErr (message : string) : bool :=
  String.prefix "Invalid startdate" message
  || String.prefix "Invalid enddate" message
  || String.prefix "Invalid windowDays" message.

(** *** Local media paths *)

(** A character of the class [[a-zA-Z0-9._-]]. *)
Definition isSafeChar (c : ascii) : bool :=
  JS.isLower c || JS.isUpper c || JS.isDigit c
  || Ascii.eqb c "." || Ascii.eqb c "_" || Ascii.eqb c "-".

(** [safeName(s)]. *)
Definition safeName (s : option string) : string :=
  JS.take 128
    (JS.map (fun c => if isSafeChar c then c else "_"%char) (JS.strOrEmpty s)).

(** [path.join] and [path.normalize] in their POSIX flavour. A path is
    absolute when it starts with the separator. *)
Definition isAbsolute (p : string) : bool :=
  match p with String c _ => Ascii.eqb c "/" | EmptyString => false end.

Fixpoint lastChar (p : string) : option ascii :=
  match p with
  | EmptyString => None
  | String c EmptyString => Some c
  | String _ p' => lastChar p'
  end.

Definition endsWithSep (p : string) : bool :=
  match lastChar p with Some c => Ascii.eqb c "/" | None => false end.

(** One step of [normalizeString]: [acc] is the stack of segments kept so
    far, the last one first. *)
Definition normStep (allowAboveRoot : bool) (acc : list string) (seg : string)
    : list string :=
  if String.eqb seg "" || String.eqb seg "." then acc
  else if String.eqb seg ".." then
    match acc with
    | lastSeg :: rest =>
        if String.eqb lastSeg ".."
        then (if allowAboveRoot then seg :: acc else acc)
        else rest
    | [] => if allowAboveRoot then [seg] else []
    end
  else seg :: acc.

(** The segments of the normalized path. *)
Definition normalizedSegments (p : string) : list string :=
  List.rev (List.fold_left (normStep (negb (isAbsolute p))) (JS.splitOn "/" p) []).

Fixpoint joinSegments (segs : list string) : string :=
  match segs with
  | [] => ""
  | [seg] => seg
  | seg :: rest => seg +:+ "/" +:+ joinSegments rest
  end.

(** [path.normalize(p)]. *)
Definition normalize (p : string) : string :=
  if String.eqb p "" then "."
  else
    let segs := normalizedSegments p in
    match segs with
    | [] => if isAbsolute p then "/" else if endsWithSep p then "./" else "."
    | _ =>
        (if isAbsolute p then "/" else "") +:+ joinSegments segs
        +:+ (if endsWithSep p then "/" else "")
    end.

(** [path.join(a, b)]. *)
Definition pathJoin (a b : string) : string :=
  let joined :=
    if String.eqb a "" then b
    else if String.eqb b "" then a
    else a +:+ "/" +:+ b in
  normalize joined.

(** A file name of the cache: safe characters, at least four of them. *)
Definition plainName (name : string) : Prop :=
  JS.all isSafeChar name = true /\ (4 <= String.length name)%nat.

(** The media root as a directory prefix: the normalized root followed by
    the separator. *)
Definition mediaDir (cfg : Config) : string :=
  (if isAbsolute (MEDIA_ROOT cfg) then "/" else "")
  +:+ String.concat "" (List.map (fun seg => seg +:+ "/")
                          (normalizedSegments (MEDIA_ROOT cfg))).

Record LocalPaths := { raw : string; wav : string; meta : string }.

(** [localPathsFor(inum)]. *)
Definition localPathsFor (cfg : Config) (inum : option string) : LocalPaths :=
  let base := safeName inum in
  {| raw := pathJoin (MEDIA_ROOT cfg) (base +:+ ".raw.bin");
     wav := pathJoin (MEDIA_ROOT cfg) (base +:+ ".wav");
     meta := pathJoin (MEDIA_ROOT cfg) (base +:+ ".json") |}.

(** *** Responses and range streaming *)

Record Payload := {
  p_ucid : option string;
  p_number : option string;
  p_inum : string;
  started_at : option string;
  duration_sec : option Z;
  agents : option string;
  other_parties : option string;
  services : option string;
  skills : option string;
  playback_url : string;
  raw_playback_url : option string
}.

Record JsonWindow := {
  jw_start : Date; jw_end : option Date; jw_p2 : option string; jw_p4 : option string
}.

Inductive Body : Type :=
| BMissing (missing : list string)             (* { ok:false, message, missing } *)
| BError (message : string)                    (* { ok:false, message } *)
| BInvalid (message : string) (invalid : list string)
| BNone (window : option JsonWindow)           (* { ok:true, found:0, items:[] } *)
| BItem (found : nat) (item : Payload) (window : JsonWindow)
| BItems (found : nat) (items : list Payload) (window : JsonWindow) (limit : Z)
| BText (text : string)
| BRedirect (url : string)
| BFile (path : string) (part : option (option Z * option Z))
| BProxied (inum : string)
| BEnd.

Record Response := {
  status : Z;
  headers : list (string * string);
  body : Body
}.

Definition reply (st : Z) (b : Body) : Response :=
  {| status := st; headers := []; body := b |}.

(** The file system under [MEDIA_ROOT]: the content of each file by path. *)
Abbreviation Files := (gmap string (list Byte.byte)).

Definition fileSize (content : list Byte.byte) : Z := Z.of_nat (length content).

(** The pattern [bytes=(\d+)-(\d{0,})] tried at the start of [s]: the two groups. *)
Definition matchRangeHere (s : string) : option (string * string) :=
  if String.prefix "bytes=" s then
    let '(d1, r1) := JS.span JS.isDigit (JS.drop 6 s) in
    if String.eqb d1 "" then None
    else
      match r1 with
      | String c r2 =>
          if Ascii.eqb c "-" then Some (d1, fst (JS.span JS.isDigit r2)) else None
      | EmptyString => None
      end
  else None.

(** [exec] of the pattern [bytes=(\d+)-(\d{0,})], which the source writes with a star, on [s]: the leftmost match. *)
Fixpoint execRange (s : string) : option (string * string) :=
  match matchRangeHere s with
  | Some m => Some m
  | None =>
      match s with
      | EmptyString => None
      | String _ s' => execRange s'
      end
  end.

Definition optSub (a b : option Z) : option Z :=
  match a, b with Some x, Some y => Some (x - y) | _, _ => None end.

(** The headers that [streamFile] always sets. *)
Definition commonHeaders (contentType : string) : list (string * string) :=
  [("Access-Control-Allow-Origin", "*"); ("Accept-Ranges", "bytes");
   ("Content-Type", contentType)].

(** What a call of [streamFile] leaves: the response that the file is
    piped to, or an exception and the [setHeader] calls that the call had
    made on [res] before it. An exception of Node is named by its code. *)
Inductive Streamed : Type :=
| Piped (resp : Response)
| Threw (message : string) (headers : list (string * string)).

(** [validateInteger(value, name, 0)]: what [createReadStream] asks of
    [start], and of an [end] that is not [Infinity]. *)
Definition validBound (v : JS.Num) : bool :=
  match v with
  | JS.Fin z => (0 <=? z) && (z <=? JS.MAX_SAFE_INTEGER)
  | _ => false
  end.

(** [fs.createReadStream(filePath, { start, end })] throws
    ERR_OUT_OF_RANGE, before it opens the file, when a bound is not a safe
    integer from 0 on or when [start > end]; an [end] that is [Infinity]
    is not looked at. *)
Definition readStreamRefuses (start end_ : JS.Num) : bool :=
  negb (validBound start)
  || match end_ with
     | JS.PosInf => false
     | _ => negb (validBound end_) || JS.gt start end_
     end.

(** [streamFile(filePath, req, res, contentType)]; [statSync] throws when
    the file is not there, before anything is set on [res]. In
    [BFile path (Some (start, end))] an [end] that is [None] stands for
    [Infinity]: the file is read to its end. *)
Definition streamFile (fs : Files) (filePath : string) (range : option string)
    (contentType : string) : Streamed :=
  match fs !! filePath with
  | None => Threw ("ENOENT: no such file or directory, stat '" +:+ filePath +:+ "'") []
  | Some content =>
      let total := JS.number (fileSize content) in
      let common := commonHeaders contentType in
      let full :=
        Piped {| status := 200;
                 headers := common ++ [("Content-Length", JS.numText total)];
                 body := BFile filePath None |} in
      if JS.truthy range then
        match execRange (JS.strOrEmpty range) with
        | Some (m1, m2) =>
            let start := JS.toNum (JS.parseInt m1) in
            let end_ :=
              if JS.truthy (Some m2) then JS.toNum (JS.parseInt m2)
              else JS.sub total (JS.Fin 1) in
            let set :=
              common
              ++ [("Content-Range",
                   "bytes " +:+ JS.numText start +:+ "-" +:+ JS.numText end_
                   +:+ "/" +:+ JS.numText total);
                  ("Content-Length",
                   JS.numText (JS.add (JS.sub end_ start) (JS.Fin 1)))] in
            if readStreamRefuses start end_ then Threw "ERR_OUT_OF_RANGE" set
            else
              Piped {| status := 206; headers := set;
                       body := BFile filePath (Some (JS.intOf start, JS.intOf end_)) |}
        | None => full
        end
      else full
  end.

(** *** The archive, the transcoder and the audit table *)

(** One [<field name="...">text</field>] of a search result. *)
Record Field := { f_name : option string; f_text : option string }.

(** One [<result inum="...">] of the parsed search response. *)
Record Result := { r_inum : option string; r_fields : list Field }.

(** The answer to the streamed GET of the raw recording. *)
Record Download := {
  dl_status : Z;
  dl_body : list Byte.byte;
  dl_streamError : option string     (* the stream failed after dl_body *)
}.

(** What the transcoder did: its exit code and the output file it wrote. *)
Record Transcode := {
  tc_exit : Z;
  tc_output : option (list Byte.byte)
}.

Record Env := {
  encodeURIComponent : string -> string;
  (* GET of the search endpoint with these parameters, parsed:
     parsed.results.result *)
  searchAnswer : list (string * string) -> Answer (list Result);
  (* GET ?command=replay&id=<inum> as a stream *)
  downloadAnswer : string -> Answer Download;
  (* ffmpeg on the content of its input file; Thrown when it cannot start *)
  ffmpegAnswer : list Byte.byte -> Answer Transcode;
  (* the proxied GET/HEAD: status and headers *)
  replayAnswer : string -> option string -> Answer (Z * list (string * string));
  (* JSON.stringify({ inum, createdAt }, null, 2) *)
  metaJson : string -> list Byte.byte;
  (* whether writeFileSync of the sidecar succeeds *)
  metaWritable : bool;
  (* whether unlinkSync of the raw download succeeds *)
  rawRemovable : bool;
  (* the time zone of the process *)
  timeZone : TimeZone;
  (* new Date(s).getTime(), None for an invalid date *)
  dateMs : string -> option Z
}.

Inductive Event : Type :=
| EvSearch (params : list (string * string))
| EvDownload (inum outPath : string)
| EvTranscode (inPath outPath : string)
| EvReplay (url : string) (range : option string)
| EvInsertRow (payload : Payload).

Definition isDownload (e : Event) : bool :=
  match e with EvDownload _ _ => true | _ => false end.

Definition isTranscode (e : Event) : bool :=
  match e with EvTranscode _ _ => true | _ => false end.

Definition countEvents (p : Event -> bool) (tr : list Event) : nat :=
  length (List.filter p tr).

Definition acrBase (cfg : Config) : string :=
  ACR_SCHEME cfg +:+ "://" +:+ ACR_HOST cfg +:+ ":" +:+ ACR_PORT cfg +:+ ACR_PATH cfg.

(** [buildReplayUrls(inum)]: [{ raw, proxied }]. *)
Definition buildReplayUrls (cfg : Config) (env : Env) (inum : string) : string * string :=
  (acrBase cfg +:+ "?command=replay&id=" +:+ encodeURIComponent env inum,
   "/api/acr/replay/" +:+ encodeURIComponent env inum).

(** The object built by [Object.fromEntries]: a later field of the same
    name replaces an earlier one. *)
Definition fieldsObj (fields : list Field) : gmap string (option string) :=
  List.fold_left
    (fun m f => <[JS.toLowerCase (JS.strOrEmpty (f_name f)) := f_text f]> m)
    fields ∅.

(** [fields.name || null]. *)
Definition fieldOr (fields : gmap string (option string)) (name : string) : option string :=
  JS.or (mjoin (fields !! name)) None.

(** [mapResultFields(result)]: [{ inum, fields, switchcallid }]. *)
Definition mapResultFields (r : Result)
    : option string * gmap string (option string) * option string :=
  let fields := fieldsObj (r_fields r) in
  (JS.or (r_inum r) None, fields, fieldOr fields "switchcallid").

(** [fields.duration ? parseInt(fields.duration, 10) : null]. *)
Definition durationOf (fields : gmap string (option string)) : option Z :=
  if JS.truthy (mjoin (fields !! "duration"))
  then JS.parseInt (JS.strOrEmpty (mjoin (fields !! "duration")))
  else None.

(** [insertAcrRow(payload, ctx)]: one INSERT, its failure caught. *)
Definition insertAcrRow (payload : Payload) : list Event := [EvInsertRow payload].

(** [downloadRawFromAcr(inum, outPath, ctx)]. *)
Definition downloadRawFromAcr (env : Env) (fs : Files) (inum outPath : string)
    : list Event * Files * Answer unit :=
  let tr := [EvDownload inum outPath] in
  match downloadAnswer env inum with
  | Thrown m => (tr, fs, Thrown m)
  | Returned dl =>
      if (dl_status dl <? 200) || (400 <=? dl_status dl)
      then (tr, fs, Thrown ("ACR GET failed (" +:+ JS.showZ (dl_status dl) +:+ ")"))
      else
        let fs' := <[outPath := dl_body dl]> fs in
        match dl_streamError dl with
        | Some m => (tr, fs', Thrown m)
        | None => (tr, fs', Returned tt)
        end
  end.

(** [transcodeToWav(inPath, outPath, ctx)]. *)
Definition transcodeToWav (env : Env) (fs : Files) (inPath outPath : string)
    : list Event * Files * Answer unit :=
  let tr := [EvTranscode inPath outPath] in
  match ffmpegAnswer env (default [] (fs !! inPath)) with
  | Thrown m => (tr, fs, Thrown m)
  | Returned t =>
      let fs' :=
        match tc_output t with
        | Some out => <[outPath := out]> fs
        | None => fs
        end in
      if tc_exit t =? 0 then (tr, fs', Returned tt)
      else (tr, fs', Thrown ("ffmpeg exited " +:+ JS.showZ (tc_exit t)))
  end.

(** [fs.existsSync(p) && fs.statSync(p).size > 0]. *)
Definition cachedNonEmpty (fs : Files) (p : string) : bool :=
  match fs !! p with
  | Some content => 0 <? fileSize content
  | None => false
  end.

(** [ensureLocalWav(inum, ctx)]: the trace, the files afterwards, and the
    path of the playable file or the exception. *)
Definition ensureLocalWav (cfg : Config) (env : Env) (fs : Files) (inum : string)
    : list Event * Files * Answer string :=
  let paths := localPathsFor cfg (Some inum) in
  if cachedNonEmpty fs (wav paths) then ([], fs, Returned (wav paths))
  else
    let '(tr1, fs1, r1) := downloadRawFromAcr env fs inum (raw paths) in
    match r1 with
    | Thrown m => (tr1, fs1, Thrown m)
    | Returned _ =>
        let '(tr2, fs2, r2) := transcodeToWav env fs1 (raw paths) (wav paths) in
        match r2 with
        | Thrown m => (tr1 ++ tr2, fs2, Thrown m)
        | Returned _ =>
            let fs3 :=
              if metaWritable env then <[meta paths := metaJson env inum]> fs2 else fs2 in
            let fs4 := if rawRemovable env then delete (raw paths) fs3 else fs3 in
            (tr1 ++ tr2, fs4, Returned (wav paths))
        end
    end.

(** *** The routes *)

Definition missingOf (fields : list (string * string)) : list string :=
  List.map fst (List.filter (fun f => negb (JS.truthy (Some (snd f)))) fields).

(** The [catch] of [/find] and [/searchByNumber]. *)
Definition catchJson (q : Query) (message : string) : Response :=
  if isInputErr message then
    reply 400 (BInvalid message
                 ("startdate" :: if JS.truthy (enddate q) then ["enddate"] else []))
  else reply 502 (BError message).

(** The [catch] of [/replayByUcid]. *)
Definition catchText (message : string) : Response :=
  if isInputErr message then reply 400 (BText message)
  else reply 502 (BText ("ACR replayByUcid error: " +:+ message)).

Definition ucidSearchParams (w : Window) (ucid : string) : list (string * string) :=
  [("command", "search"); ("operator_startedat", "9");
   ("param1_startedat", w_p1 w); ("param3_startedat", w_p3 w);
   ("operator_switchcallid", "1"); ("param1_switchcallid", ucid)].

(** The record built from the first result by [/find] and [/replayByUcid]. *)
Definition payloadOf (ucid number : option string) (inum : string)
    (fields : gmap string (option string)) (proxied : string)
    (rawUrl : option string) : Payload :=
  {| p_ucid := ucid; p_number := number; p_inum := inum;
     started_at := fieldOr fields "startedat";
     duration_sec := durationOf fields;
     agents := fieldOr fields "agents";
     other_parties := fieldOr fields "otherparties";
     services := fieldOr fields "services";
     skills := fieldOr fields "skills";
     playback_url := proxied;
     raw_playback_url := rawUrl |}.

(** GET /api/acr/find *)
Definition find (cfg : Config) (env : Env) (q : Query) : list Event * Response :=
  let ucid := JS.trim (JS.strOrEmpty (ucid q)) in
  let startdate := JS.trim (JS.strOrEmpty (startdate q)) in
  let missing := missingOf [("ucid", ucid); ("startdate", startdate)] in
  if negb (Nat.eqb (length missing) 0) then ([], reply 400 (BMissing missing))
  else
    match computeRangeFromQuery (timeZone env) q startdate with
    | Thrown m => ([], catchJson q m)
    | Returned w =>
        let params := ucidSearchParams w ucid in
        match searchAnswer env params with
        | Thrown m => ([EvSearch params], catchJson q m)
        | Returned results =>
            match results with
            | [] => ([EvSearch params], reply 200 (BNone None))
            | first :: _ =>
                let '(inum, fields, _) := mapResultFields first in
                if negb (JS.truthy inum)
                then ([EvSearch params], reply 502 (BError "ACR returned no INUM"))
                else
                  let '(rawUrl, proxied) := buildReplayUrls cfg env (JS.strOrEmpty inum) in
                  let payload :=
                    payloadOf None None (JS.strOrEmpty inum) fields proxied (Some rawUrl) in
                  (EvSearch params :: insertAcrRow payload,
                   reply 200
                     (BItem (length results) payload
                        {| jw_start := w_start w; jw_end := w_end w;
                           jw_p2 := None; jw_p4 := None |}))
            end
        end
    end.

Definition HOP_BY_HOP : list string :=
  ["transfer-encoding"; "connection"; "keep-alive"; "proxy-authenticate";
   "proxy-authorization"; "te"; "trailer"; "upgrade"].

(** [replayHandler(req, res)] for the recording [inum]. *)
Definition replayHandler (cfg : Config) (env : Env) (q : Query) (inum : string)
    : list Event * Response :=
  if negb (JS.truthy (Some inum)) then ([], reply 400 (BText "missing inum"))
  else
    let '(rawReplay, proxied) := buildReplayUrls cfg env inum in
    let row :=
      {| p_ucid := JS.or (ucid q) None; p_number := None; p_inum := inum;
         started_at := None; duration_sec := None; agents := None;
         other_parties := None; services := None; skills := None;
         playback_url := proxied; raw_playback_url := None |} in
    let range := if JS.truthy (range q) then range q else None in
    (insertAcrRow row ++ [EvReplay rawReplay range],
     match replayAnswer env rawReplay range with
     | Thrown m => reply 502 (BText ("ACR replay error: " +:+ m))
     | Returned (st, hs) =>
         {| status := st;
            headers :=
              List.filter
                (fun h => negb (existsb (String.eqb (JS.toLowerCase (fst h))) HOP_BY_HOP)) hs
              ++ [("Access-Control-Allow-Origin", "*")];
            body := if isHead q then BEnd else BProxied inum |}
     end).

(** The response of a handler that runs on a [res] on which these headers
    have been set before: its own [setHeader] calls come after them. *)
Definition afterHeaders (set : list (string * string)) (resp : Response) : Response :=
  {| status := status resp; headers := set ++ headers resp; body := body resp |}.

(** [/^1|true$/i.test(s)]: [s] starts with 1 or ends with true. *)
Definition testLocalFlag (s : string) : bool :=
  String.prefix "1" s || String.prefix "eurt" (String.rev (JS.toLowerCase s)).

(** GET /api/acr/replayByUcid *)
Definition replayByUcid (cfg : Config) (env : Env) (fs : Files) (q : Query)
    : list Event * Files * Response :=
  let ucid := JS.trim (JS.strOrEmpty (ucid q)) in
  let startdate := JS.trim (JS.strOrEmpty (startdate q)) in
  let missing := missingOf [("ucid", ucid); ("startdate", startdate)] in
  if negb (Nat.eqb (length missing) 0) then
    ([], fs, reply 400 (BText ("Missing required parameters: "
                               +:+ String.concat ", " missing)))
  else
    match computeRangeFromQuery (timeZone env) q startdate with
    | Thrown m => ([], fs, catchText m)
    | Returned w =>
        let params := ucidSearchParams w ucid in
        match searchAnswer env params with
        | Thrown m => ([EvSearch params], fs, catchText m)
        | Returned results =>
            match results with
            | [] =>
                ([EvSearch params], fs,
                 reply 404 (BText "No recording found for that UCID/date"))
            | first :: _ =>
                let '(inum, fields, _) := mapResultFields first in
                if negb (JS.truthy inum)
                then ([EvSearch params], fs, reply 502 (BText "ACR returned no INUM"))
                else
                  let inum := JS.strOrEmpty inum in
                  let '(rawUrl, proxied) := buildReplayUrls cfg env inum in
                  let row := payloadOf (Some ucid) None inum fields proxied None in
                  let tr0 := EvSearch params :: insertAcrRow row in
                  if match redirect q with
                     | Some r => String.eqb r "1" || String.eqb r "true"
                     | None => false
                     end
                  then (tr0, fs, reply 302 (BRedirect rawUrl))
                  else
                    let preferLocal :=
                      match local q with
                      | Some l => testLocalFlag l
                      | None => USE_LOCAL_DEFAULT cfg
                      end in
                    let fallback (tr : list Event) (fs' : Files)
                        (set : list (string * string)) :=
                      let '(trR, resp) := replayHandler cfg env q inum in
                      (tr ++ trR, fs', afterHeaders set resp) in
                    if preferLocal then
                      let '(trW, fs', wavPath) := ensureLocalWav cfg env fs inum in
                      match wavPath with
                      | Thrown _ => fallback (tr0 ++ trW) fs' []
                      | Returned p =>
                          match streamFile fs' p (range q) "audio/wav" with
                          | Piped resp => (tr0 ++ trW, fs', resp)
                          | Threw _ set => fallback (tr0 ++ trW) fs' set
                          end
                      end
                    else fallback tr0 fs []
            end
        end
    end.

(** The time value of [new Date(item.started_at || 0)]. *)
Definition startMs (env : Env) (item : Payload) : option Z :=
  if JS.truthy (started_at item)
  then dateMs env (JS.strOrEmpty (started_at item))
  else Some 0.

(** The comparator of [/searchByNumber]:
    [new Date(b.started_at || 0) - new Date(a.started_at || 0)]. *)
Definition compareNewest (env : Env) (a b : Payload) : option Z :=
  optSub (startMs env b) (startMs env a).

(** [Array.prototype.sort] is stable and reads a [NaN] from the comparator
    as [+0]: [a] stays before a later [b] unless the comparator is positive.
    For a consistent comparator the sorted array is the one that the stable
    insertion below builds. *)
Definition staysBefore (env : Env) (a b : Payload) : bool :=
  match compareNewest env a b with
  | Some v => v <=? 0
  | None => true
  end.

Fixpoint insertItem (env : Env) (x : Payload) (l : list Payload) : list Payload :=
  match l with
  | [] => [x]
  | y :: l' => if staysBefore env x y then x :: l else y :: insertItem env x l'
  end.

Definition sortItems (env : Env) (items : list Payload) : list Payload :=
  List.fold_right (insertItem env) [] items.

(** The callback of [results.map] in [/searchByNumber]; [None] is the
    [null] that [filter(Boolean)] drops. *)
Definition itemOf (cfg : Config) (env : Env) (number : string) (r : Result)
    : option Payload :=
  let '(inum, fields, switchcallid) := mapResultFields r in
  if negb (JS.truthy inum) then None
  else
    let '(rawUrl, proxied) := buildReplayUrls cfg env (JS.strOrEmpty inum) in
    Some (payloadOf (JS.or switchcallid None) (Some number) (JS.strOrEmpty inum)
            fields proxied (Some rawUrl)).

(** The [limit] of [/searchByNumber] after its two guards. *)
Definition limitOf (q : Query) : Z :=
  match JS.parseInt (JS.strOrEmpty (JS.or (limit q) (Some "0"))) with
  | Some l => if l <? 0 then 0 else l
  | None => 0
  end.

(** The parameters of the search by number. *)
Definition numberSearchParams (w : Window) (p2 p4 number : string)
    : list (string * string) :=
  [("command", "search"); ("layout", "AvayaSegment");
   ("operator_startedat", "9");
   ("param1_startedat", w_p1 w); ("param2_startedat", p2);
   ("param3_startedat", w_p3 w); ("param4_startedat", p4);
   ("operator_otherparties", "8"); ("param1_otherparties", number)].

(** [(req.query.starttime || '00:00:00').trim()] and the same for the end. *)
Definition p2Of (q : Query) : string :=
  JS.trim (JS.strOrEmpty (JS.or (starttime q) (Some "00:00:00"))).

Definition p4Of (q : Query) : string :=
  JS.trim (JS.strOrEmpty (JS.or (endtime q) (Some "23:59:59"))).

(** GET /api/acr/searchByNumber *)
Definition searchByNumber (cfg : Config) (env : Env) (q : Query)
    : list Event * Response :=
  let number := JS.trim (JS.strOrEmpty (number q)) in
  let startdate := JS.trim (JS.strOrEmpty (startdate q)) in
  let missing := missingOf [("number", number); ("startdate", startdate)] in
  if negb (Nat.eqb (length missing) 0) then ([], reply 400 (BMissing missing))
  else
    match computeRangeFromQuery (timeZone env) q startdate with
    | Thrown m => ([], catchJson q m)
    | Returned w =>
        let p2 := p2Of q in
        let p4 := p4Of q in
        let limit := limitOf q in
        let params := numberSearchParams w p2 p4 number in
        let window :=
          {| jw_start := w_start w; jw_end := w_end w;
             jw_p2 := Some p2; jw_p4 := Some p4 |} in
        match searchAnswer env params with
        | Thrown m => ([EvSearch params], catchJson q m)
        | Returned results =>
            match results with
            | [] => ([EvSearch params], reply 200 (BNone (Some window)))
            | _ =>
                let items := sortItems env (omap (itemOf cfg env number) results) in
                let total := length items in
                if (limit =? 0) || (limit <=? 0) then
                  match items with
                  | first :: _ =>
                      (EvSearch params :: insertAcrRow first,
                       reply 200 (BItem total first window))
                  | [] =>
                      (* first is undefined: reading first.inum throws *)
                      ([EvSearch params],
                       catchJson q "Cannot read properties of undefined (reading 'inum')")
                  end
                else
                  let limited := List.firstn (Z.to_nat limit) items in
                  (EvSearch params :: List.flat_map insertAcrRow limited,
                   reply 200 (BItems total limited window limit))
            end
        end
    end.

(** *** Vocabulary of the statements about the cache and the streamer *)

(** The archive serves the recording and the transcoder turns it into a
    non-empty file. *)
Definition validRecording (env : Env) (inum : string) : Prop :=
  exists dl t out,
    downloadAnswer env inum = Returned dl
    /\ 200 <= dl_status dl /\ dl_status dl < 400
    /\ dl_streamError dl = None
    /\ ffmpegAnswer env (dl_body dl) = Returned t
    /\ tc_exit t = 0
    /\ tc_output t = Some out
    /\ out <> [].



(** *** Vocabulary of the statements about the search routes *)

Definition isLeapYear (y : Z) : bool :=
  ((y mod 4 =? 0) && negb (y mod 100 =? 0)) || (y mod 400 =? 0).

Definition daysInMonth (y m : Z) : Z :=
  if m =? 2 then (if isLeapYear y then 29 else 28)
  else if (m =? 4) || (m =? 6) || (m =? 9) || (m =? 11) then 30 else 31.

(** A real calendar date written YYYY-MM-DD. *)
Definition calendarYMD (s : string) : Prop :=
  exists a b c,
    s = a +:+ "-" +:+ b +:+ "-" +:+ c
    /\ JS.all JS.isDigit a = true /\ String.length a = 4%nat
    /\ JS.all JS.isDigit b = true /\ String.length b = 2%nat
    /\ JS.all JS.isDigit c = true /\ String.length c = 2%nat
    /\ 1 <= JS.digitsValue 0 b <= 12
    /\ 1 <= JS.digitsValue 0 c <= daysInMonth (JS.digitsValue 0 a) (JS.digitsValue 0 b).

Definition zrange (from : Z) (n : nat) : list Z :=
  List.map (fun i => from + Z.of_nat i) (List.seq 0 n).

(** What the three search routes refuse: a start date or a given end date
    that is not a calendar date, or, when no end date is given, a
    [windowDays] that is not a positive number. *)
Definition invalidWindow (q : Query) : Prop :=
  ~ calendarYMD (JS.trim (JS.strOrEmpty (startdate q)))
  \/ (JS.truthy (enddate q) = true
      /\ ~ calendarYMD (JS.trim (JS.strOrEmpty (enddate q))))
  \/ (JS.truthy (enddate q) = false
      /\ exists w, windowDays q = Some w
                   /\ forall n, JS.parseInt w = Some n -> n <= 0).

(** The result has a recording identifier. *)
Definition hasInum (r : Result) : bool := JS.truthy (r_inum r).

(** The [found] field of a JSON answer. *)
Definition foundOf (b : Body) : option nat :=
  match b with
  | BNone _ => Some O
  | BItem found _ _ => Some found
  | BItems found _ _ _ => Some found
  | _ => None
  end.

(** The records that a JSON answer returns. *)
Definition itemsOf (b : Body) : list Payload :=
  match b with
  | BItem _ item _ => [item]
  | BItems _ items _ _ => items
  | _ => []
  end.

(** The rows that a run inserts in the audit table. *)
Definition rowsOf (tr : list Event) : list Payload :=
  omap (fun e => match e with EvInsertRow p => Some p | _ => None end) tr.


(** A search by number that gets its answer from the archive: the request
    is well formed and the archive returns [results]. *)
Record NumberSearch (env : Env) (q : Query) (w : Window) (results : list Result)
    : Prop := {
  ns_number : JS.truthy (Some (JS.trim (JS.strOrEmpty (number q)))) = true;
  ns_startdate : JS.truthy (Some (JS.trim (JS.strOrEmpty (startdate q)))) = true;
  ns_window :
    computeRangeFromQuery (timeZone env) q (JS.trim (JS.strOrEmpty (startdate q)))
      = Returned w;
  ns_answer :
    searchAnswer env
      (numberSearchParams w (p2Of q) (p4Of q) (JS.trim (JS.strOrEmpty (number q))))
      = Returned results
}.

(** The records that survive the identifier filter, in the order of the
    archive. *)
Definition survivors (cfg : Config) (env : Env) (q : Query) (results : list Result)
    : list Payload :=
  omap (itemOf cfg env (JS.trim (JS.strOrEmpty (number q)))) results.

(** *** The sweep of the media root *)

(** [s.endsWith(suffix)]. *)
Fixpoint endsWith (s suffix : string) : bool :=
  String.eqb s suffix
  || match s with
     | String _ s' => endsWith s' suffix
     | EmptyString => false
     end.

(** [/\.(wav|json|raw\.bin)$/i.test(name)]. *)
Definition isArtifactName (name : string) : bool :=
  let l := JS.toLowerCase name in
  endsWith l ".wav" || endsWith l ".json" || endsWith l ".raw.bin".

(** What the sweep sees of the media root: the modification time
    ([mtimeMs]) of each file by path. *)
Abbreviation Mtimes := (gmap string Z).

Record SweepEnv := {
  now : Z;                              (* Date.now() *)
  CACHE_TTL_HOURS : option Z;           (* parseInt(..., 10), None for NaN *)
  listing : Answer (list string);       (* fs.readdirSync(MEDIA_ROOT) *)
  unlinkFails : string -> bool          (* fs.unlinkSync(p) throws *)
}.

(** [Date.now() - CACHE_TTL_HOURS * 3600 * 1000], [None] for [NaN]. *)
Definition cutoff (se : SweepEnv) : option Z :=
  option_map (fun h => now se - h * 3600 * 1000) (CACHE_TTL_HOURS se).

(** [st.mtimeMs < cutoff]. *)
Definition isOld (se : SweepEnv) (mtimeMs : Z) : bool :=
  match cutoff se with
  | Some c => mtimeMs <? c
  | None => false
  end.

(** The body of the loop of [cleanupOldMedia] for one name: the files and
    the count afterwards. *)
Definition sweepStep (cfg : Config) (se : SweepEnv) (st : Mtimes * Z) (name : string)
    : Mtimes * Z :=
  if negb (isArtifactName name) then st
  else
    let p := pathJoin (MEDIA_ROOT cfg) name in
    match fst st !! p with
    | None => st                                  (* statSync throws, caught *)
    | Some mtimeMs =>
        if isOld se mtimeMs then
          if unlinkFails se p then st             (* unlinkSync throws, caught *)
          else (delete p (fst st), snd st + 1)
        else st
    end.

(** [cleanupOldMedia()]: the files afterwards and the count that it logs,
    [None] when [readdirSync] throws and nothing is logged as removed. *)
Definition cleanupOldMedia (cfg : Config) (se : SweepEnv) (files : Mtimes)
    : Mtimes * option Z :=
  match listing se with
  | Thrown _ => (files, None)
  | Returned names =>
      let st := List.fold_left (sweepStep cfg se) names (files, 0) in
      (fst st, Some (snd st))
  end.

(** *** Vocabulary of the statements about dates, fields and the sweep *)

(** A date that [parseYMD] accepts, and the [Date] it stands for. *)
Definition acceptedYMD (s : string) (dt : Date) : Prop :=
  exists a b c,
    s = a +:+ "-" +:+ b +:+ "-" +:+ c
    /\ JS.all JS.isDigit a = true /\ String.length a = 4%nat
    /\ JS.all JS.isDigit b = true /\ String.length b = 2%nat
    /\ JS.all JS.isDigit c = true /\ String.length c = 2%nat
    /\ 1970 <= JS.digitsValue 0 a <= 2100
    /\ 1 <= JS.digitsValue 0 b <= 12
    /\ 1 <= JS.digitsValue 0 c <= daysInMonth (JS.digitsValue 0 a) (JS.digitsValue 0 b)
    /\ dt = {| year := JS.digitsValue 0 a;
               month := JS.digitsValue 0 b - 1;
               day := JS.digitsValue 0 c |}.

(** The digits of YYYY-MM-DD in the order DD/MM/YY. *)
Definition echoDDMMYY (s : string) : string :=
  JS.take 2 (JS.drop 8 s) +:+ "/" +:+ JS.take 2 (JS.drop 5 s)
  +:+ "/" +:+ JS.take 2 (JS.drop 2 s).

Definition digitChars : list ascii :=
  ["0"; "1"; "2"; "3"; "4"; "5"; "6"; "7"; "8"; "9"]%char.

(** The strings of [n] decimal digits. *)
Fixpoint digitStrings (n : nat) : list string :=
  match n with
  | O => [EmptyString]
  | S n' => List.flat_map (fun c => List.map (String c) (digitStrings n')) digitChars
  end.

(** The [n] integers from [from] on. *)
Fixpoint zfrom (from : Z) (n : nat) : list Z :=
  match n with
  | O => []
  | S n' => from :: zfrom (from + 1) n'
  end.

(** A zone in which a reading of the local clock is taken for an instant
    of the same local day: the clock skips no day, and no midnight into
    the day before. *)
Definition keepsDay (tz : TimeZone) : Prop :=
  forall t, relocalize tz t / msPerDay = t / msPerDay.

(** A zone whose clock is never more than a day away from UTC. *)
Definition nearUTC (tz : TimeZone) : Prop :=
  forall t, Z.abs (utcOf tz t - t) <= msPerDay.

(** A Range header that [streamFile] serves whatever the size of the
    file: none, one without [bytes=digits-], or one whose first such part
    has an end, with start <= end <= MAX_SAFE_INTEGER. *)
Definition servableRange (range : option string) : Prop :=
  JS.truthy range = false
  \/ match execRange (JS.strOrEmpty range) with
     | None => True
     | Some (m1, m2) =>
         m2 <> ""
         /\ JS.digitsValue 0 m1 <= JS.digitsValue 0 m2 <= JS.MAX_SAFE_INTEGER
     end.

(** The day number of a [Date]. *)
Definition dayNumber (dt : Date) : Z :=
  daysFromCivil (year dt) (month dt + 1) (day dt).

(** A day of the calendar, the month counted from 0. *)
Definition validDate (dt : Date) : bool :=
  (0 <=? month dt) && (month dt <=? 11)
  && (1 <=? day dt) && (day dt <=? daysInMonth (year dt) (month dt + 1)).



(** A search by ucid that gets its answer from the archive. *)
Record UcidSearch (env : Env) (q : Query) (w : Window) (results : list Result)
    : Prop := {
  us_ucid : JS.truthy (Some (JS.trim (JS.strOrEmpty (ucid q)))) = true;
  us_startdate : JS.truthy (Some (JS.trim (JS.strOrEmpty (startdate q)))) = true;
  us_window :
    computeRangeFromQuery (timeZone env) q (JS.trim (JS.strOrEmpty (startdate q)))
      = Returned w;
  us_answer :
    searchAnswer env (ucidSearchParams w (JS.trim (JS.strOrEmpty (ucid q))))
      = Returned results
}.

(** [redirect === '1' || redirect === 'true']. *)
Definition wantsRedirect (q : Query) : bool :=
  match redirect q with
  | Some r => String.eqb r "1" || String.eqb r "true"
  | None => false
  end.

(** [preferLocal] of [/replayByUcid]. *)
Definition prefersLocal (cfg : Config) (q : Query) : bool :=
  match local q with
  | Some l => testLocalFlag l
  | None => USE_LOCAL_DEFAULT cfg
  end.

Definition isReplay (e : Event) : bool :=
  match e with EvReplay _ _ => true | _ => false end.

(** The header is one of the hop-by-hop headers. *)
Definition isHopByHop (h : string * string) : bool :=
  existsb (String.eqb (JS.toLowerCase (fst h))) HOP_BY_HOP.

(** The name [p] is touched by the sweep: an artifact name of the listing
    joins the media root to it. *)
Definition listedArtifact (cfg : Config) (names : list string) (p : string) : bool :=
  existsb (fun name => isArtifactName name && String.eqb (pathJoin (MEDIA_ROOT cfg) name) p)
    names.

(** The file at [p] is one that the sweep removes. *)
Definition swept (cfg : Config) (se : SweepEnv) (names : list string) (files : Mtimes)
    (p : string) : bool :=
  listedArtifact cfg names p
  && match files !! p with
     | Some mtimeMs => isOld se mtimeMs
     | None => false
     end
  && negb (unlinkFails se p).

End Acr.

(** ** [api/lookup.js]: the ucid of a ticket *)

Module Lookup.

Import Onex (Answer, Returned, Thrown).

(** A character of the class [[A-Za-z0-9_]]. *)
Definition isWordChar (c : ascii) : bool :=
  JS.isUpper c || JS.isLower c || JS.isDigit c || Ascii.eqb c "_".

(** [CALL_TABLE_NAME], from [process.env.CALL_TABLE_NAME]. *)
Definition CALL_TABLE_NAME (envName : option string) : string :=
  let RAW_TABLE := JS.strOrEmpty (JS.or envName (Some "Calls")) in
  if negb (String.eqb RAW_TABLE "") && JS.all isWordChar RAW_TABLE
  then RAW_TABLE else "Calls".

Record Row := {
  ticket_number : option string;
  ucid : option string;
  agent_user : option string;
  log_date : option string
}.

Record Env := {
  connectAnswer : Answer unit;                           (* sql.connect *)
  (* the SELECT on this table for this ticket: result.recordset *)
  queryAnswer : string -> string -> Answer (option (list Row))
}.

Inductive Event : Type :=
| EvConnect
| EvQuery (table ticket : string)
| EvClose.

Inductive Body : Type :=
| BMissing                                   (* { ok:false, message } *)
| BFound (found : nat) (items : list Row)    (* { ok:true, found, items } *)
| BError (message : string).




End Lookup.

(** ** Sample configurations, services and requests *)

Module Sample.

Import Onex (Returned, Thrown).

Definition cfg : Onex.Config :=
  {| Onex.CALL_PREFIX := "9";
     Onex.UCID_POLL_INTERVAL_MS := Some 500;
     Onex.UCID_POLL_MAX_ATTEMPTS := Some 3;
     Onex.UCID_MONITOR_TIMEOUT_MS := Some 8000;
     Onex.JAVA_UCID_BASEURL := Some "http://localhost:8081";
     Onex.ONEX_SCHEME := "http";
     Onex.ONEX_PORT := "60000";
     Onex.ONEX_API_PATH := "/onexagent/api" |}.

Definition baseUrl : string := "http://10.0.0.5:60000/onexagent/api".

(** One-X services: the station of the device, the answer to [makecall]
    and the notifications are given; registration yields the client C-1
    and the Java monitor yields the ucid J-77. *)
Definition services (station : option string) (call : Onex.Answer unit)
    (notify : Z -> Onex.Answer (option Onex.VoiceAttrs)) : Onex.Env :=
  {| Onex.urlWithApiPath := fun _ => Thrown "Invalid URL";
     Onex.now := "1700000000000";
     Onex.stationRow := fun _ => Returned station;
     Onex.registerAnswer :=
       fun _ => Returned {| Onex.reg_ClientId := Some "C-1"; Onex.reg_clientId := None |};
     Onex.unregisterAnswer := fun _ => Returned tt;
     Onex.javaAnswer :=
       fun _ => Returned {| Onex.java_ok := true; Onex.java_ucid := Some "J-77" |};
     Onex.makecallAnswer := call;
     Onex.notifyAnswer := notify;
     Onex.voiceAnswer := fun _ => Returned (Some "0");
     Onex.insertAnswer := Returned tt |}.

Definition voice : Onex.VoiceAttrs :=
  {| Onex.ObjectId := Some "VI:1"; Onex.UCID := Some "X-42" |}.

(** The first poll times out, the second brings the interaction. *)
Definition env : Onex.Env :=
  services (Some "4001") (Returned tt)
    (fun k => if k =? 1 then Thrown "timeout"
              else if k =? 2 then Returned (Some voice) else Returned None).

(** Placing the call fails. *)
Definition envCallFails : Onex.Env :=
  services (Some "4001") (Thrown "ECONNRESET") (fun _ => Returned None).

(** Every poll times out. *)
Definition envSilent : Onex.Env :=
  services (Some "4001") (Returned tt) (fun _ => Thrown "timeout").

(** No station is mapped to the device and the notification carries the
    interaction id without a ucid. *)
Definition envNoUcid : Onex.Env :=
  services None (Returned tt)
    (fun _ => Returned (Some {| Onex.ObjectId := Some "VI:1"; Onex.UCID := None |})).

Definition query : Onex.Query :=
  {| Onex.ticketNumber := Some "T-7";
     Onex.clientPhone := Some "0791234567";
     Onex.deviceIp := Some "10.0.0.5";
     Onex.agentUser := Some "amal";
     Onex.clientid := None;
     Onex.interactionid := None |}.

(** The same request with a session of the caller. *)
Definition querySupplied : Onex.Query :=
  {| Onex.ticketNumber := Some "T-7";
     Onex.clientPhone := Some "0791234567";
     Onex.deviceIp := Some "10.0.0.5";
     Onex.agentUser := Some "amal";
     Onex.clientid := Some "C-9";
     Onex.interactionid := None |}.

Definition acfg : Acr.Config :=
  {| Acr.ACR_SCHEME := "http";
     Acr.ACR_HOST := "acr.local";
     Acr.ACR_PORT := "8080";
     Acr.ACR_PATH := "/searchapi";
     Acr.MEDIA_ROOT := "/var/media";
     Acr.USE_LOCAL_DEFAULT := true |}.

(** An archive that answers every search with [results]; its start times
    are written as numbers of milliseconds. *)
Definition archive (results : list Acr.Result) : Acr.Env :=
  {| Acr.encodeURIComponent := fun s => s;
     Acr.searchAnswer := fun _ => Returned results;
     Acr.downloadAnswer :=
       fun _ => Returned {| Acr.dl_status := 200;
                            Acr.dl_body := [Byte.x01; Byte.x02; Byte.x03];
                            Acr.dl_streamError := None |};
     Acr.ffmpegAnswer :=
       fun _ => Returned {| Acr.tc_exit := 0;
                            Acr.tc_output := Some [Byte.x52; Byte.x49; Byte.x46; Byte.x46] |};
     Acr.replayAnswer := fun _ _ => Returned (200, []);
     Acr.metaJson := fun _ => [Byte.x7b; Byte.x7d];
     Acr.metaWritable := true;
     Acr.rawRemovable := true;
     Acr.timeZone := Acr.utc;
     Acr.dateMs := JS.parseInt |}.

Definition record (inum : option string) (startedat : string) : Acr.Result :=
  {| Acr.r_inum := inum;
     Acr.r_fields := [{| Acr.f_name := Some "StartedAt"; Acr.f_text := Some startedat |}] |}.

Definition search (startdate enddate windowDays limit : option string) : Acr.Query :=
  {| Acr.ucid := Some "00001";
     Acr.number := Some "0791234567";
     Acr.startdate := startdate;
     Acr.enddate := enddate;
     Acr.windowDays := windowDays;
     Acr.starttime := None;
     Acr.endtime := None;
     Acr.limit := limit;
     Acr.redirect := None;
     Acr.local := None;
     Acr.range := None;
     Acr.isHead := false |}.

(** Four results, the second one without identifier. *)
Definition mixedResults : list Acr.Result :=
  [record (Some "R2") "2000"; record None "5000";
   record (Some "R1") "1000"; record (Some "R3") "3000"].

(** A search by number on 2024-01-05 with the given limit. *)
Definition byNumber (limit : option string) : Acr.Query :=
  search (Some "2024-01-05") None None limit.

(** A search with an end date and a window of 0 days. *)
Definition withEndAndWindow : Acr.Query :=
  search (Some "2024-01-05") (Some "2024-01-06") (Some "0") None.

(** A search whose start date has the month 13. *)
Definition month13 : Acr.Query := search (Some "2024-13-01") None None None.

(** A file of 100 bytes. *)
Definition clip : list Byte.byte := List.repeat Byte.x00 100.

Definition files : Acr.Files := {["/var/media/clip.wav" := clip]}.

(** A search by ucid on 2024-02-29. *)
Definition byUcid (redirect local : option string) : Acr.Query :=
  {| Acr.ucid := Some "00001";
     Acr.number := None;
     Acr.startdate := Some "2024-02-29";
     Acr.enddate := None;
     Acr.windowDays := None;
     Acr.starttime := None;
     Acr.endtime := None;
     Acr.limit := None;
     Acr.redirect := redirect;
     Acr.local := local;
     Acr.range := None;
     Acr.isHead := false |}.

(** An archive whose transcoder fails after writing a part of its output. *)
Definition archiveBadTranscoder : Acr.Env :=
  {| Acr.encodeURIComponent := fun s => s;
     Acr.searchAnswer := fun _ => Returned [record (Some "R1") "1000"];
     Acr.downloadAnswer :=
       fun _ => Returned {| Acr.dl_status := 200;
                            Acr.dl_body := [Byte.x01; Byte.x02; Byte.x03];
                            Acr.dl_streamError := None |};
     Acr.ffmpegAnswer :=
       fun _ => Returned {| Acr.tc_exit := 1; Acr.tc_output := Some [Byte.x52] |};
     Acr.replayAnswer :=
       fun _ _ => Returned (206, [("Content-Type", "audio/wav"); ("Connection", "close");
                                  ("Transfer-Encoding", "chunked")]);
     Acr.metaJson := fun _ => [Byte.x7b; Byte.x7d];
     Acr.metaWritable := true;
     Acr.rawRemovable := true;
     Acr.timeZone := Acr.utc;
     Acr.dateMs := JS.parseInt |}.

(** An archive that refuses the download. *)
Definition archiveRefuses : Acr.Env :=
  {| Acr.encodeURIComponent := fun s => s;
     Acr.searchAnswer := fun _ => Returned [record (Some "R1") "1000"];
     Acr.downloadAnswer :=
       fun _ => Returned {| Acr.dl_status := 404; Acr.dl_body := [];
                            Acr.dl_streamError := None |};
     Acr.ffmpegAnswer := fun _ => Thrown "spawn ENOENT";
     Acr.replayAnswer := fun _ _ => Returned (404, []);
     Acr.metaJson := fun _ => [Byte.x7b; Byte.x7d];
     Acr.metaWritable := true;
     Acr.rawRemovable := true;
     Acr.timeZone := Acr.utc;
     Acr.dateMs := JS.parseInt |}.

(** The media root at noon of some day, with a time to live of 72 hours:
    an old recording, a fresh one, an old file that is no artifact. *)
Definition sweepEnv (ttl : option Z) : Acr.SweepEnv :=
  {| Acr.now := 1000000000;
     Acr.CACHE_TTL_HOURS := ttl;
     Acr.listing := Returned ["old.wav"; "fresh.WAV"; "old.txt"; "gone.json"];
     Acr.unlinkFails := fun _ => false |}.

Definition mtimes : Acr.Mtimes :=
  {[ "/var/media/old.wav" := 1000; "/var/media/fresh.WAV" := 999999000;
     "/var/media/old.txt" := 1000 ]}.


(** An archive on a server that cannot remove the raw download. *)
Definition archiveKeepsRaw : Acr.Env :=
  {| Acr.encodeURIComponent := fun s => s;
     Acr.searchAnswer := fun _ => Returned [record (Some "R1") "1000"];
     Acr.downloadAnswer :=
       fun _ => Returned {| Acr.dl_status := 200;
                            Acr.dl_body := [Byte.x01; Byte.x02; Byte.x03];
                            Acr.dl_streamError := None |};
     Acr.ffmpegAnswer :=
       fun _ => Returned {| Acr.tc_exit := 0;
                            Acr.tc_output := Some [Byte.x52; Byte.x49; Byte.x46; Byte.x46] |};
     Acr.replayAnswer := fun _ _ => Returned (200, []);
     Acr.metaJson := fun _ => [Byte.x7b; Byte.x7d];
     Acr.metaWritable := true;
     Acr.rawRemovable := false;
     Acr.timeZone := Acr.utc;
     Acr.dateMs := JS.parseInt |}.

(** A zone like Pacific/Apia at the end of 2011: ten hours behind UTC
    until the end of 2011-12-29, fourteen hours ahead from then on, so
    that the local clock skips 2011-12-30. A reading that the clock skips
    is taken with the offset before the change. *)
Definition apia : Acr.TimeZone :=
  let hour := 3600000 in
  let skipped := Acr.daysFromCivil 2011 12 30 * Acr.msPerDay in
  {| Acr.utcOf :=
       fun t => if t <? skipped + Acr.msPerDay then t + 10 * hour else t - 14 * hour;
     Acr.localOf :=
       fun u => if u <? skipped + 10 * hour then u - 10 * hour else u + 14 * hour |}.

End Sample.

(** * Properties *)

Lemma prefix_app (p s : string) : String.prefix p (p +:+ s) = true.
Proof.
  induction p as [|c p IH]; simpl.
  - by destruct s.
  - destruct (ascii_dec c c); [apply IH | done].
Qed.

Lemma strOrEmpty_Some (s : string) : JS.strOrEmpty (Some s) = s.
Proof.
  unfold JS.strOrEmpty, JS.or, JS.truthy.
  destruct (String.eqb_spec s ""); simpl; congruence.
Qed.

Lemma withPrefix_empty_prefix cfg (p : string) :
  Onex.CALL_PREFIX cfg = "" -> Onex.withPrefix cfg (Some p) = p.
Proof.
  intros E. unfold Onex.withPrefix. rewrite E. simpl. apply strOrEmpty_Some.
Qed.

Lemma withPrefix_starts cfg (phone : option string) :
  Onex.CALL_PREFIX cfg <> "" ->
  JS.startsWith (Onex.withPrefix cfg phone) (Onex.CALL_PREFIX cfg) = true.
Proof.
  intros NE. unfold Onex.withPrefix, JS.truthy.
  destruct (String.eqb_spec (Onex.CALL_PREFIX cfg) ""); [done|]. simpl.
  destruct (JS.startsWith (JS.strOrEmpty phone) _) eqn:E; [done|].
  unfold JS.startsWith. apply prefix_app.
Qed.

Lemma withPrefix_carrying cfg (p : string) :
  JS.startsWith p (Onex.CALL_PREFIX cfg) = true ->
  Onex.withPrefix cfg (Some p) = p.
Proof.
  intros H. unfold Onex.withPrefix. rewrite strOrEmpty_Some, H.
  by destruct (negb _).
Qed.

(** C10. [withPrefix] is idempotent; with a non-empty [CALL_PREFIX] its
    result starts with the prefix and a number that already carries the
    prefix comes back unchanged; with an empty prefix every phone string
    comes back unchanged. *)
Theorem withPrefix_idempotent_and_prefixed :
  forall (cfg : Onex.Config) (p : string),
    Onex.withPrefix cfg (Some (Onex.withPrefix cfg (Some p)))
      = Onex.withPrefix cfg (Some p)
    /\ (Onex.CALL_PREFIX cfg <> "" ->
          JS.startsWith (Onex.withPrefix cfg (Some p)) (Onex.CALL_PREFIX cfg) = true
          /\ (JS.startsWith p (Onex.CALL_PREFIX cfg) = true ->
                Onex.withPrefix cfg (Some p) = p))
    /\ (Onex.CALL_PREFIX cfg = "" -> Onex.withPrefix cfg (Some p) = p).
Proof.
  intros cfg p. split; [|split].
  - destruct (String.eqb_spec (Onex.CALL_PREFIX cfg) "") as [E|NE].
    + by rewrite !(withPrefix_empty_prefix cfg _ E).
    + apply withPrefix_carrying. by apply withPrefix_starts.
  - intros NE. split; [by apply withPrefix_starts | apply withPrefix_carrying].
  - apply withPrefix_empty_prefix.
Qed.

(** ** The notification poll *)

Section PollLoop.

Variables (env : Onex.Env) (baseUrl clientid : string) (interval max : Z).

Let loop := Onex.pollLoop env baseUrl clientid interval max.

Lemma countEvents_app p (a b : list Onex.Event) :
  Onex.countEvents p (a ++ b) = (Onex.countEvents p a + Onex.countEvents p b)%nat.
Proof. unfold Onex.countEvents. by rewrite List.filter_app, length_app. Qed.

(** Each iteration issues one poll and consumes one attempt. *)
Lemma pollLoop_count fuel attempts i u :
  Z.of_nat (Onex.countEvents Onex.isPoll (loop fuel attempts i u).1.1)
    <= Z.max 0 (max - attempts).
Proof.
  revert attempts i u. induction fuel as [|fuel IH]; intros attempts i u.
  - simpl. unfold Onex.countEvents. simpl. lia.
  - unfold loop in *. simpl.
    destruct (attempts <? max) eqn:Hlt; simpl; [|unfold Onex.countEvents; simpl; lia].
    apply Z.ltb_lt in Hlt.
    destruct (negb (JS.truthy i) || negb (JS.truthy u));
      [|unfold Onex.countEvents; simpl; lia].
    assert (Hrec := IH (attempts + 1) i u).
    destruct (Onex.notifyAnswer env (attempts + 1)) as [[v|]|m];
      try (destruct (Onex.pollLoop env baseUrl clientid interval max fuel
                       (attempts + 1) i u) as [[tr i'] u'];
           unfold Onex.countEvents in *; simpl in *; lia).
Qed.

(** Without a [VoiceInteractionCreated] the loop runs until the attempts
    are used up, and the model has fuel for that. *)
Lemma pollLoop_no_voice fuel attempts :
  (forall j, attempts < j <= max -> Onex.noVoice (Onex.notifyAnswer env j)) ->
  (Z.to_nat (max - attempts) <= fuel)%nat ->
  loop fuel attempts None None
    = (Onex.pollsAndDelays baseUrl clientid interval attempts (Z.to_nat (max - attempts)),
       None, None).
Proof.
  revert attempts. induction fuel as [|fuel IH]; intros attempts Hno Hfuel.
  - assert (Z.to_nat (max - attempts) = O) as -> by lia. done.
  - unfold loop in *. simpl.
    destruct (attempts <? max) eqn:Hlt; simpl.
    + apply Z.ltb_lt in Hlt.
      assert (Z.to_nat (max - attempts) = S (Z.to_nat (max - (attempts + 1)))) as E by lia.
      rewrite E. simpl.
      specialize (Hno (attempts + 1)) as Hnow.
      rewrite IH; [| intros j Hj; apply Hno; lia | lia].
      destruct (Onex.notifyAnswer env (attempts + 1)) as [[v|]|m]; try done.
      exfalso. apply Hnow. lia.
    + apply Z.ltb_ge in Hlt.
      assert (Z.to_nat (max - attempts) = O) as -> by lia. done.
Qed.

(** The first [VoiceInteractionCreated] ends the loop at once. *)
Lemma pollLoop_first_voice fuel attempts k voice :
  attempts < k <= max ->
  (forall j, attempts < j < k -> Onex.noVoice (Onex.notifyAnswer env j)) ->
  Onex.notifyAnswer env k = Onex.Returned (Some voice) ->
  (Z.to_nat (k - attempts) <= fuel)%nat ->
  loop fuel attempts None None
    = (Onex.pollsAndDelays baseUrl clientid interval attempts (Z.to_nat (k - 1 - attempts))
         ++ [Onex.EvNextNotification baseUrl clientid k],
       JS.or (Onex.ObjectId voice) None, JS.or (Onex.UCID voice) None).
Proof.
  revert attempts. induction fuel as [|fuel IH]; intros attempts Hk Hno Hv Hfuel.
  - lia.
  - unfold loop in *. simpl.
    assert ((attempts <? max) = true) as -> by (apply Z.ltb_lt; lia). simpl.
    destruct (Z.eq_dec (attempts + 1) k) as [<-|Hne].
    + rewrite Hv. assert (Z.to_nat (attempts + 1 - 1 - attempts) = O) as -> by lia. done.
    + assert (Z.to_nat (k - 1 - attempts) = S (Z.to_nat (k - 1 - (attempts + 1)))) as E by lia.
      rewrite E. simpl.
      specialize (Hno (attempts + 1)) as Hnow.
      rewrite IH; [| lia | intros j Hj; apply Hno; lia | done | lia].
      destruct (Onex.notifyAnswer env (attempts + 1)) as [[v|]|m]; try done.
      exfalso. apply Hnow. lia.
Qed.


End PollLoop.

(** ** [startcall] *)

Section Startcall.

Variables (cfg : Onex.Config) (env : Onex.Env) (q : Onex.Query).

Lemma missingOf_none fields :
  Forall (fun f => JS.truthy (snd f) = true) fields -> Onex.missingOf fields = [].
Proof.
  unfold Onex.missingOf. induction 1 as [|f fs Hf _ IH]; [done|].
  simpl. by rewrite Hf.
Qed.

(** The run of a handler that gets as far as placing the call. *)
Lemma startcall_ready baseUrl cid created interval max :
  Onex.Ready cfg env q baseUrl cid created interval max ->
  Onex.startcall cfg env q =
    let station := Onex.stationOf env q in
    let pre :=
      [Onex.EvStationQuery (JS.strOrEmpty (Onex.deviceIp q))]
      ++ fst (Onex.ensureClient env baseUrl (Onex.clientNameOf env q) (Onex.clientid q))
      ++ (if JS.truthy station
          then fst (Onex.getUcidFromJava cfg env (JS.strOrEmpty station)) else [])
      ++ [Onex.EvMakeCall baseUrl cid (Onex.withPrefix cfg (Onex.clientPhone q))
            (JS.strOrEmpty (Onex.deviceIp q))] in
    let fin := Onex.finallyUnregister created (Some cid) baseUrl in
    match Onex.makecallAnswer env with
    | Onex.Thrown m =>
        (pre ++ fin,
         {| Onex.status := 500;
            Onex.body := Onex.BMessage
                           (JS.strOrEmpty (JS.or (Some m) (Some "internal error"))) |})
    | Onex.Returned _ =>
        let '(trP, interactionId, ucidFromOnex) :=
          Onex.pollLoop env baseUrl cid interval max (Onex.pollFuel max) 0 None None in
        let ucid := JS.or (Onex.sideChannelUcid cfg env q) (JS.or ucidFromOnex None) in
        (pre ++ trP
           ++ Onex.insertOnexCallLog ucid (Onex.ticketNumber q) (Onex.clientPhone q)
                (Onex.deviceIp q) (Some cid) interactionId
                (JS.or (Onex.agentUser q) (Some ""))
           ++ fin,
         {| Onex.status := 200;
            Onex.body := Onex.BOutcome (JS.truthy interactionId) ucid
                           (JS.or interactionId None) cid (Onex.clientPhone q)
                           (JS.or station None) |})
    end.
Proof.
  intros [Ht Hp Hd Hi Hm Hu Hc].
  unfold Onex.startcall.
  rewrite missingOf_none by (repeat constructor; done).
  simpl. rewrite Hi, Hm, Hu.
  unfold Onex.sideChannelUcid, Onex.stationOf, Onex.startcallTry.
  destruct (Onex.getStationByIp env _) as [trS station] eqn:Es.
  unfold Onex.getStationByIp in Es. injection Es as <- Est. simpl snd.
  destruct (Onex.ensureClient env baseUrl _ _) as [tr1 ens]. simpl in Hc. subst ens.
  simpl fst.
  rewrite Est.
  destruct (JS.truthy station);
    [destruct (Onex.getUcidFromJava cfg env _) as [trJ ju]|];
    simpl; (destruct (Onex.makecallAnswer env) as [[]|m];
      [destruct (Onex.pollLoop _ _ _ _ _ _ _ _ _) as [[trP i] u]|]);
    simpl; repeat (rewrite <- app_assoc || rewrite <- app_comm_cons); done.
Qed.

Lemma countEvents_cons p (e : Onex.Event) tr :
  Onex.countEvents p (e :: tr)
    = ((if p e then 1 else 0) + Onex.countEvents p tr)%nat.
Proof. unfold Onex.countEvents. simpl. by destruct (p e). Qed.

Lemma pollLoop_only_polls baseUrl cid interval max fuel attempts i u :
  Forall (fun e => Onex.isPoll e || Onex.isDelay e = true)
    (Onex.pollLoop env baseUrl cid interval max fuel attempts i u).1.1.
Proof.
  revert attempts. induction fuel as [|fuel IH]; intros attempts; simpl; [constructor|].
  destruct (_ && _); [|constructor].
  specialize (IH (attempts + 1)).
  destruct (Onex.notifyAnswer env (attempts + 1)) as [[v|]|m];
    try (destruct (Onex.pollLoop env baseUrl cid interval max fuel (attempts + 1) i u)
           as [[tr i'] u']; simpl in *);
    repeat constructor; done.
Qed.

Lemma countEvents_none p (tr : list Onex.Event) :
  Forall (fun e => p e = false) tr -> Onex.countEvents p tr = O.
Proof.
  unfold Onex.countEvents. induction 1 as [|e tr He _ IH]; [done|].
  simpl. by rewrite He.
Qed.

Lemma pollLoop_no_unregister baseUrl cid interval max fuel attempts i u :
  Onex.countEvents Onex.isUnregister
    (Onex.pollLoop env baseUrl cid interval max fuel attempts i u).1.1 = O.
Proof.
  apply countEvents_none.
  eapply Forall_impl; [apply pollLoop_only_polls|].
  intros []; simpl; done.
Qed.

Lemma ensureClient_no_unregister baseUrl name c :
  Onex.countEvents Onex.isUnregister (Onex.ensureClient env baseUrl name c).1 = O.
Proof.
  unfold Onex.ensureClient, Onex.registerFresh. by destruct (JS.truthy c).
Qed.

Lemma java_no_unregister station :
  Onex.countEvents Onex.isUnregister (Onex.getUcidFromJava cfg env station).1 = O.
Proof. unfold Onex.getUcidFromJava. by destruct (negb _). Qed.

Lemma callLog_no_unregister u t p d c i a :
  Onex.countEvents Onex.isUnregister (Onex.insertOnexCallLog u t p d c i a) = O.
Proof. unfold Onex.insertOnexCallLog. by destruct (_ || _). Qed.

(** A run that reaches the call has one teardown request when the handler
    created the session and none otherwise; the teardown is the last
    request of the run. *)
Lemma startcall_ready_teardown baseUrl cid created interval max :
  Onex.Ready cfg env q baseUrl cid created interval max ->
  Onex.countEvents Onex.isUnregister (Onex.startcall cfg env q).1
    = (if created then 1 else 0)%nat
  /\ (created = true ->
      List.last (Onex.startcall cfg env q).1 (Onex.EvDelay 0)
        = Onex.EvUnregisterClient baseUrl cid).
Proof.
  intros R. rewrite (startcall_ready _ _ _ _ _ R). cbv zeta.
  pose proof (ensureClient_no_unregister baseUrl (Onex.clientNameOf env q)
                (Onex.clientid q)) as He.
  pose proof (java_no_unregister (JS.strOrEmpty (Onex.stationOf env q))) as Hj.
  pose proof (pollLoop_no_unregister baseUrl cid interval max (Onex.pollFuel max)
                0 None None) as Hp.
  assert (Onex.finallyUnregister created (Some cid) baseUrl
          = if created then [Onex.EvUnregisterClient baseUrl cid] else []) as Hf.
  { unfold Onex.finallyUnregister, Onex.unregisterClient.
    by rewrite strOrEmpty_Some. }
  rewrite Hf.
  destruct (Onex.makecallAnswer env) as [[]|m];
    [destruct (Onex.pollLoop _ _ _ _ _ _ _ _ _) as [[trP i] u]; simpl in Hp|];
    simpl fst.
  - split.
    + rewrite countEvents_cons, !countEvents_app, He, Hp, callLog_no_unregister.
      destruct (JS.truthy (Onex.stationOf env q)); rewrite ?Hj;
        by destruct created.
    + intros ->. rewrite app_comm_cons, !app_assoc. apply last_last.
  - split.
    + rewrite countEvents_cons, !countEvents_app, He.
      destruct (JS.truthy (Onex.stationOf env q)); rewrite ?Hj;
        by destruct created.
    + intros ->. rewrite app_comm_cons, !app_assoc. apply last_last.
Qed.

(** Every run either sends no teardown request, or is a run in which the
    handler created the session. *)
Lemma startcall_teardown_cases :
  Onex.countEvents Onex.isUnregister (Onex.startcall cfg env q).1 = O
  \/ exists baseUrl cid interval max,
       Onex.Ready cfg env q baseUrl cid true interval max.
Proof.
  destruct (JS.truthy (Onex.ticketNumber q)) eqn:Ht;
  destruct (JS.truthy (Onex.clientPhone q)) eqn:Hp;
  destruct (JS.truthy (Onex.deviceIp q)) eqn:Hd;
    try (left; unfold Onex.startcall, Onex.missingOf; simpl;
         rewrite Ht, Hp, Hd; reflexivity).
  destruct (Onex.UCID_POLL_INTERVAL_MS cfg) as [interval|] eqn:Hi;
  [destruct (Onex.UCID_POLL_MAX_ATTEMPTS cfg) as [max|] eqn:Hm|];
    try (left; unfold Onex.startcall, Onex.missingOf; simpl;
         rewrite Ht, Hp, Hd, Hi, ?Hm; reflexivity).
  destruct (Onex.buildBaseUrl cfg env (JS.strOrEmpty (Onex.deviceIp q)))
    as [baseUrl|m] eqn:Hu;
    [|left; unfold Onex.startcall, Onex.missingOf; simpl;
      rewrite Ht, Hp, Hd, Hi, Hm, Hu; reflexivity].
  destruct (Onex.ensureClient env baseUrl (Onex.clientNameOf env q) (Onex.clientid q))
    as [tr1 [[cid created]|m]] eqn:He.
  - assert (Onex.Ready cfg env q baseUrl cid created interval max) as R.
    { constructor; try done. by rewrite He. }
    destruct created; [right; eauto|].
    left. by destruct (startcall_ready_teardown _ _ _ _ _ R) as [-> _].
  - left. unfold Onex.startcall, Onex.missingOf. simpl.
    rewrite Ht, Hp, Hd, Hi, Hm, Hu. simpl. unfold Onex.startcallTry.
    rewrite He. simpl. rewrite app_nil_r.
    pose proof (ensureClient_no_unregister baseUrl (Onex.clientNameOf env q)
                  (Onex.clientid q)) as Hn.
    rewrite He in Hn. simpl in Hn. unfold Onex.countEvents in *. simpl. done.
Qed.

Lemma ensureClient_supplied baseUrl name c cid created :
  JS.truthy c = true ->
  (Onex.ensureClient env baseUrl name c).2 = Onex.Returned (cid, created) ->
  created = false.
Proof.
  unfold Onex.ensureClient. intros ->. simpl. congruence.
Qed.

End Startcall.

(** C1. In every run of [startcall] in which the handler itself registered
    the session, exactly one [unregisterclient] request is sent, whatever
    the remote services answer afterwards (the call placed, refused or
    failing with an exception), and it is the last request of the run; when
    the caller supplied the session no [unregisterclient] request is sent. *)
Theorem startcall_teardown_exactly_once :
  forall (cfg : Onex.Config) (env : Onex.Env) (q : Onex.Query),
    (forall baseUrl cid interval max,
        Onex.Ready cfg env q baseUrl cid true interval max ->
        Onex.countEvents Onex.isUnregister (Onex.startcall cfg env q).1 = 1%nat
        /\ List.last (Onex.startcall cfg env q).1 (Onex.EvDelay 0)
             = Onex.EvUnregisterClient baseUrl cid)
    /\ (JS.truthy (Onex.clientid q) = true ->
        Onex.countEvents Onex.isUnregister (Onex.startcall cfg env q).1 = 0%nat).
Proof.
  intros cfg env q. split.
  - intros baseUrl cid interval max R.
    destruct (startcall_ready_teardown _ _ _ _ _ _ _ _ R) as [Hc Hl]. auto.
  - intros Hs.
    destruct (startcall_teardown_cases cfg env q) as [H0|(b & c & i & m & R)]; [done|].
    pose proof (Onex.ready_client _ _ _ _ _ _ _ _ R) as Hc.
    by apply (ensureClient_supplied env _ _ _ _ _ Hs) in Hc.
Qed.

(** ** Polling inside [startcall] *)

Section StartcallPolling.

Variables (cfg : Onex.Config) (env : Onex.Env) (q : Onex.Query).

Lemma pollingOf_app (a b : list Onex.Event) :
  Onex.pollingOf (a ++ b) = Onex.pollingOf a ++ Onex.pollingOf b.
Proof. apply List.filter_app. Qed.

Lemma pollingOf_id (tr : list Onex.Event) :
  Forall (fun e => Onex.isPoll e || Onex.isDelay e = true) tr ->
  Onex.pollingOf tr = tr.
Proof.
  unfold Onex.pollingOf. induction 1 as [|e tr He _ IH]; [done|].
  simpl. rewrite He. by f_equal.
Qed.

Lemma pollingOf_ensureClient baseUrl name c :
  Onex.pollingOf (Onex.ensureClient env baseUrl name c).1 = [].
Proof. unfold Onex.ensureClient, Onex.registerFresh. by destruct (JS.truthy c). Qed.

Lemma pollingOf_java station :
  Onex.pollingOf (Onex.getUcidFromJava cfg env station).1 = [].
Proof. unfold Onex.getUcidFromJava. by destruct (negb _). Qed.

Lemma pollingOf_callLog u t p d c i a :
  Onex.pollingOf (Onex.insertOnexCallLog u t p d c i a) = [].
Proof. unfold Onex.insertOnexCallLog. by destruct (_ || _). Qed.

Lemma pollingOf_finally created c baseUrl :
  Onex.pollingOf (Onex.finallyUnregister created c baseUrl) = [].
Proof. by destruct created. Qed.

Lemma pollingOf_station d (tr : list Onex.Event) :
  Onex.pollingOf (Onex.EvStationQuery d :: tr) = Onex.pollingOf tr.
Proof. reflexivity. Qed.

Lemma countPolls_pollingOf (tr : list Onex.Event) :
  Onex.countEvents Onex.isPoll (Onex.pollingOf tr) = Onex.countEvents Onex.isPoll tr.
Proof.
  unfold Onex.countEvents, Onex.pollingOf.
  induction tr as [|e tr IH]; [done|].
  destruct e; simpl; rewrite ?IH; done.
Qed.

(** The polls and waits of a run that reaches the call are those of the
    loop, and there are none when placing the call fails. *)
Lemma startcall_ready_polling baseUrl cid created interval max :
  Onex.Ready cfg env q baseUrl cid created interval max ->
  Onex.pollingOf (Onex.startcall cfg env q).1
    = match Onex.makecallAnswer env with
      | Onex.Returned _ =>
          (Onex.pollLoop env baseUrl cid interval max (Onex.pollFuel max) 0 None None).1.1
      | Onex.Thrown _ => []
      end.
Proof.
  intros R. rewrite (startcall_ready _ _ _ _ _ _ _ _ R). cbv zeta.
  pose proof (pollLoop_only_polls env baseUrl cid interval max (Onex.pollFuel max)
                0 None None) as Hp.
  destruct (Onex.makecallAnswer env) as [[]|m];
    [destruct (Onex.pollLoop _ _ _ _ _ _ _ _ _) as [[trP i] u]; simpl in Hp|];
    simpl fst;
    rewrite pollingOf_station, !pollingOf_app, ?pollingOf_ensureClient, ?pollingOf_callLog,
      ?pollingOf_finally, ?(pollingOf_id _ Hp);
    destruct (JS.truthy (Onex.stationOf env q)); rewrite ?pollingOf_java;
    simpl; by rewrite ?app_nil_r.
Qed.

(** A run that does not reach the call polls nothing. *)
Lemma startcall_polling_cases :
  Onex.pollingOf (Onex.startcall cfg env q).1 = []
  \/ exists baseUrl cid created interval max,
       Onex.Ready cfg env q baseUrl cid created interval max.
Proof.
  destruct (JS.truthy (Onex.ticketNumber q)) eqn:Ht;
  destruct (JS.truthy (Onex.clientPhone q)) eqn:Hp;
  destruct (JS.truthy (Onex.deviceIp q)) eqn:Hd;
    try (left; unfold Onex.startcall, Onex.missingOf; simpl;
         rewrite Ht, Hp, Hd; reflexivity).
  destruct (Onex.UCID_POLL_INTERVAL_MS cfg) as [interval|] eqn:Hi;
  [destruct (Onex.UCID_POLL_MAX_ATTEMPTS cfg) as [max|] eqn:Hm|];
    try (left; unfold Onex.startcall, Onex.missingOf; simpl;
         rewrite Ht, Hp, Hd, Hi, ?Hm; reflexivity).
  destruct (Onex.buildBaseUrl cfg env (JS.strOrEmpty (Onex.deviceIp q)))
    as [baseUrl|m] eqn:Hu;
    [|left; unfold Onex.startcall, Onex.missingOf; simpl;
      rewrite Ht, Hp, Hd, Hi, Hm, Hu; reflexivity].
  destruct (Onex.ensureClient env baseUrl (Onex.clientNameOf env q) (Onex.clientid q))
    as [tr1 [[cid created]|m]] eqn:He.
  - right. exists baseUrl, cid, created, interval, max.
    constructor; try done. by rewrite He.
  - left. unfold Onex.startcall, Onex.missingOf. simpl.
    rewrite Ht, Hp, Hd, Hi, Hm, Hu. simpl. unfold Onex.startcallTry.
    rewrite He. simpl. rewrite app_nil_r.
    pose proof (pollingOf_ensureClient baseUrl (Onex.clientNameOf env q)
                  (Onex.clientid q)) as Hn.
    rewrite He in Hn. simpl in Hn. done.
Qed.

Lemma startcall_poll_count max :
  Onex.UCID_POLL_MAX_ATTEMPTS cfg = Some max ->
  Z.of_nat (Onex.countEvents Onex.isPoll (Onex.startcall cfg env q).1) <= Z.max 0 max.
Proof.
  intros Hm. rewrite <- countPolls_pollingOf.
  destruct startcall_polling_cases as [->|(b & c & cr & i & m & R)];
    [unfold Onex.countEvents; simpl; lia|].
  rewrite (startcall_ready_polling _ _ _ _ _ R).
  pose proof (Onex.ready_max _ _ _ _ _ _ _ _ R) as Hm'.
  assert (m = max) as -> by congruence.
  destruct (Onex.makecallAnswer env); [|unfold Onex.countEvents; simpl; lia].
  pose proof (pollLoop_count env b c i max (Onex.pollFuel max) 0 None None). lia.
Qed.

End StartcallPolling.

(** C3. A run of [startcall] sends at most [UCID_POLL_MAX_ATTEMPTS]
    [nextnotification] requests. In a run that places the call, a
    notification that carries both an interaction id and a ucid ends the
    polling at once: the poll that brought it is the last one and no wait
    follows it. A poll that throws, like one that brings another
    notification, uses up one attempt and is followed by the wait; when no
    poll brings the notification all the attempts are made and the handler
    still answers 200. *)
Theorem startcall_poll_bounded :
  forall (cfg : Onex.Config) (env : Onex.Env) (q : Onex.Query) (max : Z),
    Onex.UCID_POLL_MAX_ATTEMPTS cfg = Some max ->
    0 <= max ->
    Z.of_nat (Onex.countEvents Onex.isPoll (Onex.startcall cfg env q).1) <= max
    /\ (forall baseUrl cid created interval,
          Onex.Ready cfg env q baseUrl cid created interval max ->
          Onex.makecallAnswer env = Onex.Returned tt ->
          (forall k voice,
              1 <= k /\ k <= max ->
              (forall j, 1 <= j /\ j < k -> Onex.noVoice (Onex.notifyAnswer env j)) ->
              Onex.notifyAnswer env k = Onex.Returned (Some voice) ->
              JS.truthy (Onex.ObjectId voice) = true ->
              JS.truthy (Onex.UCID voice) = true ->
              Onex.pollingOf (Onex.startcall cfg env q).1
                = Onex.pollsAndDelays baseUrl cid interval 0 (Z.to_nat (k - 1))
                    ++ [Onex.EvNextNotification baseUrl cid k])
          /\ ((forall j, 1 <= j /\ j <= max -> Onex.noVoice (Onex.notifyAnswer env j)) ->
              Onex.pollingOf (Onex.startcall cfg env q).1
                = Onex.pollsAndDelays baseUrl cid interval 0 (Z.to_nat max)
              /\ Onex.status (Onex.startcall cfg env q).2 = 200)).
Proof.
  intros cfg env q max Hm Hmax. split.
  - pose proof (startcall_poll_count cfg env q max Hm). lia.
  - intros baseUrl cid created interval R Hcall.
    pose proof (startcall_ready_polling cfg env q _ _ _ _ _ R) as Hp.
    rewrite Hcall in Hp. split.
    + intros k voice Hk Hno Hv _ _. rewrite Hp.
      rewrite (pollLoop_first_voice env baseUrl cid interval max
                 (Onex.pollFuel max) 0 k voice); unfold Onex.pollFuel;
        try done; try lia.
      * simpl. do 2 f_equal. lia.
      * intros j Hj. apply Hno. lia.
    + intros Hno. rewrite Hp.
      rewrite (pollLoop_no_voice env baseUrl cid interval max (Onex.pollFuel max) 0);
        unfold Onex.pollFuel; try lia.
      * split; [simpl; do 2 f_equal; lia|].
        rewrite (startcall_ready _ _ _ _ _ _ _ _ R). cbv zeta. rewrite Hcall.
        by destruct (Onex.pollLoop _ _ _ _ _ _ _ _ _) as [[trP i] u].
      * intros j Hj. apply Hno. lia.
Qed.


(** ** Strings *)

Lemma sapp_cons (x : ascii) (a b : string) : String x a +:+ b = String x (a +:+ b).
Proof. reflexivity. Qed.

Lemma sapp_assoc (a b c : string) : (a +:+ b) +:+ c = a +:+ (b +:+ c).
Proof. induction a as [|x a IH]; [done|]. by rewrite !sapp_cons, IH. Qed.

Lemma sapp_nil_r (a : string) : a +:+ "" = a.
Proof. induction a as [|x a IH]; [done|]. by rewrite sapp_cons, IH. Qed.

Lemma slength_app (a b : string) :
  String.length (a +:+ b) = (String.length a + String.length b)%nat.
Proof. induction a as [|x a IH]; [done|]. rewrite sapp_cons. simpl. by rewrite IH. Qed.

Lemma all_app p (a b : string) : JS.all p (a +:+ b) = JS.all p a && JS.all p b.
Proof.
  induction a as [|x a IH]; [done|].
  rewrite sapp_cons. simpl. by rewrite IH, andb_assoc.
Qed.

Lemma all_take p n (s : string) : JS.all p s = true -> JS.all p (JS.take n s) = true.
Proof.
  revert s. induction n as [|n IH]; intros [|c s]; simpl; try done.
  intros [Hc Hs]%andb_prop. rewrite Hc. by apply IH.
Qed.

Lemma length_take n (s : string) : (String.length (JS.take n s) <= n)%nat.
Proof.
  revert s. induction n as [|n IH]; intros [|c s]; simpl; try lia.
  specialize (IH s). lia.
Qed.

Lemma all_map p f (s : string) :
  (forall c, p (f c) = true) -> JS.all p (JS.map f s) = true.
Proof. intros Hf. induction s as [|c s IH]; simpl; [done|]. by rewrite Hf, IH. Qed.

Lemma all_impl (p r : ascii -> bool) (s : string) :
  (forall c, p c = true -> r c = true) -> JS.all p s = true -> JS.all r s = true.
Proof.
  intros Hpr. induction s as [|c s IH]; simpl; [done|].
  intros [Hc Hs]%andb_prop. by rewrite (Hpr _ Hc), IH.
Qed.

(** ** Cache paths *)

Lemma safeName_chars (s : option string) : JS.all Acr.isSafeChar (Acr.safeName s) = true.
Proof.
  unfold Acr.safeName. apply all_take, all_map. intros c.
  destruct (Acr.isSafeChar c) eqn:E; [done|reflexivity].
Qed.

Lemma safeName_length (s : option string) : (String.length (Acr.safeName s) <= 128)%nat.
Proof. apply length_take. Qed.

Lemma splitOn_nonempty sep (s : string) : JS.splitOn sep s <> [].
Proof.
  induction s as [|c s IH]; simpl; [done|].
  destruct (Ascii.eqb c sep); [done|]. by destruct (JS.splitOn sep s).
Qed.

Lemma splitOn_app sep (a b : string) :
  JS.splitOn sep (a +:+ String sep b) = JS.splitOn sep a ++ JS.splitOn sep b.
Proof.
  induction a as [|c a IH]; simpl.
  - by rewrite Ascii.eqb_refl.
  - destruct (Ascii.eqb c sep); [by rewrite IH|].
    rewrite IH. pose proof (splitOn_nonempty sep a).
    by destruct (JS.splitOn sep a).
Qed.

Lemma splitOn_plain sep (s : string) :
  JS.all (fun c => negb (Ascii.eqb c sep)) s = true -> JS.splitOn sep s = [s].
Proof.
  induction s as [|c s IH]; simpl; [done|].
  intros [Hc Hs]%andb_prop. apply negb_true_iff in Hc. rewrite Hc.
  by rewrite (IH Hs).
Qed.

Lemma plainName_no_sep name :
  Acr.plainName name -> JS.all (fun c => negb (Ascii.eqb c "/")) name = true.
Proof.
  intros [Hs _]. eapply all_impl; [|exact Hs].
  intros c Hc. destruct (Ascii.eqb_spec c "/") as [->|]; [done|done].
Qed.

Lemma plainName_step allow acc name :
  Acr.plainName name -> Acr.normStep allow acc name = name :: acc.
Proof.
  intros [_ Hl]. unfold Acr.normStep.
  destruct (String.eqb_spec name "") as [->|]; [simpl in Hl; lia|].
  destruct (String.eqb_spec name ".") as [->|]; [simpl in Hl; lia|].
  destruct (String.eqb_spec name "..") as [->|]; [simpl in Hl; lia|]. done.
Qed.

Lemma lastChar_app (a b : string) :
  b <> "" -> Acr.lastChar (a +:+ b) = Acr.lastChar b.
Proof.
  intros Hb. induction a as [|c a IH]; simpl; [done|].
  rewrite IH. destruct (a +:+ b) eqn:E; [|done].
  destruct a; simpl in E; [done|discriminate].
Qed.

Lemma lastChar_all p (s : string) c :
  JS.all p s = true -> Acr.lastChar s = Some c -> p c = true.
Proof.
  induction s as [|x s IH]; simpl; [done|].
  intros [Hx Hs]%andb_prop. destruct s; [congruence|by apply IH].
Qed.

Lemma plainName_endsWithSep (a name : string) :
  Acr.plainName name -> Acr.endsWithSep (a +:+ name) = false.
Proof.
  intros Hn. unfold Acr.endsWithSep.
  rewrite lastChar_app by (destruct Hn as [_ Hl]; intros ->; simpl in Hl; lia).
  destruct (Acr.lastChar name) as [c|] eqn:E; [|done].
  pose proof (lastChar_all _ _ _ (plainName_no_sep _ Hn) E) as Hc.
  by apply negb_true_iff in Hc.
Qed.

Lemma concat_empty_cons (x : string) (xs : list string) :
  String.concat "" (x :: xs) = x +:+ String.concat "" xs.
Proof. destruct xs; simpl; [by rewrite sapp_nil_r|reflexivity]. Qed.

Lemma joinSegments_snoc (segs : list string) (name : string) :
  Acr.joinSegments (segs ++ [name])
    = String.concat "" (List.map (fun seg => seg +:+ "/") segs) +:+ name.
Proof.
  induction segs as [|seg segs IH]; [done|].
  change ((seg :: segs) ++ [name]) with (seg :: (segs ++ [name])).
  assert (Acr.joinSegments (seg :: (segs ++ [name]))
          = seg +:+ "/" +:+ Acr.joinSegments (segs ++ [name])) as ->.
  { simpl. by destruct (segs ++ [name]) eqn:E; [destruct segs|]. }
  rewrite IH. simpl List.map. by rewrite concat_empty_cons, !sapp_assoc.
Qed.

(** A plain file name joined to a directory is that file in that
    directory. *)
Lemma pathJoin_plain (root name : string) :
  Acr.plainName name ->
  Acr.normalizedSegments
      (if String.eqb root "" then name else root +:+ "/" +:+ name)
    = Acr.normalizedSegments root ++ [name]
  /\ Acr.pathJoin root name
     = (if Acr.isAbsolute root then "/" else "")
       +:+ String.concat "" (List.map (fun seg => seg +:+ "/")
                               (Acr.normalizedSegments root))
       +:+ name.
Proof.
  intros Hn.
  assert (name <> "") as Hne by (destruct Hn as [_ Hl]; intros ->; simpl in Hl; lia).
  assert (Acr.normalizedSegments
            (if String.eqb root "" then name else root +:+ "/" +:+ name)
          = Acr.normalizedSegments root ++ [name]) as Hsegs.
  { unfold Acr.normalizedSegments.
    destruct (String.eqb_spec root "") as [->|Hr].
    - rewrite (splitOn_plain _ _ (plainName_no_sep _ Hn)). simpl.
      by rewrite (plainName_step _ _ _ Hn).
    - assert (Acr.isAbsolute (root +:+ "/" +:+ name) = Acr.isAbsolute root) as ->
        by (by destruct root).
      change (root +:+ "/" +:+ name) with (root +:+ String "/" name).
      rewrite splitOn_app, (splitOn_plain _ _ (plainName_no_sep _ Hn)).
      rewrite fold_left_app. simpl. rewrite (plainName_step _ _ _ Hn). done. }
  split; [done|].
  unfold Acr.pathJoin, Acr.normalize.
  destruct (String.eqb_spec name "") as [|_]; [done|].
  assert ((if String.eqb root "" then name else root +:+ "/" +:+ name) <> "") as Hj.
  { destruct (String.eqb root ""); [done|]. by destruct root. }
  destruct (String.eqb_spec (if String.eqb root "" then name else root +:+ "/" +:+ name) "")
    as [|_]; [done|].
  rewrite Hsegs.
  assert (Acr.endsWithSep (if String.eqb root "" then name else root +:+ "/" +:+ name)
          = false) as ->.
  { destruct (String.eqb root "").
    - apply (plainName_endsWithSep "" name Hn).
    - rewrite <- sapp_assoc. by apply plainName_endsWithSep. }
  assert (Acr.isAbsolute (if String.eqb root "" then name else root +:+ "/" +:+ name)
          = Acr.isAbsolute root) as ->.
  { destruct (String.eqb_spec root "") as [->|Hr]; [|by destruct root].
    simpl. destruct name as [|c name]; [done|]. simpl.
    destruct Hn as [Hs _]. simpl in Hs. apply andb_prop in Hs as [Hc _].
    destruct (Ascii.eqb_spec c "/") as [->|]; done. }
  rewrite joinSegments_snoc, sapp_nil_r.
  destruct (Acr.normalizedSegments root ++ [name]) eqn:E;
    [by destruct (Acr.normalizedSegments root)|].
  done.
Qed.

Lemma includes_false sep (s : string) :
  JS.all (fun c => negb (Ascii.eqb c sep)) s = true -> Onex.includes sep s = false.
Proof.
  induction s as [|c s IH]; [done|].
  cbn [JS.all Onex.includes]. intros [Hc Hs]%andb_prop.
  apply negb_true_iff in Hc. by rewrite Ascii.eqb_sym, Hc, IH.
Qed.

Lemma cacheFile_plain (inum : option string) (ext : string) :
  JS.all Acr.isSafeChar ext = true -> (4 <= String.length ext)%nat ->
  Acr.plainName (Acr.safeName inum +:+ ext).
Proof.
  intros He Hl. split.
  - by rewrite all_app, safeName_chars, He.
  - rewrite slength_app. lia.
Qed.

Lemma localPathsFor_spec (cfg : Acr.Config) (inum : option string) :
  Acr.raw (Acr.localPathsFor cfg inum)
    = Acr.mediaDir cfg +:+ (Acr.safeName inum +:+ ".raw.bin")
  /\ Acr.wav (Acr.localPathsFor cfg inum)
     = Acr.mediaDir cfg +:+ (Acr.safeName inum +:+ ".wav")
  /\ Acr.meta (Acr.localPathsFor cfg inum)
     = Acr.mediaDir cfg +:+ (Acr.safeName inum +:+ ".json").
Proof.
  unfold Acr.localPathsFor, Acr.mediaDir. simpl.
  repeat split;
    (etransitivity;
     [apply pathJoin_plain, cacheFile_plain; [reflexivity|simpl; lia]
     |by rewrite sapp_assoc]).
Qed.

(** C9. For every recording identifier the cache base name [safeName] is
    made of characters of [[a-zA-Z0-9._-]] and is at most 128 characters
    long; the three cache paths are the normalized media root, the
    separator, and a file name without separator (the base name and its
    extension), so each of them is a file directly inside the media root. *)
Theorem safeName_confines_cache_paths :
  forall (cfg : Acr.Config) (inum : option string),
    let base := Acr.safeName inum in
    let paths := Acr.localPathsFor cfg inum in
    JS.all Acr.isSafeChar base = true
    /\ (String.length base <= 128)%nat
    /\ Acr.raw paths = Acr.mediaDir cfg +:+ (base +:+ ".raw.bin")
    /\ Acr.wav paths = Acr.mediaDir cfg +:+ (base +:+ ".wav")
    /\ Acr.meta paths = Acr.mediaDir cfg +:+ (base +:+ ".json")
    /\ Forall (fun ext =>
                 Acr.normalizedSegments
                     (if String.eqb (Acr.MEDIA_ROOT cfg) "" then base +:+ ext
                      else Acr.MEDIA_ROOT cfg +:+ "/" +:+ (base +:+ ext))
                   = Acr.normalizedSegments (Acr.MEDIA_ROOT cfg) ++ [base +:+ ext]
                 /\ Onex.includes "/" (base +:+ ext) = false)
         [".raw.bin"; ".wav"; ".json"].
Proof.
  intros cfg inum base paths. subst base paths.
  pose proof (localPathsFor_spec cfg inum) as (Hr & Hw & Hm).
  repeat split; try done.
  - apply safeName_chars.
  - apply safeName_length.
  - assert (forall ext, JS.all Acr.isSafeChar ext = true -> (4 <= String.length ext)%nat ->
              Acr.normalizedSegments
                  (if String.eqb (Acr.MEDIA_ROOT cfg) "" then Acr.safeName inum +:+ ext
                   else Acr.MEDIA_ROOT cfg +:+ "/" +:+ (Acr.safeName inum +:+ ext))
                = Acr.normalizedSegments (Acr.MEDIA_ROOT cfg) ++ [Acr.safeName inum +:+ ext]
              /\ Onex.includes "/" (Acr.safeName inum +:+ ext) = false) as H.
    { intros ext He Hl.
      pose proof (cacheFile_plain inum ext He Hl) as Hp.
      split; [apply (pathJoin_plain _ _ Hp)|].
      by apply includes_false, plainName_no_sep. }
    repeat constructor; apply H; (reflexivity || (simpl; lia)).
Qed.

(** ** The media cache *)

Section MediaCache.

Variables (cfg : Acr.Config) (env : Acr.Env).

Lemma cache_paths_distinct (inum : option string) :
  let p := Acr.localPathsFor cfg inum in
  Acr.wav p <> Acr.raw p /\ Acr.wav p <> Acr.meta p /\ Acr.raw p <> Acr.meta p.
Proof.
  destruct (localPathsFor_spec cfg inum) as (Hr & Hw & Hm). cbv zeta.
  rewrite Hr, Hw, Hm.
  repeat split; intros E; do 2 apply (inj (String.app _)) in E; discriminate.
Qed.

(** A hit answers at once and leaves the files as they are. *)
Lemma ensureLocalWav_hit (fs : Acr.Files) (inum : string) :
  Acr.cachedNonEmpty fs (Acr.wav (Acr.localPathsFor cfg (Some inum))) = true ->
  Acr.ensureLocalWav cfg env fs inum
    = ([], fs, Onex.Returned (Acr.wav (Acr.localPathsFor cfg (Some inum)))).
Proof. intros H. unfold Acr.ensureLocalWav. by rewrite H. Qed.

(** A miss on a valid recording downloads once, transcodes once, and
    leaves the transcoded file in the cache. *)
Lemma ensureLocalWav_miss (fs : Acr.Files) (inum : string) :
  Acr.validRecording env inum ->
  Acr.cachedNonEmpty fs (Acr.wav (Acr.localPathsFor cfg (Some inum))) = false ->
  let p := Acr.localPathsFor cfg (Some inum) in
  exists fs1,
    Acr.ensureLocalWav cfg env fs inum
      = ([Acr.EvDownload inum (Acr.raw p); Acr.EvTranscode (Acr.raw p) (Acr.wav p)],
         fs1, Onex.Returned (Acr.wav p))
    /\ Acr.cachedNonEmpty fs1 (Acr.wav p) = true.
Proof.
  intros (dl & t & out & Hd & Hlo & Hhi & Hse & Hf & Hx & Ho & Hne) Hmiss p.
  destruct (cache_paths_distinct (Some inum)) as (Hwr & Hwm & Hrm).
  unfold Acr.ensureLocalWav. subst p. cbv zeta in *.
  remember (Acr.localPathsFor cfg (Some inum)) as p eqn:Ep. rewrite Hmiss.
  unfold Acr.downloadRawFromAcr. rewrite Hd.
  assert ((Acr.dl_status dl <? 200) = false) as -> by (apply Z.ltb_ge; lia).
  assert ((400 <=? Acr.dl_status dl) = false) as -> by (apply Z.leb_gt; lia).
  rewrite Hse. simpl.
  unfold Acr.transcodeToWav. rewrite lookup_insert_eq. simpl.
  rewrite Hf, Ho, Hx. simpl.
  eexists. split; [reflexivity|].
  unfold Acr.cachedNonEmpty.
  assert ((if Acr.rawRemovable env
           then delete (Acr.raw p)
                  (if Acr.metaWritable env
                   then <[Acr.meta p:=Acr.metaJson env inum]>
                          (<[Acr.wav p:=out]> (<[Acr.raw p:=Acr.dl_body dl]> fs))
                   else <[Acr.wav p:=out]> (<[Acr.raw p:=Acr.dl_body dl]> fs))
           else if Acr.metaWritable env
                then <[Acr.meta p:=Acr.metaJson env inum]>
                       (<[Acr.wav p:=out]> (<[Acr.raw p:=Acr.dl_body dl]> fs))
                else <[Acr.wav p:=out]> (<[Acr.raw p:=Acr.dl_body dl]> fs)) !! Acr.wav p
          = Some out) as ->.
  { destruct (Acr.rawRemovable env), (Acr.metaWritable env);
      rewrite ?lookup_delete_ne by done;
      rewrite ?(lookup_insert_ne _ (Acr.meta p)) by done; apply lookup_insert_eq. }
  unfold Acr.fileSize. destruct out; [done|]. simpl. apply Z.ltb_lt. lia.
Qed.

End MediaCache.

(** C6. Two calls of [ensureLocalWav] in a row for a valid recording give
    the same path; the second call finds the transcoded file, sends
    nothing and changes no file; when the first call starts from a cache
    without the file, the two calls together download once and transcode
    once. *)
Theorem ensureLocalWav_second_call_cached :
  forall (cfg : Acr.Config) (env : Acr.Env) (fs : Acr.Files) (inum : string),
    Acr.validRecording env inum ->
    let '(tr1, fs1, r1) := Acr.ensureLocalWav cfg env fs inum in
    let '(tr2, fs2, r2) := Acr.ensureLocalWav cfg env fs1 inum in
    r1 = Onex.Returned (Acr.wav (Acr.localPathsFor cfg (Some inum)))
    /\ r2 = r1
    /\ tr2 = []
    /\ fs2 = fs1
    /\ (Acr.cachedNonEmpty fs (Acr.wav (Acr.localPathsFor cfg (Some inum))) = false ->
        Acr.countEvents Acr.isDownload (tr1 ++ tr2) = 1%nat
        /\ Acr.countEvents Acr.isTranscode (tr1 ++ tr2) = 1%nat).
Proof.
  intros cfg env fs inum Hv.
  destruct (Acr.cachedNonEmpty fs (Acr.wav (Acr.localPathsFor cfg (Some inum)))) eqn:Hc.
  - rewrite (ensureLocalWav_hit cfg env fs inum Hc).
    rewrite (ensureLocalWav_hit cfg env fs inum Hc). by repeat split.
  - destruct (ensureLocalWav_miss cfg env fs inum Hv Hc) as (fs1 & -> & Hc1).
    rewrite (ensureLocalWav_hit cfg env fs1 inum Hc1). by repeat split.
Qed.

(** ** Digits and [parseInt] *)

Lemma isDigit_plain (c : ascii) :
  JS.isDigit c = true ->
  JS.isSpace c = false /\ Ascii.eqb c "-" = false /\ Ascii.eqb c "+" = false.
Proof. destruct c as [[] [] [] [] [] [] [] []]; done. Qed.

Lemma span_spec p (s a r : string) :
  JS.span p s = (a, r) -> s = a +:+ r /\ JS.all p a = true.
Proof.
  revert a r. induction s as [|c s IH]; intros a r; simpl.
  - by intros [= <- <-].
  - destruct (p c) eqn:Hc.
    + destruct (JS.span p s) as [a' r'] eqn:E. intros [= <- <-].
      destruct (IH _ _ eq_refl) as [-> Ha]. simpl. by rewrite Hc, Ha.
    + by intros [= <- <-].
Qed.

Lemma span_all p (s : string) : JS.all p s = true -> JS.span p s = (s, "").
Proof.
  induction s as [|c s IH]; simpl; [done|].
  intros [Hc Hs]%andb_prop. by rewrite Hc, (IH Hs).
Qed.

Lemma span_app_stop p (a r : string) c :
  JS.all p a = true -> p c = false ->
  JS.span p (a +:+ String c r) = (a, String c r).
Proof.
  intros Ha Hc. induction a as [|x a IH].
  - simpl. by rewrite Hc.
  - rewrite sapp_cons. simpl in *. apply andb_prop in Ha as [Hx Ha].
    by rewrite Hx, (IH Ha).
Qed.

Lemma trimStart_nonspace (c : ascii) (s : string) :
  JS.isSpace c = false -> JS.trimStart (String c s) = String c s.
Proof. intros H. unfold JS.trimStart. simpl. by rewrite H. Qed.

Lemma parseInt_digits (ds : string) :
  JS.all JS.isDigit ds = true -> ds <> "" ->
  JS.parseInt ds = Some (JS.digitsValue 0 ds).
Proof.
  intros Hd Hne. destruct ds as [|c ds]; [done|].
  pose proof Hd as Hd'. simpl in Hd'. apply andb_prop in Hd' as [Hc _].
  destruct (isDigit_plain c Hc) as (Hsp & Hm & Hp).
  unfold JS.parseInt. rewrite (trimStart_nonspace _ _ Hsp). cbv zeta.
  rewrite Hm, Hp, (span_all _ _ Hd). done.
Qed.

Lemma prefix_drop (p s : string) :
  String.prefix p s = true -> s = p +:+ JS.drop (String.length p) s.
Proof.
  revert s. induction p as [|c p IH]; intros s H.
  - by destruct s.
  - destruct s as [|d s]; cbn in H; [done|].
    destruct (ascii_dec c d) as [->|]; [|done].
    rewrite sapp_cons. cbn [String.length JS.drop]. f_equal. by apply IH.
Qed.

(** ** Range streaming *)





Lemma execRange_digits (s m1 m2 : string) :
  Acr.execRange s = Some (m1, m2) ->
  m1 <> "" /\ JS.all JS.isDigit m1 = true /\ JS.all JS.isDigit m2 = true.
Proof.
  assert (forall s, Acr.matchRangeHere s = Some (m1, m2) ->
                    m1 <> "" /\ JS.all JS.isDigit m1 = true
                    /\ JS.all JS.isDigit m2 = true) as Hhere.
  { intros s'. unfold Acr.matchRangeHere.
    destruct (String.prefix "bytes=" s'); [|done].
    destruct (JS.span JS.isDigit (JS.drop 6 s')) as [d1 r1] eqn:Hs.
    apply span_spec in Hs as [_ Hd1].
    destruct (String.eqb_spec d1 "") as [|Hne]; [done|].
    destruct r1 as [|c r2]; [done|].
    destruct (Ascii.eqb c "-"); [|done].
    destruct (JS.span JS.isDigit r2) as [d2 r3] eqn:Hs2.
    apply span_spec in Hs2 as [_ Hd2]. by intros [= <- <-]. }
  induction s as [|c s IH]; cbn [Acr.execRange].
  - destruct (Acr.matchRangeHere "") as [m|] eqn:E; [|done].
    intros [= ->]. by apply (Hhere "").
  - destruct (Acr.matchRangeHere (String c s)) as [m|] eqn:E; [|exact IH].
    intros [= ->]. by apply (Hhere (String c s)).
Qed.

(** ** Numbers *)

Lemma pow53_lt_pow1024 : 2 ^ 53 < 2 ^ 1024.
Proof. by apply Z.pow_lt_mono_r. Qed.

Lemma MAX_SAFE_INTEGER_pos : 0 < JS.MAX_SAFE_INTEGER.
Proof. done. Qed.

(** An integer up to 2^53 either way is the Number that it is read as. *)
Lemma number_exact (z : Z) :
  - JS.MAX_SAFE_INTEGER - 1 <= z <= JS.MAX_SAFE_INTEGER + 1 -> JS.number z = JS.Fin z.
Proof.
  unfold JS.MAX_SAFE_INTEGER. intros H. unfold JS.number.
  pose proof pow53_lt_pow1024 as Hp.
  assert (2 ^ 53 = 9007199254740992) as E53 by reflexivity.
  assert (JS.nearest (Z.abs z) = Z.abs z) as ->.
  { unfold JS.nearest. destruct (Z.ltb_spec (Z.abs z) (2 ^ 53)) as [|Hge]; [done|].
    assert (Z.abs z = 9007199254740992) as -> by lia. by vm_compute. }
  assert ((2 ^ 1024 <=? Z.abs z) = false) as -> by (apply Z.leb_gt; lia).
  destruct (Z.ltb_spec z 0); f_equal; lia.
Qed.

Lemma nearest_nonneg (z : Z) : 0 <= z -> 0 <= JS.nearest z.
Proof.
  intros Hz. unfold JS.nearest. destruct (z <? 2 ^ 53); [done|]. cbv zeta.
  apply Z.shiftl_nonneg.
  pose proof (proj2 (Z.shiftr_nonneg z (Z.log2 z - 52)) Hz).
  destruct (_ || _); lia.
Qed.

(** An integer that is not positive is read as a Number that is not
    positive. *)
Lemma number_nonpos (z : Z) :
  z <= 0 ->
  match JS.number z with
  | JS.Fin m => m <= 0
  | JS.NegInf => True
  | _ => False
  end.
Proof.
  intros Hz. unfold JS.number. cbv zeta.
  pose proof (nearest_nonneg (Z.abs z) (Z.abs_nonneg z)) as Hn.
  destruct (Z.ltb_spec z 0).
  - destruct (2 ^ 1024 <=? JS.nearest (Z.abs z)); [done|lia].
  - assert (z = 0) as -> by lia. by vm_compute.
Qed.

(** A safe integer is the Number that it is read as. *)
Lemma number_safe (z : Z) :
  - JS.MAX_SAFE_INTEGER <= z <= JS.MAX_SAFE_INTEGER -> JS.number z = JS.Fin z.
Proof. intros H. apply number_exact. pose proof MAX_SAFE_INTEGER_pos. lia. Qed.


Lemma digitVal_digit (c : ascii) : JS.isDigit c = true -> 0 <= JS.digitVal c <= 9.
Proof.
  unfold JS.isDigit, JS.digitVal. cbv zeta.
  intros [H1 H2]%andb_prop. apply N.leb_le in H1, H2. lia.
Qed.

Lemma digitsValue_nonneg (s : string) (acc : Z) :
  JS.all JS.isDigit s = true -> 0 <= acc -> 0 <= JS.digitsValue acc s.
Proof.
  revert acc. induction s as [|c s IH]; intros acc Hs Hacc; [done|].
  cbn [JS.all] in Hs. apply andb_prop in Hs as [Hc Hs]. cbn [JS.digitsValue].
  apply IH; [done|]. pose proof (digitVal_digit c Hc). lia.
Qed.

Section StreamFile.

Variables (fs : Acr.Files) (filePath contentType : string) (content : list Byte.byte).
Hypothesis Hfile : fs !! filePath = Some content.

Let total := Acr.fileSize content.

Hypothesis Htotal : total <= JS.MAX_SAFE_INTEGER.






End StreamFile.

(** ** [trim] *)

Lemma trimEnd_cons (c : ascii) (s : string) :
  JS.isSpace c = false -> JS.trimEnd (String c s) = String c (JS.trimEnd s).
Proof. intros H. simpl. rewrite H. by destruct (JS.trimEnd s). Qed.

Lemma trimEnd_idem (s : string) : JS.trimEnd (JS.trimEnd s) = JS.trimEnd s.
Proof.
  induction s as [|c s IH]; [done|]. simpl.
  destruct (JS.trimEnd s) as [|d t] eqn:E.
  - destruct (JS.isSpace c) eqn:Hc; [done|]. simpl. by rewrite Hc.
  - simpl in *. rewrite IH. done.
Qed.

Lemma trimStart_head (s : string) :
  JS.trimStart s = ""
  \/ exists c t, JS.trimStart s = String c t /\ JS.isSpace c = false.
Proof.
  unfold JS.trimStart. induction s as [|c s IH]; simpl; [by left|].
  destruct (JS.isSpace c) eqn:Hc.
  - destruct (JS.span JS.isSpace s) as [a b]. simpl in *. exact IH.
  - right. by exists c, s.
Qed.

Lemma trim_idem (s : string) : JS.trim (JS.trim s) = JS.trim s.
Proof.
  unfold JS.trim. destruct (trimStart_head s) as [->|(c & t & -> & Hc)]; [done|].
  rewrite (trimEnd_cons _ _ Hc), (trimStart_nonspace _ _ Hc).
  by rewrite (trimEnd_cons _ _ Hc), trimEnd_idem.
Qed.

(** ** Dates *)

Lemma zrange_In (from : Z) (n : nat) (z : Z) :
  from <= z < from + Z.of_nat n -> In z (Acr.zrange from n).
Proof.
  intros H. unfold Acr.zrange. apply in_map_iff.
  exists (Z.to_nat (z - from)). split; [lia|]. apply in_seq. lia.
Qed.

Lemma zfrom_In (from : Z) (n : nat) (z : Z) :
  from <= z < from + Z.of_nat n -> In z (Acr.zfrom from n).
Proof.
  revert from. induction n as [|n IH]; intros from H; [lia|].
  cbn [Acr.zfrom]. destruct (Z.eq_dec from z) as [->|Hne]; [by left|].
  right. apply IH. lia.
Qed.

(** [civilFromDays] is right from 1000 days before 1970-01-01 to 62000
    days after it: it gives the day of the calendar that has this day
    number. *)
Lemma civilFromDays_ok (z : Z) :
  -1000 <= z < 62000 ->
  Acr.dayNumber (Acr.civilFromDays z) = z /\ Acr.validDate (Acr.civilFromDays z) = true.
Proof.
  intros Hz.
  assert (forallb (fun z => (Acr.dayNumber (Acr.civilFromDays z) =? z)
                            && Acr.validDate (Acr.civilFromDays z))
            (Acr.zfrom (-1000) (Z.to_nat 63000)) = true) as H
    by (vm_compute; reflexivity).
  rewrite forallb_forall in H.
  specialize (H z (zfrom_In (-1000) (Z.to_nat 63000) z ltac:(lia))).
  apply andb_prop in H as [H1 H2]. by apply Z.eqb_eq in H1.
Qed.

(** A day whose year is from 1970 to 2100 has its number in that range. *)
Lemma civil_year_bounds (z : Z) :
  1970 <= Acr.year (Acr.civilFromDays z) <= 2100 -> -1000 <= z < 49000.
Proof.
  unfold Acr.civilFromDays. cbv zeta. cbn [Acr.year].
  set (mp := (5 * _ + 2) / 153).
  destruct (_ <=? 2); Z.div_mod_to_equations; lia.
Qed.

(** The fields of a [Date] whose year is from 1970 to 2100 are a day of
    the calendar, in whatever zone the process runs. *)
Lemma fields_valid (t : Z) :
  1970 <= Acr.year (Acr.fieldsOf t) <= 2100 -> Acr.validDate (Acr.fieldsOf t) = true.
Proof.
  unfold Acr.fieldsOf. intros H. apply civilFromDays_ok.
  apply civil_year_bounds in H. lia.
Qed.

Lemma digits_no_dash (s : string) :
  JS.all JS.isDigit s = true -> JS.all (fun c => negb (Ascii.eqb c "-")) s = true.
Proof.
  apply all_impl. intros c Hc. destruct (isDigit_plain c Hc) as (_ & -> & _). done.
Qed.

Lemma testYMD_spec (s : string) :
  Acr.testYMD s = true ->
  exists a b c,
    s = a +:+ "-" +:+ b +:+ "-" +:+ c
    /\ JS.all JS.isDigit a = true /\ String.length a = 4%nat
    /\ JS.all JS.isDigit b = true /\ String.length b = 2%nat
    /\ JS.all JS.isDigit c = true /\ String.length c = 2%nat.
Proof.
  unfold Acr.testYMD.
  destruct (JS.span JS.isDigit s) as [a r1] eqn:E1.
  destruct r1 as [|c1 r1]; [done|].
  destruct (JS.span JS.isDigit r1) as [b r2] eqn:E2.
  destruct r2 as [|c2 r2]; [done|].
  destruct (JS.span JS.isDigit r2) as [c r3] eqn:E3.
  intros H. repeat (apply andb_prop in H as [H ?]).
  apply span_spec in E1 as [-> Ha]. apply span_spec in E2 as [-> Hb].
  apply span_spec in E3 as [-> Hc].
  repeat match goal with
         | H : Nat.eqb _ _ = true |- _ => apply Nat.eqb_eq in H
         | H : Ascii.eqb _ _ = true |- _ => apply Ascii.eqb_eq in H
         | H : String.eqb _ _ = true |- _ => apply String.eqb_eq in H
         end.
  subst. exists a, b, c. rewrite sapp_nil_r. by repeat split.
Qed.

Lemma splitOn_ymd (a b c : string) :
  JS.all JS.isDigit a = true -> JS.all JS.isDigit b = true ->
  JS.all JS.isDigit c = true ->
  JS.splitOn "-" (a +:+ "-" +:+ b +:+ "-" +:+ c) = [a; b; c].
Proof.
  intros Ha Hb Hc.
  change (a +:+ "-" +:+ b +:+ "-" +:+ c) with (a +:+ String "-" (b +:+ String "-" c)).
  rewrite !splitOn_app.
  by rewrite !splitOn_plain by by apply digits_no_dash.
Qed.

Lemma length_nonempty (s : string) n : String.length s = S n -> s <> "".
Proof. by destruct s. Qed.

Lemma testYMD_shape (a b c : string) :
  JS.all JS.isDigit a = true -> String.length a = 4%nat ->
  JS.all JS.isDigit b = true -> String.length b = 2%nat ->
  JS.all JS.isDigit c = true -> String.length c = 2%nat ->
  Acr.testYMD (a +:+ "-" +:+ b +:+ "-" +:+ c) = true.
Proof.
  intros Ha La Hb Lb Hc Lc. unfold Acr.testYMD.
  change (a +:+ "-" +:+ b +:+ "-" +:+ c) with (a +:+ String "-" (b +:+ String "-" c)).
  rewrite (span_app_stop _ _ _ _ Ha) by reflexivity.
  rewrite (span_app_stop _ _ _ _ Hb) by reflexivity.
  rewrite (span_all _ _ Hc). by rewrite La, Lb, Lc.
Qed.

(** The three range tests and the round trip of [parseYMD], on the
    numbers that it has read. *)
Lemma parseYMD_digits (tz : Acr.TimeZone) (v : option string) (a b c : string) :
  JS.trim (JS.strOrEmpty v) = a +:+ "-" +:+ b +:+ "-" +:+ c ->
  JS.all JS.isDigit a = true -> String.length a = 4%nat ->
  JS.all JS.isDigit b = true -> String.length b = 2%nat ->
  JS.all JS.isDigit c = true -> String.length c = 2%nat ->
  let y := JS.digitsValue 0 a in
  let m := JS.digitsValue 0 b in
  let d := JS.digitsValue 0 c in
  Acr.parseYMD tz v
  = if (y <? 1970) || (2100 <? y) then None
    else if (m <? 1) || (12 <? m) then None
    else if (d <? 1) || (31 <? d) then None
    else match Acr.newDate tz y (m - 1) d with
         | Some dt =>
             let f := Acr.fieldsOf dt in
             if (Acr.year f =? y) && (Acr.month f =? m - 1) && (Acr.day f =? d)
             then Some dt else None
         | None => None
         end.
Proof.
  intros E Ha La Hb Lb Hc Lc y m d. unfold Acr.parseYMD. cbv zeta.
  rewrite E, (testYMD_shape a b c Ha La Hb Lb Hc Lc). cbn [negb].
  rewrite (splitOn_ymd _ _ _ Ha Hb Hc). cbn [List.map].
  rewrite (parseInt_digits a Ha (length_nonempty _ _ La)).
  rewrite (parseInt_digits b Hb (length_nonempty _ _ Lb)).
  rewrite (parseInt_digits c Hc (length_nonempty _ _ Lc)).
  fold y m d.
  generalize (Acr.newDate tz y (m - 1) d). intros nd.
  destruct ((y <? 1970) || (2100 <? y)); [reflexivity|].
  destruct ((m <? 1) || (12 <? m)); [reflexivity|].
  destruct ((d <? 1) || (31 <? d)); [reflexivity|].
  destruct nd as [dt|]; [|reflexivity].
  generalize (Acr.fieldsOf dt). intros f.
  by destruct (Acr.year f =? y), (Acr.month f =? m - 1), (Acr.day f =? d).
Qed.

(** What [parseYMD] accepts is a day of the calendar from 1970 to 2100
    written YYYY-MM-DD, and the [Date] has the fields of that day. *)
Lemma parseYMD_accepted (tz : Acr.TimeZone) (v : option string) (t : Z) :
  Acr.parseYMD tz v = Some t ->
  Acr.acceptedYMD (JS.trim (JS.strOrEmpty v)) (Acr.fieldsOf t).
Proof.
  destruct (Acr.testYMD (JS.trim (JS.strOrEmpty v))) eqn:Ht;
    [|by unfold Acr.parseYMD; rewrite Ht].
  destruct (testYMD_spec _ Ht) as (a & b & c & E & Ha & La & Hb & Lb & Hc & Lc).
  rewrite (parseYMD_digits tz v a b c E Ha La Hb Lb Hc Lc). cbv zeta.
  remember (JS.digitsValue 0 a) as y eqn:Ey.
  remember (JS.digitsValue 0 b) as m eqn:Em.
  remember (JS.digitsValue 0 c) as d eqn:Ed.
  destruct (Z.ltb_spec y 1970); [by cbn [orb]|].
  destruct (Z.ltb_spec 2100 y); [by cbn [orb]|].
  destruct (Z.ltb_spec m 1); [by cbn [orb]|].
  destruct (Z.ltb_spec 12 m); [by cbn [orb]|].
  destruct (Z.ltb_spec d 1); [by cbn [orb]|].
  destruct (Z.ltb_spec 31 d); [by cbn [orb]|].
  cbn [orb].
  destruct (Acr.newDate tz y (m - 1) d) as [nd|]; [|done].
  pose proof (fields_valid nd) as Hv.
  remember (Acr.fieldsOf nd) as f eqn:Ef.
  destruct (Z.eqb_spec (Acr.year f) y) as [Hy|]; [|done].
  destruct (Z.eqb_spec (Acr.month f) (m - 1)) as [Hm|]; [|done].
  destruct (Z.eqb_spec (Acr.day f) d) as [Hd|]; [|done].
  cbn [andb]. intros [= <-]. rewrite <- Ef.
  specialize (Hv ltac:(lia)). unfold Acr.validDate in Hv.
  rewrite Hy, Hm, Hd in Hv. replace (m - 1 + 1) with m in Hv by lia.
  repeat (apply andb_prop in Hv as [Hv ?]).
  repeat match goal with H : (_ <=? _) = true |- _ => apply Z.leb_le in H end.
  destruct f as [fy fm fd]. cbn [Acr.year Acr.month Acr.day] in *. subst.
  exists a, b, c. repeat split; try done; lia.
Qed.

(** What [parseYMD] accepts is a calendar date written YYYY-MM-DD. *)
Lemma parseYMD_calendar (tz : Acr.TimeZone) (v : option string) (t : Z) :
  Acr.parseYMD tz v = Some t -> Acr.calendarYMD (JS.trim (JS.strOrEmpty v)).
Proof.
  intros (a & b & c & E & Ha & La & Hb & Lb & Hc & Lc & Hy & Hm & Hd & _)%parseYMD_accepted.
  by exists a, b, c.
Qed.

(** ** The search window *)

Lemma computeRange_rejects (tz : Acr.TimeZone) (q : Acr.Query) :
  Acr.invalidWindow q ->
  exists m,
    Acr.computeRangeFromQuery tz q (JS.trim (JS.strOrEmpty (Acr.startdate q)))
      = Onex.Thrown m
    /\ Acr.isInputErr m = true.
Proof.
  intros Hbad. unfold Acr.computeRangeFromQuery.
  destruct (Acr.parseYMD tz (Some (JS.trim (JS.strOrEmpty (Acr.startdate q)))))
    as [start|] eqn:Hs; [|by eexists].
  apply parseYMD_calendar in Hs. rewrite strOrEmpty_Some, trim_idem in Hs.
  destruct Hbad as [Hbad|[[He Hbad]|[He (w & Hw & Hbad)]]]; [done| |].
  - rewrite He. destruct (Acr.parseYMD tz (Acr.enddate q)) as [e|] eqn:Hp; [|by eexists].
    by apply parseYMD_calendar in Hp.
  - rewrite He, Hw. destruct (JS.parseInt w) as [n|]; [|by eexists].
    specialize (Hbad n eq_refl). cbn [JS.toNum].
    pose proof (number_nonpos n Hbad) as Hn.
    destruct (JS.number n) as [wd| | |]; try done; [|by eexists].
    assert ((wd <=? 0) = true) as -> by (apply Z.leb_le; lia). by eexists.
Qed.

Lemma catchJson_input (q : Acr.Query) (m : string) :
  Acr.isInputErr m = true -> Acr.status (Acr.catchJson q m) = 400.
Proof. intros H. unfold Acr.catchJson. by rewrite H. Qed.

Lemma catchText_input (m : string) :
  Acr.isInputErr m = true -> Acr.status (Acr.catchText m) = 400.
Proof. intros H. unfold Acr.catchText. by rewrite H. Qed.

Lemma find_rejects cfg env (q : Acr.Query) :
  Acr.invalidWindow q ->
  (Acr.find cfg env q).1 = [] /\ Acr.status (Acr.find cfg env q).2 = 400.
Proof.
  intros Hbad. unfold Acr.find.
  destruct (negb (Nat.eqb (length (Acr.missingOf _)) 0)); [done|].
  destruct (computeRange_rejects (Acr.timeZone env) q Hbad) as (m & -> & Hm).
  split; [done|]. by apply catchJson_input.
Qed.

Lemma replayByUcid_rejects cfg env fs (q : Acr.Query) :
  Acr.invalidWindow q ->
  (Acr.replayByUcid cfg env fs q).1.1 = []
  /\ Acr.status (Acr.replayByUcid cfg env fs q).2 = 400.
Proof.
  intros Hbad. unfold Acr.replayByUcid.
  destruct (negb (Nat.eqb (length (Acr.missingOf _)) 0)); [done|].
  destruct (computeRange_rejects (Acr.timeZone env) q Hbad) as (m & -> & Hm).
  split; [done|]. by apply catchText_input.
Qed.

Lemma searchByNumber_rejects cfg env (q : Acr.Query) :
  Acr.invalidWindow q ->
  (Acr.searchByNumber cfg env q).1 = []
  /\ Acr.status (Acr.searchByNumber cfg env q).2 = 400.
Proof.
  intros Hbad. unfold Acr.searchByNumber.
  destruct (negb (Nat.eqb (length (Acr.missingOf _)) 0)); [done|].
  destruct (computeRange_rejects (Acr.timeZone env) q Hbad) as (m & -> & Hm).
  split; [done|]. by apply catchJson_input.
Qed.

(** ** Sorting newest first *)

Section Sorting.

Variable env : Acr.Env.

Lemma insertItem_perm x l : Permutation (Acr.insertItem env x l) (x :: l).
Proof.
  induction l as [|y l IH]; simpl; [done|].
  destruct (Acr.staysBefore env x y); [done|].
  rewrite IH. apply perm_swap.
Qed.

Lemma sortItems_perm l : Permutation (Acr.sortItems env l) l.
Proof.
  induction l as [|x l IH]; simpl; [done|].
  rewrite insertItem_perm. by constructor.
Qed.






End Sorting.

(** ** Runs of [startcall] on the samples *)

(** The session is torn down when placing the call fails. *)
Example startcall_teardown_after_exception :
  Onex.startcall Sample.cfg Sample.envCallFails Sample.query
    = ([Onex.EvStationQuery "10.0.0.5";
        Onex.EvRegisterClient Sample.baseUrl "CRM_amal_T-7_1700000000000";
        Onex.EvJavaMonitor "4001";
        Onex.EvMakeCall Sample.baseUrl "C-1" "90791234567" "10.0.0.5";
        Onex.EvUnregisterClient Sample.baseUrl "C-1"],
       {| Onex.status := 500; Onex.body := Onex.BMessage "ECONNRESET" |}).
Proof. reflexivity. Qed.

Lemma startcall_teardown_exactly_once_witness :
  Onex.Ready Sample.cfg Sample.envCallFails Sample.query Sample.baseUrl "C-1" true 500 3
  /\ Onex.countEvents Onex.isUnregister
       (Onex.startcall Sample.cfg Sample.envCallFails Sample.query).1 = 1%nat
  /\ JS.truthy (Onex.clientid Sample.querySupplied) = true
  /\ Onex.countEvents Onex.isUnregister
       (Onex.startcall Sample.cfg Sample.env Sample.querySupplied).1 = 0%nat.
Proof.
  assert (Onex.Ready Sample.cfg Sample.envCallFails Sample.query Sample.baseUrl
            "C-1" true 500 3) as R by (constructor; reflexivity).
  split; [exact R|]. split.
  - exact (proj1 (proj1 (startcall_teardown_exactly_once Sample.cfg Sample.envCallFails
                           Sample.query) Sample.baseUrl "C-1" 500 3 R)).
  - split; [reflexivity|].
    apply (proj2 (startcall_teardown_exactly_once Sample.cfg Sample.env
                    Sample.querySupplied)).
    reflexivity.
Defined.


Lemma startcall_poll_bounded_witness :
  Onex.UCID_POLL_MAX_ATTEMPTS Sample.cfg = Some 3
  /\ 0 <= 3
  /\ Z.of_nat (Onex.countEvents Onex.isPoll
                 (Onex.startcall Sample.cfg Sample.env Sample.query).1) <= 3
  /\ Onex.pollingOf (Onex.startcall Sample.cfg Sample.env Sample.query).1
     = [Onex.EvNextNotification Sample.baseUrl "C-1" 1; Onex.EvDelay 500;
        Onex.EvNextNotification Sample.baseUrl "C-1" 2]
  /\ Onex.pollingOf (Onex.startcall Sample.cfg Sample.envSilent Sample.query).1
     = [Onex.EvNextNotification Sample.baseUrl "C-1" 1; Onex.EvDelay 500;
        Onex.EvNextNotification Sample.baseUrl "C-1" 2; Onex.EvDelay 500;
        Onex.EvNextNotification Sample.baseUrl "C-1" 3; Onex.EvDelay 500].
Proof.
  assert (Onex.Ready Sample.cfg Sample.env Sample.query Sample.baseUrl
            "C-1" true 500 3) as R by (constructor; reflexivity).
  assert (Onex.Ready Sample.cfg Sample.envSilent Sample.query Sample.baseUrl
            "C-1" true 500 3) as R' by (constructor; reflexivity).
  split; [reflexivity|]. split; [lia|].
  destruct (startcall_poll_bounded Sample.cfg Sample.env Sample.query 3 eq_refl
              ltac:(lia)) as [Hcount Hrun].
  split; [exact Hcount|]. split.
  - destruct (Hrun Sample.baseUrl "C-1" true 500 R eq_refl) as [Hstop _].
    rewrite (Hstop 2 Sample.voice ltac:(lia)); [reflexivity| |reflexivity..].
    intros j Hj. assert (j = 1) as -> by lia. exact I.
  - destruct (startcall_poll_bounded Sample.cfg Sample.envSilent Sample.query 3 eq_refl
                ltac:(lia)) as [_ Hrun'].
    destruct (Hrun' Sample.baseUrl "C-1" true 500 R' eq_refl) as [_ Hall].
    destruct (Hall (fun j _ => I)) as [-> _]. reflexivity.
Defined.

Lemma withPrefix_idempotent_and_prefixed_witness :
  Onex.CALL_PREFIX Sample.cfg <> ""
  /\ JS.startsWith "90791234567" (Onex.CALL_PREFIX Sample.cfg) = true
  /\ Onex.withPrefix Sample.cfg (Some "90791234567") = "90791234567"
  /\ JS.startsWith (Onex.withPrefix Sample.cfg (Some "0791234567"))
       (Onex.CALL_PREFIX Sample.cfg) = true.
Proof.
  assert (Onex.CALL_PREFIX Sample.cfg <> "") as NE by discriminate.
  split; [exact NE|]. split; [reflexivity|]. split.
  - exact (proj2 (proj1 (proj2 (withPrefix_idempotent_and_prefixed Sample.cfg
                                  "90791234567")) NE) eq_refl).
  - exact (proj1 (proj1 (proj2 (withPrefix_idempotent_and_prefixed Sample.cfg
                                  "0791234567")) NE)).
Defined.

(** ** Audit inserts *)

(** The call-attempt insert depends on the interaction id and the client
    id only. *)
Lemma insertOnexCallLog_guard ucid t p d c i a :
  Onex.countEvents Onex.isCallLogInsert (Onex.insertOnexCallLog ucid t p d c i a)
    = (if JS.truthy i && JS.truthy c then 1 else 0)%nat.
Proof.
  unfold Onex.insertOnexCallLog. by destruct (JS.truthy i), (JS.truthy c).
Qed.

(** A control action that passes the parameter check is logged once, with
    the success flag of the answer. *)
Lemma controlAction_logged_once cfg env (a : Onex.Action) (q : Onex.Query) :
  JS.truthy (Onex.deviceIp q) = true ->
  (Onex.usesInteraction a = true -> JS.truthy (Onex.interactionid q) = true) ->
  exists row,
    List.filter Onex.isActionLogInsert (Onex.controlAction cfg env a q).1
      = [Onex.EvInsertActionLog row]
    /\ Onex.arow_action row = Onex.actionTag a
    /\ Onex.arow_success row
       = (Onex.status (Onex.controlAction cfg env a q).2 =? 200).
Proof.
  intros Hd Hi. unfold Onex.controlAction. rewrite Hd.
  assert (Onex.usesInteraction a && negb (JS.truthy (Onex.interactionid q)) = false) as ->.
  { destruct (Onex.usesInteraction a); [|done]. by rewrite Hi. }
  simpl orb. cbv iota. unfold Onex.actionTry.
  destruct (Onex.buildBaseUrl cfg env _) as [baseUrl|m]; [|by eexists].
  unfold Onex.ensureClient, Onex.registerFresh, Onex.oneXVoiceAction,
    Onex.finallyUnregister, Onex.unregisterClient, Onex.insertOnexActionLog.
  destruct (JS.truthy (Onex.clientid q)).
  - destruct (Onex.voiceAnswer env _) as [code|m]; [|by eexists].
    destruct code as [code|]; [destruct (String.eqb code "0")|]; by eexists.
  - destruct (Onex.registerAnswer env _) as [reg|m]; [|by eexists].
    destruct (negb _); [by eexists|].
    destruct (Onex.voiceAnswer env _) as [code|m]; [|by eexists].
    destruct code as [code|]; [destruct (String.eqb code "0")|]; by eexists.
Qed.

(** C8. At the run of [startcall] in which no station is mapped to the
    device and the notification brings an interaction id without a ucid,
    the outcome has no ucid and the handler still sends the INSERT of the
    call-attempt table, with a null ucid: the insert is not skipped, against
    the rule that a row is written only when ucid, interaction id and
    session id are all there. *)
Theorem callLog_insert_without_ucid :
  Onex.body (Onex.startcall Sample.cfg Sample.envNoUcid Sample.query).2
    = Onex.BOutcome true None (Some "VI:1") "C-1" (Some "0791234567") None
  /\ List.filter Onex.isCallLogInsert
       (Onex.startcall Sample.cfg Sample.envNoUcid Sample.query).1
     = [Onex.EvInsertCallLog
          {| Onex.row_ucid := None;
             Onex.row_ticket_number := "T-7";
             Onex.row_client_phone := "0791234567";
             Onex.row_device_ip := "10.0.0.5";
             Onex.row_client_id := "C-1";
             Onex.row_interaction_id := "VI:1";
             Onex.row_agent_user := Some "amal" |}].
Proof. split; reflexivity. Qed.

(** ** The contract of the streamer *)




(** The header [bytes=50-10] on the same file: the headers of a partial
    answer are set, with a length below zero, and the stream is refused. *)
Lemma streamFile_reversed_sample :
  Acr.streamFile Sample.files "/var/media/clip.wav" (Some "bytes=50-10") "audio/wav"
  = Acr.Threw "ERR_OUT_OF_RANGE"
      (Acr.commonHeaders "audio/wav"
       ++ [("Content-Range", "bytes 50-10/100"); ("Content-Length", "-39")]).
Proof. by vm_compute. Qed.

(** ** The cache on the samples *)

Lemma sample_validRecording : Acr.validRecording (Sample.archive []) "R2".
Proof.
  unfold Acr.validRecording. do 3 eexists.
  split; [reflexivity|]. simpl. repeat split; try reflexivity; try lia. discriminate.
Qed.

Lemma ensureLocalWav_second_call_cached_witness :
  Acr.validRecording (Sample.archive []) "R2"
  /\ (Acr.ensureLocalWav Sample.acfg (Sample.archive []) ∅ "R2").2
     = Onex.Returned "/var/media/R2.wav"
  /\ Acr.ensureLocalWav Sample.acfg (Sample.archive [])
       (Acr.ensureLocalWav Sample.acfg (Sample.archive []) ∅ "R2").1.2 "R2"
     = ([], (Acr.ensureLocalWav Sample.acfg (Sample.archive []) ∅ "R2").1.2,
        Onex.Returned "/var/media/R2.wav").
Proof.
  assert (Acr.validRecording (Sample.archive []) "R2") as Hv.
  { unfold Acr.validRecording. do 3 eexists.
    split; [reflexivity|]. simpl. repeat split; try reflexivity; try lia. discriminate. }
  split; [exact Hv|].
  pose proof (ensureLocalWav_second_call_cached Sample.acfg (Sample.archive []) ∅ "R2" Hv)
    as H.
  destruct (Acr.ensureLocalWav Sample.acfg (Sample.archive []) ∅ "R2")
    as [[tr1 fs1] r1] eqn:E1.
  simpl.
  destruct (Acr.ensureLocalWav Sample.acfg (Sample.archive []) fs1 "R2")
    as [[tr2 fs2] r2] eqn:E2.
  destruct H as (-> & -> & -> & -> & _). split; reflexivity.
Defined.

(** ** The search by number *)

Section SearchByNumber.

Variables (cfg : Acr.Config) (env : Acr.Env) (q : Acr.Query).

Lemma limitOf_spec :
  Acr.limitOf q
    = match Acr.limit q ≫= JS.parseInt with
      | Some n => Z.max 0 n
      | None => 0
      end.
Proof.
  unfold Acr.limitOf.
  assert (JS.parseInt (JS.strOrEmpty (JS.or (Acr.limit q) (Some "0")))
          = match Acr.limit q ≫= JS.parseInt with Some n => Some n | None => Some 0 end
          \/ (JS.parseInt (JS.strOrEmpty (JS.or (Acr.limit q) (Some "0"))) = None
              /\ Acr.limit q ≫= JS.parseInt = None)) as [H|[H1 H2]].
  { destruct (Acr.limit q) as [s|]; [|by left].
    unfold JS.or, JS.truthy. destruct (String.eqb_spec s "") as [->|Hs]; [by left|].
    simpl negb. cbv iota. rewrite strOrEmpty_Some. simpl.
    destruct (JS.parseInt s); [by left|by right]. }
  - rewrite H. destruct (Acr.limit q ≫= JS.parseInt) as [n|]; [|done].
    destruct (Z.ltb_spec n 0); lia.
  - by rewrite H1, H2.
Qed.

Lemma limitOf_nonneg : 0 <= Acr.limitOf q.
Proof. rewrite limitOf_spec. destruct (Acr.limit q ≫= JS.parseInt); lia. Qed.

Lemma missingOf_none_acr fields :
  Forall (fun f => JS.truthy (Some (snd f)) = true) fields -> Acr.missingOf fields = [].
Proof.
  unfold Acr.missingOf. induction 1 as [|f fs Hf _ IH]; [done|].
  cbn [List.filter]. rewrite Hf. exact IH.
Qed.

(** The run of a search that the archive answers with at least one result. *)
Lemma searchByNumber_answered w results :
  Acr.NumberSearch env q w results -> results <> [] ->
  Acr.searchByNumber cfg env q =
    let params :=
      Acr.numberSearchParams w (Acr.p2Of q) (Acr.p4Of q)
        (JS.trim (JS.strOrEmpty (Acr.number q))) in
    let window :=
      {| Acr.jw_start := Acr.w_start w; Acr.jw_end := Acr.w_end w;
         Acr.jw_p2 := Some (Acr.p2Of q); Acr.jw_p4 := Some (Acr.p4Of q) |} in
    let items := Acr.sortItems env (Acr.survivors cfg env q results) in
    if Acr.limitOf q =? 0 then
      match items with
      | first :: _ =>
          (Acr.EvSearch params :: Acr.insertAcrRow first,
           Acr.reply 200 (Acr.BItem (length items) first window))
      | [] =>
          ([Acr.EvSearch params],
           Acr.catchJson q "Cannot read properties of undefined (reading 'inum')")
      end
    else
      (Acr.EvSearch params
         :: List.flat_map Acr.insertAcrRow (List.firstn (Z.to_nat (Acr.limitOf q)) items),
       Acr.reply 200
         (Acr.BItems (length items) (List.firstn (Z.to_nat (Acr.limitOf q)) items)
            window (Acr.limitOf q))).
Proof.
  intros [Hn Hs Hw Ha] Hne. unfold Acr.searchByNumber.
  rewrite missingOf_none_acr by (repeat constructor; done).
  cbn [length Nat.eqb negb]. rewrite Hw. cbv zeta. rewrite Ha.
  destruct results as [|r results]; [done|].
  fold (Acr.survivors cfg env q (r :: results)).
  pose proof limitOf_nonneg.
  assert (((Acr.limitOf q =? 0) || (Acr.limitOf q <=? 0)) = (Acr.limitOf q =? 0)) as ->.
  { destruct (Z.eqb_spec (Acr.limitOf q) 0), (Z.leb_spec (Acr.limitOf q) 0); lia || done. }
  done.
Qed.

Lemma itemOf_Some number r p :
  Acr.itemOf cfg env number r = Some p ->
  Acr.hasInum r = true /\ Acr.p_inum p = JS.strOrEmpty (Acr.r_inum r).
Proof.
  unfold Acr.itemOf, Acr.mapResultFields, Acr.hasInum.
  assert (JS.truthy (JS.or (Acr.r_inum r) None) = JS.truthy (Acr.r_inum r)) as Ht.
  { unfold JS.or. by destruct (JS.truthy (Acr.r_inum r)) eqn:E. }
  rewrite Ht. destruct (JS.truthy (Acr.r_inum r)) eqn:E; [|done].
  cbn [negb]. intros [= <-]. split; [done|]. unfold JS.or. by rewrite E.
Qed.

Lemma itemOf_None number r :
  Acr.hasInum r = false -> Acr.itemOf cfg env number r = None.
Proof.
  unfold Acr.itemOf, Acr.mapResultFields, Acr.hasInum. intros H.
  assert (JS.truthy (JS.or (Acr.r_inum r) None) = false) as ->; [|done].
  unfold JS.or. by rewrite H.
Qed.

Lemma omap_cons {A B} (f : A -> option B) (x : A) (l : list A) :
  omap f (x :: l) = match f x with Some y => y :: omap f l | None => omap f l end.
Proof. reflexivity. Qed.

(** The survivors are the records of the results that have an identifier,
    and there are as many. *)
Lemma survivors_spec results :
  Forall (fun p => exists r, In r results /\ Acr.hasInum r = true
                             /\ Acr.p_inum p = JS.strOrEmpty (Acr.r_inum r))
    (Acr.survivors cfg env q results)
  /\ length (Acr.survivors cfg env q results)
     = length (List.filter Acr.hasInum results).
Proof.
  unfold Acr.survivors. induction results as [|r results [IH1 IH2]]; [by split|].
  rewrite omap_cons. cbn [List.filter].
  destruct (Acr.itemOf cfg env (JS.trim (JS.strOrEmpty (Acr.number q))) r)
    as [p|] eqn:E.
  - destruct (itemOf_Some _ _ _ E) as [Hi Hp]. rewrite Hi. split.
    + constructor; [exists r; split; [by left|done]|].
      eapply Forall_impl; [exact IH1|].
      intros p' (r' & Hin & H). exists r'. split; [by right|done].
    + simpl. by rewrite IH2.
  - destruct (Acr.hasInum r) eqn:Hi.
    + exfalso. unfold Acr.itemOf, Acr.mapResultFields, Acr.hasInum in *.
      assert (JS.truthy (JS.or (Acr.r_inum r) None) = true) as Ht
        by (unfold JS.or; by rewrite Hi).
      rewrite Ht in E. done.
    + split; [|done].
      eapply Forall_impl; [exact IH1|].
      intros p' (r' & Hin & H). exists r'. split; [by right|done].
Qed.

Lemma Forall_firstn {A} (P : A -> Prop) n (l : list A) :
  Forall P l -> Forall P (List.firstn n l).
Proof.
  intros H. revert n. induction H as [|x l Hx _ IH]; intros [|n]; simpl;
    constructor; auto.
Qed.

Lemma In_firstn_l {A} (x : A) n (l : list A) : In x (List.firstn n l) -> In x l.
Proof.
  revert n. induction l as [|y l IH]; intros [|n]; simpl; try done.
  intros [->|H]; [by left|right; by apply (IH n)].
Qed.

Lemma rowsOf_flat_map (l : list Acr.Payload) :
  Acr.rowsOf (List.flat_map Acr.insertAcrRow l) = l.
Proof. induction l as [|x l IH]; [done|]. simpl. by f_equal. Qed.

(** What a run returns and what it inserts are records of the sorted
    survivors, and [found] counts the survivors. *)
Lemma searchByNumber_returns w results :
  Acr.NumberSearch env q w results ->
  let run := Acr.searchByNumber cfg env q in
  let sorted := Acr.sortItems env (Acr.survivors cfg env q results) in
  (forall p, In p (Acr.itemsOf (Acr.body run.2) ++ Acr.rowsOf run.1) -> In p sorted)
  /\ (forall n, Acr.foundOf (Acr.body run.2) = Some n -> n = length sorted).
Proof.
  intros Hs run sorted. subst run sorted.
  destruct results as [|r results].
  - destruct Hs as [Hn Hst Hw Ha]. unfold Acr.searchByNumber.
    rewrite missingOf_none_acr by (repeat constructor; done).
    cbn [length Nat.eqb negb]. rewrite Hw. cbv zeta. rewrite Ha.
    split; [by intros p []|]. by intros n [= <-].
  - rewrite (searchByNumber_answered w _ Hs) by done. cbv zeta.
    set (sorted := Acr.sortItems env (Acr.survivors cfg env q (r :: results))).
    destruct (Acr.limitOf q =? 0).
    + destruct sorted as [|first rest] eqn:E.
      * unfold Acr.catchJson. simpl. split; [by intros p []|done].
      * simpl. split; [|by intros n [= <-]].
        intros p [<-|[<-|[]]]; by left.
    + cbn [fst snd Acr.body Acr.reply Acr.itemsOf Acr.foundOf].
      change (Acr.rowsOf (Acr.EvSearch ?p :: ?l)) with (Acr.rowsOf l).
      rewrite rowsOf_flat_map. split; [|by intros n [= <-]].
      intros p [Hp|Hp]%in_app_or; by apply In_firstn_l in Hp.
Qed.

End SearchByNumber.


Lemma sample_numberSearch results limit :
  Acr.NumberSearch (Sample.archive results) (Sample.byNumber limit)
    {| Acr.w_start := {| Acr.year := 2024; Acr.month := 0; Acr.day := 5 |};
       Acr.w_end := Some {| Acr.year := 2024; Acr.month := 0; Acr.day := 5 |};
       Acr.w_p1 := "05/01/24"; Acr.w_p3 := "05/01/24" |}
    results.
Proof. constructor; reflexivity. Qed.



(** ** Validation of the search window *)

Lemma not_calendar_month_13 : ~ Acr.calendarYMD "2024-13-01".
Proof.
  intros (a & b & c & E & _ & La & _ & Lb & _ & Lc & Hm & _).
  destruct a as [|a0 [|a1 [|a2 [|a3 [|? ?]]]]]; try discriminate La.
  destruct b as [|b0 [|b1 [|? ?]]]; try discriminate Lb.
  injection E; intros; subst. vm_compute in Hm. destruct Hm as [_ Hm]. by apply Hm.
Qed.

(** C5, amended. Each search route ([find], [replayByUcid],
    [searchByNumber]) answers 400 without sending anything when the start
    date is not a calendar date written YYYY-MM-DD, when an end date is
    given and is not one, or when no end date is given and [windowDays] is
    given and is not a positive number; so does a request with the start
    date 2024-13-01. In a search by number, every record that is returned
    or inserted in the audit table comes from a result that has its
    identifier, and [found] counts the results that have one. *)
Theorem archive_search_validation :
  forall (cfg : Acr.Config) (env : Acr.Env) (fs : Acr.Files) (q : Acr.Query),
    (Acr.invalidWindow q ->
       ((Acr.find cfg env q).1 = [] /\ Acr.status (Acr.find cfg env q).2 = 400)
       /\ ((Acr.replayByUcid cfg env fs q).1.1 = []
           /\ Acr.status (Acr.replayByUcid cfg env fs q).2 = 400)
       /\ ((Acr.searchByNumber cfg env q).1 = []
           /\ Acr.status (Acr.searchByNumber cfg env q).2 = 400))
    /\ (Acr.startdate q = Some "2024-13-01" -> Acr.invalidWindow q)
    /\ (forall w results,
           Acr.NumberSearch env q w results ->
           let run := Acr.searchByNumber cfg env q in
           (forall p, In p (Acr.itemsOf (Acr.body run.2) ++ Acr.rowsOf run.1) ->
                      exists r, In r results /\ Acr.hasInum r = true
                                /\ Acr.p_inum p = JS.strOrEmpty (Acr.r_inum r))
           /\ (forall n, Acr.foundOf (Acr.body run.2) = Some n ->
                         n = length (List.filter Acr.hasInum results))).
Proof.
  intros cfg env fs q. split; [|split].
  - intros Hbad. split; [by apply find_rejects|].
    split; [by apply replayByUcid_rejects|by apply searchByNumber_rejects].
  - intros Hs. left. rewrite Hs. exact not_calendar_month_13.
  - intros w results Hs run. subst run.
    destruct (searchByNumber_returns cfg env q w results Hs) as [Hin Hfound].
    destruct (survivors_spec cfg env q results) as [Hall Hlen].
    pose proof (sortItems_perm env (Acr.survivors cfg env q results)) as Hperm.
    split.
    + intros p Hp. apply Hin in Hp.
      apply (Permutation_in _ Hperm) in Hp.
      rewrite List.Forall_forall in Hall. by apply Hall.
    + intros n Hn. rewrite (Hfound n Hn), <- Hlen. by apply Permutation_length.
Qed.

Lemma archive_search_validation_witness :
  Acr.startdate Sample.month13 = Some "2024-13-01"
  /\ Acr.find Sample.acfg (Sample.archive []) Sample.month13
     = ([], Acr.reply 400 (Acr.BInvalid "Invalid startdate (expected YYYY-MM-DD)"
                             ["startdate"]))
  /\ (Acr.searchByNumber Sample.acfg (Sample.archive []) Sample.month13).1 = []
  /\ Acr.status (Acr.replayByUcid Sample.acfg (Sample.archive []) ∅ Sample.month13).2
     = 400.
Proof.
  destruct (archive_search_validation Sample.acfg (Sample.archive []) ∅ Sample.month13)
    as (Hrej & Hex & _).
  destruct (Hrej (Hex eq_refl)) as ((Hf1 & Hf2) & (Hr1 & Hr2) & (Hn1 & Hn2)).
  split; [reflexivity|]. split; [reflexivity|]. split; [exact Hn1|exact Hr2].
Defined.

(** A [windowDays] of 0 next to a valid end date is not looked at: the
    search is sent to the archive and answered 200. *)
Lemma find_windowDays_ignored_with_enddate :
  Acr.windowDays Sample.withEndAndWindow = Some "0"
  /\ JS.parseInt "0" = Some 0
  /\ Acr.find Sample.acfg (Sample.archive []) Sample.withEndAndWindow
     = ([Acr.EvSearch
           [("command", "search"); ("operator_startedat", "9");
            ("param1_startedat", "05/01/24"); ("param3_startedat", "06/01/24");
            ("operator_switchcallid", "1"); ("param1_switchcallid", "00001")]],
        Acr.reply 200 (Acr.BNone None)).
Proof. repeat split; reflexivity. Qed.

(** ** More about [startcall] *)

Section StartcallRuns.

Variables (cfg : Onex.Config) (env : Onex.Env) (q : Onex.Query).

Lemma truthy_strOrEmpty (v : option string) :
  JS.truthy v = true -> JS.truthy (Some (JS.strOrEmpty v)) = true.
Proof.
  destruct v as [s|]; [|done]. rewrite strOrEmpty_Some. done.
Qed.

(** The client id that [ensureClient] returns is never empty. *)
Lemma ensureClient_truthy baseUrl name c cid created :
  (Onex.ensureClient env baseUrl name c).2 = Onex.Returned (cid, created) ->
  JS.truthy (Some cid) = true.
Proof.
  unfold Onex.ensureClient, Onex.registerFresh.
  destruct (JS.truthy c) eqn:Hc; simpl.
  - intros [= <- _]. by apply truthy_strOrEmpty.
  - destruct (Onex.registerAnswer env name) as [reg|m]; [|done].
    destruct (JS.truthy (JS.or (Onex.reg_ClientId reg) (Onex.reg_clientId reg))) eqn:Hr;
      simpl; [|done].
    intros [= <- _]. by apply truthy_strOrEmpty.
Qed.

(** The three ways a run can go: it places the call; it is refused
    before any request; or the registration of the session fails. *)
Lemma startcall_cases :
  (exists baseUrl cid created interval max,
      Onex.Ready cfg env q baseUrl cid created interval max)
  \/ (~ Onex.accepted cfg env q
      /\ (Onex.startcall cfg env q).1 = []
      /\ (Onex.status (Onex.startcall cfg env q).2 = 400
          \/ Onex.status (Onex.startcall cfg env q).2 = 500)
      /\ Onex.succeeded (Onex.startcall cfg env q).2 = false)
  \/ (Onex.accepted cfg env q
      /\ exists baseUrl m,
           Onex.startcall cfg env q
             = ([Onex.EvStationQuery (JS.strOrEmpty (Onex.deviceIp q));
                 Onex.EvRegisterClient baseUrl (Onex.clientNameOf env q)],
                {| Onex.status := 500; Onex.body := Onex.BMessage m |})).
Proof.
  destruct (JS.truthy (Onex.ticketNumber q)) eqn:Ht;
  destruct (JS.truthy (Onex.clientPhone q)) eqn:Hp;
  destruct (JS.truthy (Onex.deviceIp q)) eqn:Hd;
    try (right; left; unfold Onex.startcall, Onex.missingOf, Onex.accepted; simpl;
         rewrite Ht, Hp, Hd; simpl;
         split; [intros (? & ? & ? & _); congruence|]; auto).
  destruct (Onex.UCID_POLL_INTERVAL_MS cfg) as [interval|] eqn:Hi;
  [destruct (Onex.UCID_POLL_MAX_ATTEMPTS cfg) as [max|] eqn:Hm|];
    try (right; left; unfold Onex.startcall, Onex.missingOf, Onex.accepted; simpl;
         rewrite Ht, Hp, Hd, Hi, ?Hm; simpl;
         split; [intros (_ & _ & _ & ? & ? & _); congruence|]; auto).
  destruct (Onex.buildBaseUrl cfg env (JS.strOrEmpty (Onex.deviceIp q)))
    as [baseUrl|m] eqn:Hu.
  2:{ right; left. unfold Onex.startcall, Onex.missingOf, Onex.accepted. simpl.
      rewrite Ht, Hp, Hd, Hi, Hm, Hu. simpl.
      split; [intros (_ & _ & _ & _ & _ & b & ?); congruence|]. auto. }
  destruct (Onex.ensureClient env baseUrl (Onex.clientNameOf env q) (Onex.clientid q))
    as [tr1 [[cid created]|m]] eqn:He.
  - left. exists baseUrl, cid, created, interval, max.
    constructor; try done. by rewrite He.
  - right; right. split.
    + unfold Onex.accepted. rewrite Hi, Hm. repeat split; try done. by exists baseUrl.
    + exists baseUrl. eexists.
      unfold Onex.startcall, Onex.missingOf. simpl.
      rewrite Ht, Hp, Hd, Hi, Hm, Hu. simpl. unfold Onex.startcallTry.
      rewrite He. simpl. rewrite app_nil_r.
      unfold Onex.ensureClient, Onex.registerFresh in He.
      destruct (JS.truthy (Onex.clientid q)); [done|].
      injection He as <- _. reflexivity.
Qed.

Lemma ready_accepted baseUrl cid created interval max :
  Onex.Ready cfg env q baseUrl cid created interval max -> Onex.accepted cfg env q.
Proof.
  intros [Ht Hp Hd Hi Hm Hu Hc]. unfold Onex.accepted. rewrite Hi, Hm.
  repeat split; try done. by exists baseUrl.
Qed.

(** The events of a run that places the call, counted piece by piece. *)
Lemma startcall_ready_count p baseUrl cid created interval max :
  Onex.Ready cfg env q baseUrl cid created interval max ->
  (forall e, Onex.isPoll e || Onex.isDelay e = true -> p e = false) ->
  Onex.countEvents p (Onex.startcall cfg env q).1
    = (Onex.countEvents p [Onex.EvStationQuery (JS.strOrEmpty (Onex.deviceIp q))]
       + Onex.countEvents p
           (Onex.ensureClient env baseUrl (Onex.clientNameOf env q) (Onex.clientid q)).1
       + Onex.countEvents p
           (if JS.truthy (Onex.stationOf env q)
            then (Onex.getUcidFromJava cfg env (JS.strOrEmpty (Onex.stationOf env q))).1
            else [])
       + Onex.countEvents p
           [Onex.EvMakeCall baseUrl cid (Onex.withPrefix cfg (Onex.clientPhone q))
              (JS.strOrEmpty (Onex.deviceIp q))]
       + match Onex.makecallAnswer env with
         | Onex.Returned _ =>
             Onex.countEvents p
               (Onex.insertOnexCallLog
                  (JS.or (Onex.sideChannelUcid cfg env q)
                     (JS.or (Onex.notified env baseUrl cid interval max).2 None))
                  (Onex.ticketNumber q) (Onex.clientPhone q) (Onex.deviceIp q)
                  (Some cid) (Onex.notified env baseUrl cid interval max).1
                  (JS.or (Onex.agentUser q) (Some "")))
         | Onex.Thrown _ => O
         end
       + Onex.countEvents p (Onex.finallyUnregister created (Some cid) baseUrl))%nat.
Proof.
  intros R Hp. rewrite (startcall_ready _ _ _ _ _ _ _ _ R). cbv zeta.
  unfold Onex.notified.
  pose proof (pollLoop_only_polls env baseUrl cid interval max (Onex.pollFuel max)
                0 None None) as Hpolls.
  destruct (Onex.makecallAnswer env) as [[]|m];
    [destruct (Onex.pollLoop _ _ _ _ _ _ _ _ _) as [[trP i] u]; simpl in Hpolls|];
    cbn [fst snd]; rewrite !countEvents_app.
  - rewrite (countEvents_none p trP); [lia|].
    eapply Forall_impl; [exact Hpolls|]. exact Hp.
  - lia.
Qed.

Lemma totalDelay_pollingOf (tr : list Onex.Event) :
  Onex.totalDelay (Onex.pollingOf tr) = Onex.totalDelay tr.
Proof.
  unfold Onex.pollingOf. induction tr as [|e tr IH]; [done|].
  destruct e; simpl; rewrite ?IH; done.
Qed.

Lemma pollLoop_totalDelay baseUrl cid interval max fuel attempts i u :
  0 <= interval ->
  Onex.totalDelay (Onex.pollLoop env baseUrl cid interval max fuel attempts i u).1.1
    <= interval * Z.max 0 (max - attempts).
Proof.
  intros Hi. revert attempts. induction fuel as [|fuel IH]; intros attempts.
  - simpl. nia.
  - simpl. destruct (attempts <? max) eqn:Hlt; simpl; [|nia].
    apply Z.ltb_lt in Hlt.
    destruct (negb (JS.truthy i) || negb (JS.truthy u)); [|simpl; nia].
    specialize (IH (attempts + 1)).
    destruct (Onex.notifyAnswer env (attempts + 1)) as [[v|]|m];
      try (destruct (Onex.pollLoop env baseUrl cid interval max fuel (attempts + 1) i u)
             as [[tr i'] u']; simpl in *; nia).
Qed.

End StartcallRuns.

(** X1. [startcall] sends no request at all, not even the station lookup,
    unless the three parameters are there, the polling is configured and
    the device address is accepted; it then answers 400 or 500. Once the
    request is accepted the first request is the station lookup. *)
Theorem startcall_sends_nothing_unless_accepted :
  forall (cfg : Onex.Config) (env : Onex.Env) (q : Onex.Query),
    ((Onex.startcall cfg env q).1 = [] <-> ~ Onex.accepted cfg env q)
    /\ ((Onex.startcall cfg env q).1 = [] ->
        Onex.status (Onex.startcall cfg env q).2 = 400
        \/ Onex.status (Onex.startcall cfg env q).2 = 500)
    /\ (Onex.accepted cfg env q ->
        List.head (Onex.startcall cfg env q).1
          = Some (Onex.EvStationQuery (JS.strOrEmpty (Onex.deviceIp q)))).
Proof.
  intros cfg env q.
  destruct (startcall_cases cfg env q)
    as [(b & c & cr & i & m & R)|[(Hna & Htr & Hst & _)|(Hacc & b & m & E)]].
  - pose proof (ready_accepted _ _ _ _ _ _ _ _ R) as Hacc.
    rewrite (startcall_ready _ _ _ _ _ _ _ _ R). cbv zeta.
    destruct (Onex.makecallAnswer env) as [[]|?];
      [destruct (Onex.pollLoop _ _ _ _ _ _ _ _ _) as [[trP i'] u']|];
      simpl; (split; [split; [done|intros H; by destruct H]|split; [done|done]]).
  - rewrite Htr. split; [done|]. split; [done|]. intros H. by destruct Hna.
  - rewrite E. simpl. split; [split; [done|intros H; by destruct H]|]. split; done.
Qed.

(** X2. A run of [startcall] inserts a row in the call-attempt table
    exactly when its outcome has [success: true], that is when the
    notification brought an interaction id; every other run, refused,
    failed or without interaction, inserts none. *)
Theorem startcall_callLog_iff_success :
  forall (cfg : Onex.Config) (env : Onex.Env) (q : Onex.Query),
    Onex.countEvents Onex.isCallLogInsert (Onex.startcall cfg env q).1
      = (if Onex.succeeded (Onex.startcall cfg env q).2 then 1 else 0)%nat.
Proof.
  intros cfg env q.
  destruct (startcall_cases cfg env q)
    as [(b & c & cr & i & m & R)|[(Hna & Htr & Hst & Hs)|(Hacc & b & m & E)]].
  - rewrite (startcall_ready_count cfg env q Onex.isCallLogInsert _ _ _ _ _ R)
      by (by intros []).
    pose proof (ensureClient_truthy env _ _ _ _ _ (Onex.ready_client _ _ _ _ _ _ _ _ R))
      as Hcid.
    assert (Onex.countEvents Onex.isCallLogInsert
              (Onex.ensureClient env b (Onex.clientNameOf env q) (Onex.clientid q)).1 = O)
      as -> by (unfold Onex.ensureClient, Onex.registerFresh;
                by destruct (JS.truthy (Onex.clientid q))).
    assert (Onex.countEvents Onex.isCallLogInsert
              (if JS.truthy (Onex.stationOf env q)
               then (Onex.getUcidFromJava cfg env (JS.strOrEmpty (Onex.stationOf env q))).1
               else []) = O)
      as -> by (unfold Onex.getUcidFromJava;
                destruct (JS.truthy (Onex.stationOf env q)); [by destruct (negb _)|done]).
    assert (Onex.countEvents Onex.isCallLogInsert (Onex.finallyUnregister cr (Some c) b) = O)
      as -> by (by destruct cr).
    rewrite (startcall_ready _ _ _ _ _ _ _ _ R). cbv zeta. unfold Onex.notified.
    destruct (Onex.makecallAnswer env) as [[]|?]; [|done].
    destruct (Onex.pollLoop _ _ _ _ _ _ _ _ _) as [[trP i'] u'].
    rewrite insertOnexCallLog_guard, Hcid. unfold Onex.succeeded. simpl.
    by destruct (JS.truthy i').
  - by rewrite Htr, Hs.
  - by rewrite E.
Qed.

(** X3. The waits of a run of [startcall] add up to at most
    [UCID_POLL_MAX_ATTEMPTS] times [UCID_POLL_INTERVAL_MS]. *)
Theorem startcall_wait_bounded :
  forall (cfg : Onex.Config) (env : Onex.Env) (q : Onex.Query) (interval max : Z),
    Onex.UCID_POLL_INTERVAL_MS cfg = Some interval ->
    Onex.UCID_POLL_MAX_ATTEMPTS cfg = Some max ->
    0 <= interval -> 0 <= max ->
    Onex.totalDelay (Onex.startcall cfg env q).1 <= max * interval.
Proof.
  intros cfg env q interval max Hi Hm Hin Hmax.
  rewrite <- totalDelay_pollingOf.
  destruct (startcall_polling_cases cfg env q) as [->|(b & c & cr & i & m & R)];
    [simpl; nia|].
  rewrite (startcall_ready_polling _ _ _ _ _ _ _ _ R).
  pose proof (Onex.ready_max _ _ _ _ _ _ _ _ R) as Hm'.
  pose proof (Onex.ready_interval _ _ _ _ _ _ _ _ R) as Hi'.
  assert (m = max) as -> by congruence. assert (i = interval) as -> by congruence.
  destruct (Onex.makecallAnswer env); [|simpl; nia].
  pose proof (pollLoop_totalDelay env b c interval max (Onex.pollFuel max) 0 None None Hin).
  nia.
Qed.

Lemma startcall_wait_bounded_witness :
  Onex.UCID_POLL_INTERVAL_MS Sample.cfg = Some 500
  /\ Onex.UCID_POLL_MAX_ATTEMPTS Sample.cfg = Some 3
  /\ Onex.totalDelay (Onex.startcall Sample.cfg Sample.envSilent Sample.query).1 <= 3 * 500.
Proof.
  split; [reflexivity|]. split; [reflexivity|].
  apply (startcall_wait_bounded Sample.cfg Sample.envSilent Sample.query 500 3);
    (reflexivity || lia).
Defined.

(** X4. A run of [startcall] asks the Java monitor at most once, and only
    when a station is mapped to the device and [JAVA_UCID_BASEURL] is set;
    a run that gets as far as placing the call then asks it exactly
    once. *)
Theorem startcall_monitor_request :
  forall (cfg : Onex.Config) (env : Onex.Env) (q : Onex.Query),
    (Onex.countEvents Onex.isJavaMonitor (Onex.startcall cfg env q).1 <= 1)%nat
    /\ (Onex.countEvents Onex.isJavaMonitor (Onex.startcall cfg env q).1 = 1%nat ->
        JS.truthy (Onex.stationOf env q) = true
        /\ JS.truthy (Onex.JAVA_UCID_BASEURL cfg) = true)
    /\ (forall baseUrl cid created interval max,
           Onex.Ready cfg env q baseUrl cid created interval max ->
           JS.truthy (Onex.stationOf env q) = true ->
           JS.truthy (Onex.JAVA_UCID_BASEURL cfg) = true ->
           Onex.countEvents Onex.isJavaMonitor (Onex.startcall cfg env q).1 = 1%nat).
Proof.
  intros cfg env q.
  assert (forall baseUrl cid created interval max,
             Onex.Ready cfg env q baseUrl cid created interval max ->
             Onex.countEvents Onex.isJavaMonitor (Onex.startcall cfg env q).1
               = (if JS.truthy (Onex.stationOf env q)
                     && JS.truthy (Onex.JAVA_UCID_BASEURL cfg) then 1 else 0)%nat) as Hready.
  { intros b c cr i m R.
    rewrite (startcall_ready_count cfg env q Onex.isJavaMonitor _ _ _ _ _ R)
      by (by intros []).
    assert (Onex.countEvents Onex.isJavaMonitor
              (Onex.ensureClient env b (Onex.clientNameOf env q) (Onex.clientid q)).1 = O)
      as -> by (unfold Onex.ensureClient, Onex.registerFresh;
                by destruct (JS.truthy (Onex.clientid q))).
    assert (Onex.countEvents Onex.isJavaMonitor (Onex.finallyUnregister cr (Some c) b) = O)
      as -> by (by destruct cr).
    assert (forall u t p d c' i' a,
               Onex.countEvents Onex.isJavaMonitor
                 (Onex.insertOnexCallLog u t p d c' i' a) = O) as Hins
      by (intros; unfold Onex.insertOnexCallLog; by destruct (_ || _)).
    assert (match Onex.makecallAnswer env with
            | Onex.Returned _ =>
                Onex.countEvents Onex.isJavaMonitor
                  (Onex.insertOnexCallLog
                     (JS.or (Onex.sideChannelUcid cfg env q)
                        (JS.or (Onex.notified env b c i m).2 None))
                     (Onex.ticketNumber q) (Onex.clientPhone q) (Onex.deviceIp q)
                     (Some c) (Onex.notified env b c i m).1
                     (JS.or (Onex.agentUser q) (Some "")))
            | Onex.Thrown _ => O
            end = O) as -> by (destruct (Onex.makecallAnswer env); [apply Hins|done]).
    unfold Onex.getUcidFromJava.
    destruct (JS.truthy (Onex.stationOf env q)); [|done].
    by destruct (JS.truthy (Onex.JAVA_UCID_BASEURL cfg)). }
  destruct (startcall_cases cfg env q)
    as [(b & c & cr & i & m & R)|[(Hna & Htr & Hst & Hs)|(Hacc & b & m & E)]].
  - rewrite (Hready _ _ _ _ _ R).
    destruct (JS.truthy (Onex.stationOf env q)),
      (JS.truthy (Onex.JAVA_UCID_BASEURL cfg)); simpl;
      (split; [lia|split; [done|]]); intros; (done || by eapply Hready).
  - rewrite Htr. split; [unfold Onex.countEvents; simpl; lia|]. split; [done|].
    intros b c cr i m R. exfalso. apply Hna. by eapply ready_accepted.
  - split; [rewrite E; unfold Onex.countEvents; simpl; lia|].
    split; [rewrite E; done|]. intros b' c cr i m' R Hs Hj.
    rewrite (Hready _ _ _ _ _ R), Hs, Hj. done.
Qed.

(** ** The control handlers *)

(** X5. A control handler (release, hold, unhold, mute, unmute) writes
    one row to the action table for every request that has its required
    parameters, whatever happens afterwards: the row has the name of the
    action and, as its success flag, whether the answer is 200. For a
    request that lacks a parameter it writes none and answers 400. *)
Theorem controlAction_logs_every_accepted_request :
  forall (cfg : Onex.Config) (env : Onex.Env) (a : Onex.Action) (q : Onex.Query),
    let run := Onex.controlAction cfg env a q in
    if Onex.actionAccepted a q then
      exists row,
        List.filter Onex.isActionLogInsert run.1 = [Onex.EvInsertActionLog row]
        /\ Onex.arow_action row = Onex.actionTag a
        /\ Onex.arow_success row = (Onex.status run.2 =? 200)
    else
      List.filter Onex.isActionLogInsert run.1 = [] /\ Onex.status run.2 = 400.
Proof.
  intros cfg env a q run. subst run.
  destruct (Onex.actionAccepted a q) eqn:Hacc.
  - unfold Onex.actionAccepted in Hacc. apply andb_prop in Hacc as [Hd Hi].
    apply controlAction_logged_once; [done|].
    intros Hu. by rewrite Hu in Hi.
  - unfold Onex.controlAction.
    assert (negb (JS.truthy (Onex.deviceIp q))
            || Onex.usesInteraction a && negb (JS.truthy (Onex.interactionid q))
            = true) as ->; [|done].
    unfold Onex.actionAccepted in Hacc.
    by destruct (JS.truthy (Onex.deviceIp q)), (Onex.usesInteraction a),
         (JS.truthy (Onex.interactionid q)).
Qed.

(** X6. A control handler (release, hold, unhold, mute, unmute) that lacks
    a required parameter answers 400 and sends nothing. Otherwise it sends
    no [unregisterclient] when the caller supplied the session, and exactly
    one, as its last request, when it registered the session itself,
    whatever the endpoint answers to the action. *)
Theorem controlAction_teardown :
  forall (cfg : Onex.Config) (env : Onex.Env) (a : Onex.Action) (q : Onex.Query),
    (Onex.actionAccepted a q = false ->
       (Onex.controlAction cfg env a q).1 = []
       /\ Onex.status (Onex.controlAction cfg env a q).2 = 400)
    /\ (JS.truthy (Onex.clientid q) = true ->
        Onex.countEvents Onex.isUnregister (Onex.controlAction cfg env a q).1 = 0%nat)
    /\ (forall baseUrl cid,
           Onex.actionAccepted a q = true ->
           Onex.buildBaseUrl cfg env (JS.strOrEmpty (Onex.deviceIp q))
             = Onex.Returned baseUrl ->
           (Onex.ensureClient env baseUrl (Onex.actionClientName env a q)
              (Onex.clientid q)).2 = Onex.Returned (cid, true) ->
           Onex.countEvents Onex.isUnregister (Onex.controlAction cfg env a q).1 = 1%nat
           /\ List.last (Onex.controlAction cfg env a q).1 (Onex.EvDelay 0)
              = Onex.EvUnregisterClient baseUrl cid).
Proof.
  intros cfg env a q.
  assert (negb (JS.truthy (Onex.deviceIp q))
          || Onex.usesInteraction a && negb (JS.truthy (Onex.interactionid q))
          = negb (Onex.actionAccepted a q)) as Hcheck.
  { unfold Onex.actionAccepted.
    by destruct (JS.truthy (Onex.deviceIp q)), (Onex.usesInteraction a),
         (JS.truthy (Onex.interactionid q)). }
  split; [|split].
  - intros Hno. unfold Onex.controlAction. rewrite Hcheck, Hno. done.
  - intros Hs. unfold Onex.controlAction. rewrite Hcheck.
    destruct (Onex.actionAccepted a q); [|done]. cbn [negb]. unfold Onex.actionTry.
    destruct (Onex.buildBaseUrl cfg env _) as [baseUrl|m]; [|done].
    unfold Onex.ensureClient. rewrite Hs.
    unfold Onex.oneXVoiceAction, Onex.insertOnexActionLog.
    destruct (Onex.voiceAnswer env _) as [code|m]; done.
  - intros baseUrl cid Hacc Hu He. unfold Onex.controlAction.
    rewrite Hcheck, Hacc. cbn [negb]. unfold Onex.actionTry. rewrite Hu.
    destruct (Onex.ensureClient env baseUrl _ _) as [tr1 ens] eqn:E.
    simpl in He. subst ens.
    assert (tr1 = [Onex.EvRegisterClient baseUrl (Onex.actionClientName env a q)]) as ->.
    { unfold Onex.ensureClient, Onex.registerFresh in E.
      destruct (JS.truthy (Onex.clientid q)); [done|]. by injection E as <- _. }
    unfold Onex.oneXVoiceAction, Onex.insertOnexActionLog, Onex.finallyUnregister,
      Onex.unregisterClient.
    destruct (Onex.voiceAnswer env _) as [code|m];
      cbv beta iota zeta; rewrite !strOrEmpty_Some; split; reflexivity.
Qed.

Lemma controlAction_teardown_witness :
  Onex.actionAccepted Onex.Hold Sample.query = false
  /\ Onex.controlAction Sample.cfg Sample.env Onex.Hold Sample.query
     = ([], {| Onex.status := 400;
               Onex.body := Onex.BMessage "deviceIp and interactionid are required" |})
  /\ Onex.countEvents Onex.isUnregister
       (Onex.controlAction Sample.cfg Sample.env Onex.Mute Sample.query).1 = 1%nat
  /\ Onex.countEvents Onex.isUnregister
       (Onex.controlAction Sample.cfg Sample.env Onex.Mute Sample.querySupplied).1 = 0%nat.
Proof.
  split; [reflexivity|]. split; [reflexivity|]. split.
  - exact (proj1 (proj2 (proj2 (controlAction_teardown Sample.cfg Sample.env Onex.Mute
                                  Sample.query)) Sample.baseUrl "C-1"
                    eq_refl eq_refl eq_refl)).
  - exact (proj1 (proj2 (controlAction_teardown Sample.cfg Sample.env Onex.Mute
                           Sample.querySupplied)) eq_refl).
Defined.

(** ** [maskPhone] *)

Lemma fourAhead_length (s : string) :
  JS.all (fun c => negb (Onex.isLineTerminator c)) s = true ->
  Onex.fourAhead s = (4 <=? String.length s)%nat.
Proof.
  destruct s as [|a [|b [|c [|d s]]]]; try done.
  simpl. intros H. repeat (apply andb_prop in H as [? H]).
  repeat match goal with E : negb _ = true |- _ => rewrite E; clear E end. done.
Qed.

(** X7. [maskPhone] returns a string of the same length; on a string
    without line break it keeps the last four characters and puts a star
    for every character before them, so a string of at most four
    characters is not masked at all; an absent or empty value comes back
    as it is. *)
Theorem maskPhone_keeps_last_four :
  forall (s : string),
    String.length (Onex.maskChars s) = String.length s
    /\ (JS.all (fun c => negb (Onex.isLineTerminator c)) s = true ->
        Onex.maskChars s
          = Onex.stars (String.length s - 4) +:+ JS.takeLast 4 s)
    /\ (s <> "" -> Onex.maskPhone (Some s) = Some (Onex.maskChars s))
    /\ Onex.maskPhone None = None
    /\ Onex.maskPhone (Some "") = Some "".
Proof.
  intros s. split; [|split; [|split; [|done]]].
  - induction s as [|c s IH]; simpl; [done|]. by rewrite IH.
  - induction s as [|c s IH]; [done|].
    cbn [JS.all Onex.maskChars]. intros [Hc Hs]%andb_prop.
    rewrite Hc, (fourAhead_length s Hs), (IH Hs). cbn [andb].
    unfold JS.takeLast. cbn [String.length].
    destruct (Nat.leb_spec 4 (String.length s)) as [Hle|Hlt].
    + replace (S (String.length s) - 4)%nat with (S (String.length s - 4)) by lia.
      reflexivity.
    + replace (S (String.length s) - 4)%nat with O by lia.
      replace (String.length s - 4)%nat with O by lia. reflexivity.
  - intros Hne. unfold Onex.maskPhone, JS.truthy.
    destruct (String.eqb_spec s "") as [|_]; [done|]. simpl.
    by rewrite strOrEmpty_Some.
Qed.

(** ** [assertEnv] *)

Lemma missingOf_app (a b : list (string * option string)) :
  Onex.missingOf (a ++ b) = Onex.missingOf a ++ Onex.missingOf b.
Proof. unfold Onex.missingOf. by rewrite List.filter_app, List.map_app. Qed.

Lemma missingOf_nil_inv fields :
  Onex.missingOf fields = [] -> Forall (fun f => JS.truthy (snd f) = true) fields.
Proof.
  unfold Onex.missingOf. induction fields as [|f fs IH]; [constructor|].
  simpl. destruct (JS.truthy (snd f)) eqn:E; simpl; [|done].
  intros H. constructor; [done|by apply IH].
Qed.

(** X8. [assertEnv] returns exactly when none of the twelve required
    settings is missing; otherwise it throws. Once it has returned, the
    polling is configured: a request of [startcall] with its three
    parameters and an accepted device address is taken up, its first
    request being the station lookup. *)
Theorem assertEnv_guards_startcall :
  forall (s : Onex.Settings),
    (Onex.assertEnv s = Onex.Returned tt <-> Onex.missingSettings s = [])
    /\ (Onex.assertEnv s <> Onex.Returned tt ->
        Onex.assertEnv s
          = Onex.Thrown ("Missing required environment variables: "
                         +:+ String.concat ", " (Onex.missingSettings s)))
    /\ (Onex.assertEnv s = Onex.Returned tt ->
        Forall (fun v => JS.truthy v = true)
          [Onex.DB_USER s; Onex.DB_PASS s; Onex.DB_SERVER s; Onex.DB_NAME s;
           Onex.CALL_TABLE_NAME s; Onex.ACTION_TABLE_NAME s;
           Onex.DEVICE_MAP_TABLE_NAME s;
           Some (Onex.ONEX_SCHEME (Onex.settings_cfg s));
           Some (Onex.ONEX_PORT (Onex.settings_cfg s));
           Some (Onex.ONEX_API_PATH (Onex.settings_cfg s))]
        /\ forall env q baseUrl,
             JS.truthy (Onex.ticketNumber q) = true ->
             JS.truthy (Onex.clientPhone q) = true ->
             JS.truthy (Onex.deviceIp q) = true ->
             Onex.buildBaseUrl (Onex.settings_cfg s) env (JS.strOrEmpty (Onex.deviceIp q))
               = Onex.Returned baseUrl ->
             List.head (Onex.startcall (Onex.settings_cfg s) env q).1
               = Some (Onex.EvStationQuery (JS.strOrEmpty (Onex.deviceIp q)))).
Proof.
  intros s.
  assert (Onex.assertEnv s = Onex.Returned tt <-> Onex.missingSettings s = []) as Hiff.
  { unfold Onex.assertEnv. destruct (Onex.missingSettings s); simpl; split; done. }
  split; [exact Hiff|]. split.
  - unfold Onex.assertEnv. by destruct (Onex.missingSettings s).
  - intros Hok. apply Hiff in Hok. unfold Onex.missingSettings in Hok.
    apply app_eq_nil in Hok as [H1 Hok]. apply app_eq_nil in Hok as [H2 Hok].
    apply app_eq_nil in Hok as [H3 H4].
    apply missingOf_nil_inv in H1, H4.
    repeat match goal with H : Forall _ (_ :: _) |- _ =>
                             apply Forall_cons_1 in H as [? H] end.
    simpl in *. split; [repeat constructor; done|].
    intros env q baseUrl Ht Hp Hd Hu.
    destruct (Onex.UCID_POLL_INTERVAL_MS (Onex.settings_cfg s)) as [interval|] eqn:Hi;
      [|done].
    destruct (Onex.UCID_POLL_MAX_ATTEMPTS (Onex.settings_cfg s)) as [max|] eqn:Hm;
      [|done].
    unfold Onex.startcall. rewrite missingOf_none by (repeat constructor; done).
    simpl. rewrite Hi, Hm, Hu.
    destruct (Onex.startcallTry _ _ _ _ _ _ _) as [[trT [c cid]] result]. done.
Qed.

(** ** Dates that [parseYMD] accepts *)

Lemma daysInMonth_le (y m : Z) : Acr.daysInMonth y m <= 31.
Proof. unfold Acr.daysInMonth. repeat case_match; lia. Qed.

Lemma daysFromCivil_day (y m d : Z) :
  Acr.daysFromCivil y m d = Acr.daysFromCivil y m 1 + (d - 1).
Proof. unfold Acr.daysFromCivil. cbv zeta. lia. Qed.

Lemma dayNumber_bounds (y m d : Z) :
  1970 <= y <= 2100 -> 1 <= m <= 12 -> 1 <= d <= 31 ->
  -1000 <= Acr.daysFromCivil y m d < 49000.
Proof.
  intros Hy Hm Hd. unfold Acr.daysFromCivil. cbv zeta.
  destruct (Z.leb_spec m 2), (Z.ltb_spec 2 m); try lia;
    Z.div_mod_to_equations; lia.
Qed.

(** UTC keeps every time in its day, and is no time away from itself. *)
Lemma utc_keepsDay : Acr.keepsDay Acr.utc.
Proof. intros t. reflexivity. Qed.

Lemma utc_nearUTC : Acr.nearUTC Acr.utc.
Proof. intros t. cbn [Acr.utcOf Acr.utc]. rewrite Z.sub_diag. done. Qed.

(** In a zone that keeps every time in its day and is near UTC, a reading
    well inside the range of time values makes a [Date] of the same
    day. *)
Lemma dateOf_day (tz : Acr.TimeZone) (t : Z) :
  Acr.keepsDay tz -> Acr.nearUTC tz ->
  Z.abs t <= Acr.maxTime - Acr.msPerDay ->
  exists t', Acr.dateOf tz t = Some t' /\ t' / Acr.msPerDay = t / Acr.msPerDay.
Proof.
  intros Hk Hn Ht. unfold Acr.dateOf. specialize (Hn t).
  assert ((Z.abs (Acr.utcOf tz t) <=? Acr.maxTime) = true) as ->
    by (apply Z.leb_le; lia).
  eexists. split; [reflexivity|]. apply Hk.
Qed.

(** The day of the month [m], counted from 1, is the day that [new Date]
    makes of the month index [m - 1]. *)
Lemma makeDay_calendar (y m d : Z) :
  1 <= m <= 12 -> Acr.makeDay y (m - 1) d = Acr.daysFromCivil y m d.
Proof.
  intros Hm. unfold Acr.makeDay. cbv zeta.
  rewrite (Z.div_small (m - 1) 12), (Z.mod_small (m - 1) 12) by lia.
  rewrite Z.add_0_r. replace (m - 1 + 1) with m by lia.
  symmetry. apply daysFromCivil_day.
Qed.

(** A day of the calendar from 1970 to 2100 is the day of its day number. *)
Lemma civil_of_days (y m d : Z) :
  1970 <= y <= 2100 -> 1 <= m <= 12 -> 1 <= d <= Acr.daysInMonth y m ->
  Acr.civilFromDays (Acr.daysFromCivil y m d)
  = {| Acr.year := y; Acr.month := m - 1; Acr.day := d |}.
Proof.
  intros Hy Hm Hd. pose proof (daysInMonth_le y m) as Hle.
  assert (forallb (fun y =>
            forallb (fun m =>
              forallb (fun d =>
                implb (d <=? Acr.daysInMonth y m)
                  (let f := Acr.civilFromDays (Acr.daysFromCivil y m d) in
                   (Acr.year f =? y) && (Acr.month f =? m - 1) && (Acr.day f =? d)))
                (Acr.zrange 1 31))
              (Acr.zrange 1 12))
            (Acr.zrange 1970 131) = true) as H by (vm_compute; reflexivity).
  rewrite forallb_forall in H. specialize (H y (zrange_In 1970 131 y ltac:(lia))).
  rewrite forallb_forall in H. specialize (H m (zrange_In 1 12 m ltac:(lia))).
  rewrite forallb_forall in H. specialize (H d (zrange_In 1 31 d ltac:(lia))).
  assert ((d <=? Acr.daysInMonth y m) = true) as E by (apply Z.leb_le; lia).
  revert H. rewrite E, Bool.implb_true_l. cbv zeta.
  generalize (Acr.civilFromDays (Acr.daysFromCivil y m d)). intros [fy fm fd].
  cbn [Acr.year Acr.month Acr.day].
  intros [[H1 H2]%andb_prop H3]%andb_prop.
  apply Z.eqb_eq in H1, H2, H3. by subst.
Qed.

(** A time of a day [D]. *)
Lemma reading_day (D t : Z) : (D * Acr.msPerDay + t mod Acr.msPerDay) / Acr.msPerDay = D.
Proof.
  rewrite Z.div_add_l by done.
  rewrite (Z.div_small (t mod Acr.msPerDay)) by (by apply Z.mod_pos_bound).
  apply Z.add_0_r.
Qed.

(** The days from 1000 before the epoch to 62000 after it are well
    inside the range of time values. *)
Lemma reading_in_range (D t : Z) :
  -1000 <= D < 62000 ->
  Z.abs (D * Acr.msPerDay + t mod Acr.msPerDay) <= Acr.maxTime - Acr.msPerDay.
Proof.
  intros HD. pose proof (Z.mod_pos_bound t Acr.msPerDay eq_refl) as Ht.
  revert Ht. generalize (t mod Acr.msPerDay). intros r Hr.
  unfold Acr.maxTime, Acr.msPerDay in *. lia.
Qed.

(** In such a zone, the fields of a [Date] made of a year, a month and a
    day are those of that day. *)
Lemma newDate_fields (tz : Acr.TimeZone) (y m d : Z) :
  Acr.keepsDay tz -> Acr.nearUTC tz ->
  -1000 <= Acr.makeDay y m d < 62000 ->
  exists t, Acr.newDate tz y m d = Some t
            /\ Acr.fieldsOf t = Acr.civilFromDays (Acr.makeDay y m d).
Proof.
  intros Hk Hn Hb. unfold Acr.newDate.
  destruct (dateOf_day tz (Acr.makeDay y m d * Acr.msPerDay) Hk Hn) as (t & -> & Ht).
  { unfold Acr.maxTime, Acr.msPerDay. lia. }
  exists t. split; [done|]. unfold Acr.fieldsOf. rewrite Ht.
  by rewrite Z.div_mul.
Qed.

Lemma parseYMD_complete (tz : Acr.TimeZone) (v : option string) (dt : Acr.Date) :
  Acr.keepsDay tz -> Acr.nearUTC tz ->
  Acr.acceptedYMD (JS.trim (JS.strOrEmpty v)) dt ->
  exists t, Acr.parseYMD tz v = Some t /\ Acr.fieldsOf t = dt.
Proof.
  intros Hk Hn (a & b & c & E & Ha & La & Hb & Lb & Hc & Lc & Hy & Hm & Hd & ->).
  rewrite (parseYMD_digits tz v a b c E Ha La Hb Lb Hc Lc). cbv zeta.
  revert Hy Hm Hd.
  generalize (JS.digitsValue 0 a) (JS.digitsValue 0 b) (JS.digitsValue 0 c).
  intros y m d Hy Hm Hd.
  pose proof (daysInMonth_le y m) as Hle.
  pose proof (dayNumber_bounds y m d Hy Hm ltac:(lia)) as Hb'.
  destruct (newDate_fields tz y (m - 1) d Hk Hn) as (t & -> & Hf).
  { rewrite (makeDay_calendar y m d Hm). lia. }
  rewrite Hf, (makeDay_calendar y m d Hm), (civil_of_days y m d Hy Hm Hd).
  cbn [Acr.year Acr.month Acr.day].
  rewrite !Z.eqb_refl. cbn [andb].
  destruct (Z.ltb_spec y 1970); [lia|]. destruct (Z.ltb_spec 2100 y); [lia|].
  destruct (Z.ltb_spec m 1); [lia|]. destruct (Z.ltb_spec 12 m); [lia|].
  destruct (Z.ltb_spec d 1); [lia|]. destruct (Z.ltb_spec 31 d); [lia|].
  cbn [orb]. exists t. split; [done|].
  rewrite Hf, (makeDay_calendar y m d Hm). by apply civil_of_days.
Qed.

(** X9. In every time zone, what [parseYMD] accepts is a day of the
    calendar from 1970 to 2100 written YYYY-MM-DD, white space around it
    apart, and the [Date] that it gives reads as that year, month and
    day. Where the time zone never moves a local time into another day
    and is never more than a day away from UTC, [parseYMD] accepts every
    such day. *)
Theorem parseYMD_accepts_exactly :
  forall (tz : Acr.TimeZone) (v : option string),
    (forall t, Acr.parseYMD tz v = Some t ->
               Acr.acceptedYMD (JS.trim (JS.strOrEmpty v)) (Acr.fieldsOf t))
    /\ (Acr.keepsDay tz -> Acr.nearUTC tz ->
        forall dt, Acr.acceptedYMD (JS.trim (JS.strOrEmpty v)) dt ->
                   exists t, Acr.parseYMD tz v = Some t /\ Acr.fieldsOf t = dt).
Proof.
  intros tz v. split.
  - intros t. apply parseYMD_accepted.
  - intros Hk Hn dt. by apply parseYMD_complete.
Qed.

(** ** The dates sent to the archive *)

Lemma In_digitChars (c : ascii) : JS.isDigit c = true -> In c Acr.digitChars.
Proof.
  destruct c as [[] [] [] [] [] [] [] []]; intros H; vm_compute in H;
    try discriminate H; simpl; repeat (first [left; reflexivity | right]).
Qed.

Lemma In_digitStrings (n : nat) (s : string) :
  JS.all JS.isDigit s = true -> String.length s = n -> In s (Acr.digitStrings n).
Proof.
  revert s. induction n as [|n IH]; intros [|c s] Hs Hl; simpl in Hl; try done.
  - by left.
  - cbn [JS.all] in Hs. apply andb_prop in Hs as [Hc Hs].
    cbn [Acr.digitStrings]. apply in_flat_map. exists c.
    split; [by apply In_digitChars|]. apply in_map. apply IH; [done|lia].
Qed.

(** Printing a number of two digits gives the digits back. *)
Lemma print_two_digits (b : string) :
  JS.all JS.isDigit b = true -> String.length b = 2%nat -> 1 <= JS.digitsValue 0 b ->
  JS.padStart2 (JS.showZ (JS.digitsValue 0 b)) = b.
Proof.
  intros Hb Lb Hv.
  assert (forallb (fun b =>
                     implb (1 <=? JS.digitsValue 0 b)
                       (String.eqb (JS.padStart2 (JS.showZ (JS.digitsValue 0 b))) b))
            (Acr.digitStrings 2) = true) as H by (vm_compute; reflexivity).
  rewrite forallb_forall in H.
  specialize (H b (In_digitStrings 2 b Hb Lb)).
  assert ((1 <=? JS.digitsValue 0 b) = true) as E by (apply Z.leb_le; lia).
  rewrite E in H. by apply String.eqb_eq in H.
Qed.

(** The last two digits of a year of four digits, printed, are its last
    two digits. *)
Lemma print_year (a : string) :
  JS.all JS.isDigit a = true -> String.length a = 4%nat -> 1000 <= JS.digitsValue 0 a ->
  JS.takeLast 2 (JS.showZ (JS.digitsValue 0 a)) = JS.drop 2 a.
Proof.
  intros Ha La Hv.
  assert (forallb (fun a =>
                     implb (1000 <=? JS.digitsValue 0 a)
                       (String.eqb (JS.takeLast 2 (JS.showZ (JS.digitsValue 0 a)))
                          (JS.drop 2 a)))
            (Acr.digitStrings 4) = true) as H by (vm_compute; reflexivity).
  rewrite forallb_forall in H.
  specialize (H a (In_digitStrings 4 a Ha La)).
  assert ((1000 <=? JS.digitsValue 0 a) = true) as E by (apply Z.leb_le; lia).
  rewrite E in H. by apply String.eqb_eq in H.
Qed.

Lemma Returned_inj {A : Type} (a b : A) : Onex.Returned a = Onex.Returned b -> a = b.
Proof. by intros [= ->]. Qed.

Lemma toDDMMYY_accepted (s : string) (dt : Acr.Date) :
  Acr.acceptedYMD s dt -> Acr.toDDMMYY (Some dt) = Acr.echoDDMMYY s.
Proof.
  intros (a & b & c & -> & Ha & La & Hb & Lb & Hc & Lc & Hy & Hm & Hd & ->).
  unfold Acr.toDDMMYY. cbn [Acr.year Acr.month Acr.day].
  replace (JS.digitsValue 0 b - 1 + 1) with (JS.digitsValue 0 b) by lia.
  rewrite (print_two_digits b Hb Lb) by lia.
  rewrite (print_two_digits c Hc Lc) by lia.
  rewrite (print_year a Ha La) by lia.
  destruct a as [|a0 [|a1 [|a2 [|a3 [|? ?]]]]]; try discriminate La.
  destruct b as [|b0 [|b1 [|? ?]]]; try discriminate Lb.
  destruct c as [|c0 [|c1 [|? ?]]]; try discriminate Lc.
  reflexivity.
Qed.

(** X10. The window that [computeRangeFromQuery] returns carries the
    digits of the dates of the request: [p1] is the start date and, when
    an end date is given, [p3] is the end date, both rearranged as
    DD/MM/YY; without end date and without [windowDays] the window is the
    single day of the start date. *)
Theorem computeRange_params_echo_dates :
  forall (tz : Acr.TimeZone) (q : Acr.Query) (s : string) (w : Acr.Window),
    Acr.computeRangeFromQuery tz q s = Onex.Returned w ->
    Acr.w_p1 w = Acr.echoDDMMYY (JS.trim s)
    /\ (JS.truthy (Acr.enddate q) = true ->
        Acr.w_p3 w = Acr.echoDDMMYY (JS.trim (JS.strOrEmpty (Acr.enddate q))))
    /\ (JS.truthy (Acr.enddate q) = false -> Acr.windowDays q = None ->
        Acr.w_end w = Some (Acr.w_start w) /\ Acr.w_p3 w = Acr.w_p1 w).
Proof.
  intros tz q s w. unfold Acr.computeRangeFromQuery.
  destruct (Acr.parseYMD tz (Some s)) as [start|] eqn:Hs; [|done].
  apply parseYMD_accepted in Hs. rewrite strOrEmpty_Some in Hs.
  destruct (JS.truthy (Acr.enddate q)) eqn:He.
  - destruct (Acr.parseYMD tz (Acr.enddate q)) as [e|] eqn:Hp; [|done].
    intros <-%Returned_inj. cbn [Acr.w_p1 Acr.w_p3 Acr.w_end Acr.w_start option_map].
    split; [by apply toDDMMYY_accepted|]. split; [|done].
    intros _. apply toDDMMYY_accepted. by apply (parseYMD_accepted tz).
  - destruct (Acr.windowDays q) as [wd|].
    + destruct (JS.toNum (JS.parseInt wd)) as [n| | |]; try done.
      destruct (n <=? 0); [done|].
      intros <-%Returned_inj. cbn [Acr.w_p1].
      split; [by apply toDDMMYY_accepted|]. by split.
    + intros <-%Returned_inj. cbn [Acr.w_p1 Acr.w_p3 Acr.w_end Acr.w_start option_map].
      split; [by apply toDDMMYY_accepted|]. by split.
Qed.

(** ** A window given in days *)

(** In a zone that keeps every time in its day and is near UTC, adding
    days to a day of the calendar moves its day number by as much: [setDate]
    moves the [Date] to the day that [MakeDay] makes of its year, its
    month and the new day of the month, and keeps the time within the
    day. *)
Lemma addDays_dayNumber (tz : Acr.TimeZone) (t n : Z) :
  Acr.keepsDay tz -> Acr.nearUTC tz ->
  1970 <= Acr.year (Acr.fieldsOf t) <= 2100 ->
  0 <= Acr.month (Acr.fieldsOf t) <= 11 ->
  1 <= Acr.day (Acr.fieldsOf t) <= 31 ->
  0 <= n <= 12000 ->
  exists e,
    Acr.addDays tz t n = Some e
    /\ Acr.dayNumber (Acr.fieldsOf e) = Acr.dayNumber (Acr.fieldsOf t) + n
    /\ Acr.validDate (Acr.fieldsOf e) = true.
Proof.
  intros Hk Hn. unfold Acr.addDays. cbv zeta.
  generalize (Acr.fieldsOf t). intros dt Hy Hm Hd Hdays.
  assert (-1000 <= Acr.dayNumber dt < 49000) as Hb
    by (apply dayNumber_bounds; lia).
  assert (Acr.makeDay (Acr.year dt) (Acr.month dt) (Acr.day dt + n)
          = Acr.dayNumber dt + n) as ->.
  { unfold Acr.makeDay, Acr.dayNumber. cbv zeta.
    rewrite (Z.div_small (Acr.month dt) 12), (Z.mod_small (Acr.month dt) 12) by lia.
    rewrite Z.add_0_r, (daysFromCivil_day _ _ (Acr.day dt)). lia. }
  revert Hb. generalize (Acr.dayNumber dt). intros D Hb.
  destruct (dateOf_day tz ((D + n) * Acr.msPerDay + t mod Acr.msPerDay) Hk Hn)
    as (e & -> & He).
  { apply reading_in_range. lia. }
  exists e. split; [done|]. unfold Acr.fieldsOf. rewrite He, reading_day.
  apply civilFromDays_ok. lia.
Qed.

Lemma accepted_bounds (s : string) (dt : Acr.Date) :
  Acr.acceptedYMD s dt ->
  1970 <= Acr.year dt <= 2100 /\ 0 <= Acr.month dt <= 11 /\ 1 <= Acr.day dt <= 31.
Proof.
  intros (a & b & c & _ & _ & _ & _ & _ & _ & _ & Hy & Hm & Hd & ->).
  cbn [Acr.year Acr.month Acr.day].
  pose proof (daysInMonth_le (JS.digitsValue 0 a) (JS.digitsValue 0 b)). lia.
Qed.

(** X11. Where the time zone never moves a local time into another day
    and is never more than a day away from UTC: without end date, a
    [windowDays] that reads as the number [n] from 1 to 12000 gives the
    window from the start date to the day of the calendar [n] days
    later, whatever follows the number in the parameter. *)
Theorem computeRange_windowDays_later :
  forall (tz : Acr.TimeZone) (q : Acr.Query) (s wd : string) (start n : Z),
    Acr.keepsDay tz -> Acr.nearUTC tz ->
    Acr.parseYMD tz (Some s) = Some start ->
    JS.truthy (Acr.enddate q) = false ->
    Acr.windowDays q = Some wd ->
    JS.parseInt wd = Some n ->
    1 <= n <= 12000 ->
    exists w e,
      Acr.computeRangeFromQuery tz q s = Onex.Returned w
      /\ Acr.w_start w = Acr.fieldsOf start
      /\ Acr.w_end w = Some e
      /\ Acr.dayNumber e = Acr.dayNumber (Acr.w_start w) + n
      /\ Acr.validDate e = true
      /\ Acr.w_p3 w = Acr.toDDMMYY (Some e).
Proof.
  intros tz q s wd start n Hk Hnear Hs He Hw Hp Hn. unfold Acr.computeRangeFromQuery.
  rewrite Hs, He, Hw, Hp. cbn [JS.toNum].
  pose proof MAX_SAFE_INTEGER_pos as Hpos.
  rewrite (number_safe n) by (unfold JS.MAX_SAFE_INTEGER in *; lia).
  assert ((n <=? 0) = false) as -> by (apply Z.leb_gt; lia).
  apply parseYMD_accepted, accepted_bounds in Hs as (Hy & Hm & Hd).
  destruct (addDays_dayNumber tz start n Hk Hnear Hy Hm Hd ltac:(lia))
    as (e & -> & H1 & H2).
  eexists _, (Acr.fieldsOf e). split; [reflexivity|].
  cbn [Acr.w_start Acr.w_end Acr.w_p3 option_map]. by repeat split.
Qed.

Lemma computeRange_windowDays_later_witness :
  Acr.keepsDay Acr.utc
  /\ Acr.nearUTC Acr.utc
  /\ exists w,
       Acr.computeRangeFromQuery Acr.utc
         (Sample.search (Some "2024-02-27") None (Some "3 days") None)
         "2024-02-27" = Onex.Returned w
       /\ Acr.w_start w = {| Acr.year := 2024; Acr.month := 1; Acr.day := 27 |}
       /\ Acr.w_end w = Some {| Acr.year := 2024; Acr.month := 2; Acr.day := 1 |}
       /\ Acr.w_p3 w = "01/03/24".
Proof.
  split; [exact utc_keepsDay|]. split; [exact utc_nearUTC|].
  destruct (computeRange_windowDays_later Acr.utc
              (Sample.search (Some "2024-02-27") None (Some "3 days") None)
              "2024-02-27" "3 days" 1708992000000 3
              utc_keepsDay utc_nearUTC
              ltac:(vm_compute; reflexivity) ltac:(reflexivity) ltac:(reflexivity)
              ltac:(reflexivity) ltac:(lia))
    as (w & e & Hw & Hstart & Hend & Hday & _ & Hp3).
  exists w. split; [exact Hw|].
  vm_compute in Hw. injection Hw as <-. by repeat split.
Defined.

Lemma computeRange_params_echo_dates_witness :
  let w := {| Acr.w_start := {| Acr.year := 2024; Acr.month := 0; Acr.day := 5 |};
              Acr.w_end := Some {| Acr.year := 2024; Acr.month := 0; Acr.day := 6 |};
              Acr.w_p1 := "05/01/24"; Acr.w_p3 := "06/01/24" |} in
  Acr.computeRangeFromQuery Acr.utc Sample.withEndAndWindow "2024-01-05" = Onex.Returned w
  /\ Acr.w_p1 w = Acr.echoDDMMYY (JS.trim "2024-01-05")
  /\ Acr.w_p3 w
     = Acr.echoDDMMYY (JS.trim (JS.strOrEmpty (Acr.enddate Sample.withEndAndWindow))).
Proof.
  intros w. split; [by vm_compute|].
  destruct (computeRange_params_echo_dates Acr.utc Sample.withEndAndWindow "2024-01-05" w
              ltac:(by vm_compute)) as (H1 & H2 & _).
  split; [exact H1|]. apply H2. reflexivity.
Defined.

(** In a zone that skips 2011-12-30, this day is refused as a start
    date, and the day after 2011-12-29 is 2011-12-31. *)
Lemma parseYMD_skipped_day :
  Acr.parseYMD Sample.apia (Some "2011-12-30") = None
  /\ (exists t, Acr.parseYMD Sample.apia (Some "2011-12-29") = Some t)
  /\ ~ Acr.keepsDay Sample.apia
  /\ exists w,
       Acr.computeRangeFromQuery Sample.apia
         (Sample.search (Some "2011-12-29") None (Some "1") None) "2011-12-29"
       = Onex.Returned w
       /\ Acr.w_p1 w = "29/12/11" /\ Acr.w_p3 w = "31/12/11".
Proof.
  split; [by vm_compute|]. split; [eexists; by vm_compute|]. split.
  - intros H. specialize (H (Acr.daysFromCivil 2011 12 30 * Acr.msPerDay)).
    vm_compute in H. discriminate H.
  - eexists. split; [by vm_compute|]. by split.
Qed.

(** A window of a hundred million days ends past the last time value of
    a [Date]: the end is the invalid date, and it is sent to the archive
    as it prints. *)
Lemma computeRange_windowDays_invalid :
  Acr.computeRangeFromQuery Acr.utc
    (Sample.search (Some "2024-02-27") None (Some "100000000") None) "2024-02-27"
  = Onex.Returned
      {| Acr.w_start := {| Acr.year := 2024; Acr.month := 1; Acr.day := 27 |};
         Acr.w_end := None;
         Acr.w_p1 := "27/02/24"; Acr.w_p3 := "NaN/NaN/aN" |}.
Proof. by vm_compute. Qed.

(** ** More about the media cache *)

Lemma map_safe_id (t : string) :
  JS.all Acr.isSafeChar t = true ->
  JS.map (fun c => if Acr.isSafeChar c then c else "_"%char) t = t.
Proof.
  induction t as [|c t IH]; [done|]. cbn [JS.all JS.map].
  intros [Hc Ht]%andb_prop. by rewrite Hc, (IH Ht).
Qed.

Lemma take_all (n : nat) (t : string) : (String.length t <= n)%nat -> JS.take n t = t.
Proof.
  revert t. induction n as [|n IH]; intros [|c t] H; simpl in *; try done; [lia|].
  rewrite IH; [done|lia].
Qed.

(** X12. [safeName] leaves alone a name that is already safe, and so
    applying it twice is applying it once. *)
Theorem safeName_idempotent :
  forall (s : option string),
    Acr.safeName (Some (Acr.safeName s)) = Acr.safeName s
    /\ (forall t, s = Some t -> JS.all Acr.isSafeChar t = true ->
                  (String.length t <= 128)%nat -> Acr.safeName s = t).
Proof.
  assert (forall t, JS.all Acr.isSafeChar t = true -> (String.length t <= 128)%nat ->
                    Acr.safeName (Some t) = t) as H.
  { intros t Ht Hl. unfold Acr.safeName.
    by rewrite strOrEmpty_Some, (map_safe_id t Ht), (take_all _ _ Hl). }
  intros s. split.
  - apply H; [apply safeName_chars|apply safeName_length].
  - intros t -> Ht Hl. by apply H.
Qed.

Section MoreMediaCache.

Variables (cfg : Acr.Config) (env : Acr.Env).

Lemma localPathsFor_same_name (i1 i2 : option string) :
  Acr.safeName i1 = Acr.safeName i2 -> Acr.localPathsFor cfg i1 = Acr.localPathsFor cfg i2.
Proof. intros E. unfold Acr.localPathsFor. by rewrite E. Qed.

(** The files after a miss on a valid recording. *)
Lemma ensureLocalWav_miss_files (fs : Acr.Files) (inum : string) :
  Acr.validRecording env inum ->
  Acr.cachedNonEmpty fs (Acr.wav (Acr.localPathsFor cfg (Some inum))) = false ->
  let p := Acr.localPathsFor cfg (Some inum) in
  exists dl t out fs1,
    Acr.downloadAnswer env inum = Onex.Returned dl
    /\ Acr.ffmpegAnswer env (Acr.dl_body dl) = Onex.Returned t
    /\ Acr.tc_output t = Some out /\ out <> []
    /\ Acr.ensureLocalWav cfg env fs inum
       = ([Acr.EvDownload inum (Acr.raw p); Acr.EvTranscode (Acr.raw p) (Acr.wav p)],
          fs1, Onex.Returned (Acr.wav p))
    /\ fs1 !! Acr.raw p = (if Acr.rawRemovable env then None else Some (Acr.dl_body dl))
    /\ fs1 !! Acr.wav p = Some out
    /\ fs1 !! Acr.meta p
       = (if Acr.metaWritable env then Some (Acr.metaJson env inum) else fs !! Acr.meta p)
    /\ (forall path, path <> Acr.raw p -> path <> Acr.wav p -> path <> Acr.meta p ->
                     fs1 !! path = fs !! path).
Proof.
  intros (dl & t & out & Hd & Hlo & Hhi & Hse & Hf & Hx & Ho & Hne) Hmiss p.
  destruct (cache_paths_distinct cfg (Some inum)) as (Hwr & Hwm & Hrm).
  exists dl, t, out.
  unfold Acr.ensureLocalWav. subst p. cbv zeta in *.
  remember (Acr.localPathsFor cfg (Some inum)) as p eqn:Ep. rewrite Hmiss.
  unfold Acr.downloadRawFromAcr. rewrite Hd.
  assert ((Acr.dl_status dl <? 200) = false) as -> by (apply Z.ltb_ge; lia).
  assert ((400 <=? Acr.dl_status dl) = false) as -> by (apply Z.leb_gt; lia).
  rewrite Hse. simpl.
  unfold Acr.transcodeToWav. rewrite lookup_insert_eq. simpl.
  rewrite Hf, Ho, Hx. simpl.
  eexists. split; [done|]. split; [done|]. split; [done|]. split; [done|].
  split; [reflexivity|].
  destruct (Acr.rawRemovable env), (Acr.metaWritable env);
    (split; [first [apply lookup_delete_eq
                   | by rewrite ?(lookup_insert_ne _ (Acr.meta p)),
                          ?(lookup_insert_ne _ (Acr.wav p)), lookup_insert_eq by done]|]);
    rewrite ?lookup_delete_ne by done;
    (split; [by rewrite ?(lookup_insert_ne _ (Acr.meta p)), lookup_insert_eq by done|]);
    (split; [first [apply lookup_insert_eq | by rewrite !lookup_insert_ne by done]|]);
    intros path H1 H2 H3; rewrite ?lookup_delete_ne by done;
    by rewrite !lookup_insert_ne by done.
Qed.

End MoreMediaCache.

(** X13. A miss on a valid recording leaves the transcoded file and, when
    it can be written, the sidecar; the raw download is gone again when
    it can be removed, and stays as it was downloaded when it cannot; no
    other file of the cache is touched. *)
Theorem ensureLocalWav_miss_leaves_two_files :
  forall (cfg : Acr.Config) (env : Acr.Env) (fs : Acr.Files) (inum : string),
    Acr.validRecording env inum ->
    Acr.cachedNonEmpty fs (Acr.wav (Acr.localPathsFor cfg (Some inum))) = false ->
    let p := Acr.localPathsFor cfg (Some inum) in
    let fs1 := (Acr.ensureLocalWav cfg env fs inum).1.2 in
    (Acr.rawRemovable env = true -> fs1 !! Acr.raw p = None)
    /\ (Acr.rawRemovable env = false ->
        exists dl, Acr.downloadAnswer env inum = Onex.Returned dl
                   /\ fs1 !! Acr.raw p = Some (Acr.dl_body dl))
    /\ Acr.cachedNonEmpty fs1 (Acr.wav p) = true
    /\ fs1 !! Acr.meta p
       = (if Acr.metaWritable env then Some (Acr.metaJson env inum) else fs !! Acr.meta p)
    /\ (forall path, path <> Acr.raw p -> path <> Acr.wav p -> path <> Acr.meta p ->
                     fs1 !! path = fs !! path).
Proof.
  intros cfg env fs inum Hv Hmiss p fs1. subst p fs1.
  destruct (ensureLocalWav_miss_files cfg env fs inum Hv Hmiss)
    as (dl & t & out & fs1 & Hd & _ & _ & Hne & -> & Hr & Hw & Hm & Hframe).
  cbn [fst snd]. split; [by intros E; rewrite E in Hr|].
  split; [intros E; rewrite E in Hr; by exists dl|].
  repeat split; try done.
  unfold Acr.cachedNonEmpty. rewrite Hw. unfold Acr.fileSize.
  destruct out; [done|]. simpl. apply Z.ltb_lt. lia.
Qed.

Lemma sample_validRecording_any (results : list Acr.Result) (inum : string) :
  Acr.validRecording (Sample.archive results) inum.
Proof.
  eexists _, _, _. cbn. repeat split; try reflexivity; try lia. done.
Qed.

Lemma ensureLocalWav_miss_leaves_two_files_witness :
  let p := Acr.localPathsFor Sample.acfg (Some "R1") in
  let fs1 := (Acr.ensureLocalWav Sample.acfg (Sample.archive []) Sample.files "R1").1.2 in
  fs1 !! "/var/media/R1.raw.bin" = None
  /\ Acr.cachedNonEmpty fs1 "/var/media/R1.wav" = true
  /\ fs1 !! "/var/media/clip.wav" = Some Sample.clip.
Proof.
  intros p fs1. subst p fs1.
  destruct (ensureLocalWav_miss_leaves_two_files Sample.acfg (Sample.archive [])
              Sample.files "R1" (sample_validRecording_any [] "R1") ltac:(reflexivity))
    as (Hr & _ & Hw & _ & Hframe).
  split; [exact (Hr eq_refl)|]. split; [exact Hw|].
  rewrite (Hframe "/var/media/clip.wav") by (vm_compute; discriminate). reflexivity.
Defined.

(** On a server that cannot remove the raw download, it stays next to the
    transcoded file. *)
Lemma ensureLocalWav_keeps_raw_sample :
  let fs1 := (Acr.ensureLocalWav Sample.acfg Sample.archiveKeepsRaw Sample.files "R1").1.2 in
  fs1 !! "/var/media/R1.raw.bin" = Some [Byte.x01; Byte.x02; Byte.x03]
  /\ Acr.cachedNonEmpty fs1 "/var/media/R1.wav" = true.
Proof. by vm_compute. Qed.

(** X14. Two identifiers with the same safe name share their cache files:
    once the first one is cached, the second one is answered with the
    file of the first, and the archive is not asked for it. *)
Theorem ensureLocalWav_shared_safe_name :
  forall (cfg : Acr.Config) (env : Acr.Env) (fs : Acr.Files) (i1 i2 : string),
    Acr.safeName (Some i1) = Acr.safeName (Some i2) ->
    Acr.validRecording env i1 ->
    let '(tr1, fs1, r1) := Acr.ensureLocalWav cfg env fs i1 in
    let '(tr2, fs2, r2) := Acr.ensureLocalWav cfg env fs1 i2 in
    r2 = r1 /\ tr2 = [] /\ fs2 = fs1.
Proof.
  intros cfg env fs i1 i2 Hn Hv.
  pose proof (localPathsFor_same_name cfg _ _ Hn) as Hp.
  destruct (Acr.cachedNonEmpty fs (Acr.wav (Acr.localPathsFor cfg (Some i1)))) eqn:Hc.
  - rewrite (ensureLocalWav_hit cfg env fs i1 Hc).
    rewrite Hp in Hc. rewrite (ensureLocalWav_hit cfg env fs i2 Hc). by rewrite Hp.
  - destruct (ensureLocalWav_miss cfg env fs i1 Hv Hc) as (fs1 & -> & Hc1).
    rewrite Hp in Hc1. rewrite (ensureLocalWav_hit cfg env fs1 i2 Hc1). by rewrite Hp.
Qed.

Lemma ensureLocalWav_shared_safe_name_witness :
  Acr.safeName (Some "a/b") = Acr.safeName (Some "a_b")
  /\ (let '(tr1, fs1, r1) :=
        Acr.ensureLocalWav Sample.acfg (Sample.archive []) Sample.files "a/b" in
      let '(tr2, fs2, r2) := Acr.ensureLocalWav Sample.acfg (Sample.archive []) fs1 "a_b" in
      r2 = r1 /\ tr2 = [] /\ fs2 = fs1).
Proof.
  split; [reflexivity|].
  apply (ensureLocalWav_shared_safe_name Sample.acfg (Sample.archive []) Sample.files
           "a/b" "a_b" ltac:(reflexivity) (sample_validRecording_any [] "a/b")).
Defined.

(** X15. On a miss, a download that the archive refuses with a status
    outside 200 to 399, or that fails before its answer, ends the call
    with an exception, after one request and without any change of the
    files; the transcoder is not started. *)
Theorem ensureLocalWav_refused_download :
  forall (cfg : Acr.Config) (env : Acr.Env) (fs : Acr.Files) (inum : string),
    Acr.cachedNonEmpty fs (Acr.wav (Acr.localPathsFor cfg (Some inum))) = false ->
    match Acr.downloadAnswer env inum with
    | Onex.Returned dl => Acr.dl_status dl < 200 \/ 400 <= Acr.dl_status dl
    | Onex.Thrown _ => True
    end ->
    let '(tr, fs1, r) := Acr.ensureLocalWav cfg env fs inum in
    tr = [Acr.EvDownload inum (Acr.raw (Acr.localPathsFor cfg (Some inum)))]
    /\ fs1 = fs
    /\ Acr.countEvents Acr.isTranscode tr = 0%nat
    /\ r = match Acr.downloadAnswer env inum with
           | Onex.Returned dl =>
               Onex.Thrown ("ACR GET failed (" +:+ JS.showZ (Acr.dl_status dl) +:+ ")")
           | Onex.Thrown m => Onex.Thrown m
           end.
Proof.
  intros cfg env fs inum Hmiss Hd. unfold Acr.ensureLocalWav. cbv zeta.
  rewrite Hmiss. unfold Acr.downloadRawFromAcr.
  destruct (Acr.downloadAnswer env inum) as [dl|m]; [|done].
  assert (((Acr.dl_status dl <? 200) || (400 <=? Acr.dl_status dl)) = true) as ->.
  { destruct (Z.ltb_spec (Acr.dl_status dl) 200), (Z.leb_spec 400 (Acr.dl_status dl));
      (done || lia). }
  done.
Qed.

Lemma ensureLocalWav_refused_download_witness :
  Acr.ensureLocalWav Sample.acfg Sample.archiveRefuses Sample.files "R1"
  = ([Acr.EvDownload "R1" "/var/media/R1.raw.bin"], Sample.files,
     Onex.Thrown "ACR GET failed (404)").
Proof.
  pose proof (ensureLocalWav_refused_download Sample.acfg Sample.archiveRefuses
                Sample.files "R1" ltac:(reflexivity) ltac:(simpl; lia)) as H.
  destruct (Acr.ensureLocalWav Sample.acfg Sample.archiveRefuses Sample.files "R1")
    as [[tr fs1] r].
  destruct H as (-> & -> & _ & ->). reflexivity.
Defined.

(** X16. On a miss, a transcoder that ends with an exit code other than 0
    ends the call with an exception; the raw download stays in the cache,
    and so does whatever the transcoder wrote; when this output is not
    empty, the next call for the recording finds it and answers with it,
    without asking the archive. *)
Theorem ensureLocalWav_failed_transcode :
  forall (cfg : Acr.Config) (env : Acr.Env) (fs : Acr.Files) (inum : string)
         (dl : Acr.Download) (t : Acr.Transcode),
    Acr.cachedNonEmpty fs (Acr.wav (Acr.localPathsFor cfg (Some inum))) = false ->
    Acr.downloadAnswer env inum = Onex.Returned dl ->
    200 <= Acr.dl_status dl < 400 ->
    Acr.dl_streamError dl = None ->
    Acr.ffmpegAnswer env (Acr.dl_body dl) = Onex.Returned t ->
    Acr.tc_exit t <> 0 ->
    let p := Acr.localPathsFor cfg (Some inum) in
    let '(tr, fs1, r) := Acr.ensureLocalWav cfg env fs inum in
    tr = [Acr.EvDownload inum (Acr.raw p); Acr.EvTranscode (Acr.raw p) (Acr.wav p)]
    /\ r = Onex.Thrown ("ffmpeg exited " +:+ JS.showZ (Acr.tc_exit t))
    /\ fs1 !! Acr.raw p = Some (Acr.dl_body dl)
    /\ fs1 !! Acr.meta p = fs !! Acr.meta p
    /\ (forall out, Acr.tc_output t = Some out -> out <> [] ->
          fs1 !! Acr.wav p = Some out
          /\ Acr.ensureLocalWav cfg env fs1 inum = ([], fs1, Onex.Returned (Acr.wav p))).
Proof.
  intros cfg env fs inum dl t Hmiss Hd Hst Hse Hf Hx p.
  destruct (cache_paths_distinct cfg (Some inum)) as (Hwr & Hwm & Hrm).
  unfold Acr.ensureLocalWav at 1. subst p. cbv zeta in *.
  remember (Acr.localPathsFor cfg (Some inum)) as p eqn:Ep. rewrite Hmiss.
  unfold Acr.downloadRawFromAcr. rewrite Hd.
  assert ((Acr.dl_status dl <? 200) = false) as -> by (apply Z.ltb_ge; lia).
  assert ((400 <=? Acr.dl_status dl) = false) as -> by (apply Z.leb_gt; lia).
  rewrite Hse. simpl.
  unfold Acr.transcodeToWav. rewrite lookup_insert_eq. simpl.
  rewrite Hf. assert ((Acr.tc_exit t =? 0) = false) as -> by (by apply Z.eqb_neq).
  split; [done|]. split; [done|].
  destruct (Acr.tc_output t) as [out|] eqn:Ho.
  - split; [rewrite lookup_insert_ne by done; apply lookup_insert_eq|].
    split; [by rewrite !lookup_insert_ne by done|].
    intros ? [= <-] Hne. split; [apply lookup_insert_eq|].
    rewrite Ep. apply ensureLocalWav_hit. rewrite <- Ep.
    unfold Acr.cachedNonEmpty. rewrite lookup_insert_eq. unfold Acr.fileSize.
    destruct out; [done|]. simpl. apply Z.ltb_lt. lia.
  - split; [apply lookup_insert_eq|].
    split; [by rewrite lookup_insert_ne by done|]. done.
Qed.

Lemma ensureLocalWav_failed_transcode_witness :
  let '(tr, fs1, r) :=
    Acr.ensureLocalWav Sample.acfg Sample.archiveBadTranscoder Sample.files "R1" in
  r = Onex.Thrown "ffmpeg exited 1"
  /\ fs1 !! "/var/media/R1.raw.bin" = Some [Byte.x01; Byte.x02; Byte.x03]
  /\ Acr.ensureLocalWav Sample.acfg Sample.archiveBadTranscoder fs1 "R1"
     = ([], fs1, Onex.Returned "/var/media/R1.wav").
Proof.
  pose proof (ensureLocalWav_failed_transcode Sample.acfg Sample.archiveBadTranscoder
                Sample.files "R1" _ _ ltac:(reflexivity) ltac:(reflexivity)
                ltac:(simpl; lia) ltac:(reflexivity) ltac:(reflexivity)
                ltac:(discriminate)) as H.
  cbv zeta in H.
  destruct (Acr.ensureLocalWav Sample.acfg Sample.archiveBadTranscoder Sample.files "R1")
    as [[tr fs1] r].
  destruct H as (_ & -> & Hr & _ & Hout).
  destruct (Hout [Byte.x52] ltac:(reflexivity) ltac:(discriminate)) as [_ Hhit].
  split; [reflexivity|]. split; [exact Hr|]. exact Hhit.
Defined.

(** ** The fields of a search result *)




(** ** The proxy *)


Lemma truthy_nonempty (s : string) : s <> "" -> JS.truthy (Some s) = true.
Proof. intros H. unfold JS.truthy. by destruct (String.eqb_spec s ""). Qed.

Lemma replayHandler_run (cfg : Acr.Config) (env : Acr.Env) (q : Acr.Query) (inum : string) :
  inum <> "" ->
  let url := (Acr.buildReplayUrls cfg env inum).1 in
  let rng := if JS.truthy (Acr.range q) then Acr.range q else None in
  exists row,
    (Acr.replayHandler cfg env q inum).1 = [Acr.EvInsertRow row; Acr.EvReplay url rng]
    /\ Acr.p_inum row = inum
    /\ Acr.p_ucid row = JS.or (Acr.ucid q) None
    /\ (Acr.replayHandler cfg env q inum).2
       = match Acr.replayAnswer env url rng with
         | Onex.Thrown m => Acr.reply 502 (Acr.BText ("ACR replay error: " +:+ m))
         | Onex.Returned (st, hs) =>
             {| Acr.status := st;
                Acr.headers :=
                  List.filter (fun h => negb (Acr.isHopByHop h)) hs
                  ++ [("Access-Control-Allow-Origin", "*")];
                Acr.body := if Acr.isHead q then Acr.BEnd else Acr.BProxied inum |}
         end.
Proof.
  intros Hne url rng. unfold Acr.replayHandler.
  rewrite (truthy_nonempty _ Hne). cbn [negb]. unfold Acr.buildReplayUrls in *.
  cbv zeta. cbn [fst snd]. eexists. split; [reflexivity|]. split; [done|]. split; [done|].
  subst url rng. cbn [fst]. by destruct (Acr.replayAnswer env _ _) as [[st hs]|m].
Qed.



(** ** The routes by ucid *)

Section ByUcid.

Variables (cfg : Acr.Config) (env : Acr.Env) (q : Acr.Query).
Variables (w : Acr.Window) (first : Acr.Result) (rest : list Acr.Result).
Hypothesis Hsearch : Acr.UcidSearch env q w (first :: rest).

Let ucid := JS.trim (JS.strOrEmpty (Acr.ucid q)).
Let inum := JS.strOrEmpty (Acr.r_inum first).
Let params := Acr.ucidSearchParams w ucid.

Lemma mapResultFields_inum :
  Acr.hasInum first = true ->
  Acr.mapResultFields first
  = (Some inum, Acr.fieldsObj (Acr.r_fields first),
     Acr.fieldOr (Acr.fieldsObj (Acr.r_fields first)) "switchcallid").
Proof.
  unfold Acr.mapResultFields, Acr.hasInum, inum. intros H.
  destruct (Acr.r_inum first) as [i|]; [|done].
  rewrite strOrEmpty_Some. unfold JS.or. by rewrite H.
Qed.

Lemma mapResultFields_no_inum :
  Acr.hasInum first = false -> JS.truthy (Acr.mapResultFields first).1.1 = false.
Proof.
  unfold Acr.mapResultFields, Acr.hasInum, JS.or. intros H. by rewrite H.
Qed.

Lemma hasInum_nonempty : Acr.hasInum first = true -> inum <> "".
Proof.
  unfold Acr.hasInum, inum. intros H.
  destruct (Acr.r_inum first) as [i|]; [|done]. rewrite strOrEmpty_Some.
  unfold JS.truthy in H. by destruct (String.eqb_spec i "").
Qed.

(** The run of [/find] that the archive answers with at least one
    result. *)
Lemma find_answered :
  Acr.find cfg env q
  = if Acr.hasInum first then
      let '(rawUrl, proxied) := Acr.buildReplayUrls cfg env inum in
      let payload :=
        Acr.payloadOf None None inum (Acr.fieldsObj (Acr.r_fields first)) proxied
          (Some rawUrl) in
      ([Acr.EvSearch params; Acr.EvInsertRow payload],
       Acr.reply 200
         (Acr.BItem (length (first :: rest)) payload
            {| Acr.jw_start := Acr.w_start w; Acr.jw_end := Acr.w_end w;
               Acr.jw_p2 := None; Acr.jw_p4 := None |}))
    else ([Acr.EvSearch params], Acr.reply 502 (Acr.BError "ACR returned no INUM")).
Proof.
  destruct Hsearch as [Hu Hs Hw Ha]. unfold Acr.find.
  rewrite missingOf_none_acr by (repeat constructor; done).
  cbn [length Nat.eqb negb]. rewrite Hw. cbv zeta. rewrite Ha.
  destruct (Acr.hasInum first) eqn:Hi.
  - rewrite (mapResultFields_inum Hi).
    rewrite (truthy_nonempty _ (hasInum_nonempty Hi)), strOrEmpty_Some. done.
  - pose proof (mapResultFields_no_inum Hi) as Hn.
    destruct (Acr.mapResultFields first) as [[i fields] sw]. cbn [fst] in Hn.
    by rewrite Hn.
Qed.

(** The run of [/replayByUcid] that the archive answers with a first
    result that has its identifier. *)
Lemma replayByUcid_answered (fs : Acr.Files) :
  Acr.hasInum first = true ->
  Acr.replayByUcid cfg env fs q
  = let '(rawUrl, proxied) := Acr.buildReplayUrls cfg env inum in
    let row :=
      Acr.payloadOf (Some ucid) None inum (Acr.fieldsObj (Acr.r_fields first))
        proxied None in
    let tr0 := [Acr.EvSearch params; Acr.EvInsertRow row] in
    if Acr.wantsRedirect q then (tr0, fs, Acr.reply 302 (Acr.BRedirect rawUrl))
    else
      let fallback (tr : list Acr.Event) (fs' : Acr.Files)
          (set : list (string * string)) :=
        let '(trR, resp) := Acr.replayHandler cfg env q inum in
        (tr ++ trR, fs', Acr.afterHeaders set resp) in
      if Acr.prefersLocal cfg q then
        let '(trW, fs', wavPath) := Acr.ensureLocalWav cfg env fs inum in
        match wavPath with
        | Onex.Thrown _ => fallback (tr0 ++ trW) fs' []
        | Onex.Returned p =>
            match Acr.streamFile fs' p (Acr.range q) "audio/wav" with
            | Acr.Piped resp => (tr0 ++ trW, fs', resp)
            | Acr.Threw _ set => fallback (tr0 ++ trW) fs' set
            end
        end
      else fallback tr0 fs [].
Proof.
  intros Hi. destruct Hsearch as [Hu Hs Hw Ha]. unfold Acr.replayByUcid.
  rewrite missingOf_none_acr by (repeat constructor; done).
  cbn [length Nat.eqb negb]. rewrite Hw. cbv zeta. rewrite Ha.
  rewrite (mapResultFields_inum Hi).
  rewrite (truthy_nonempty _ (hasInum_nonempty Hi)), strOrEmpty_Some. done.
Qed.

Lemma ensureLocalWav_no_rows (fs : Acr.Files) (i : string) :
  Acr.rowsOf (Acr.ensureLocalWav cfg env fs i).1.1 = []
  /\ Acr.countEvents Acr.isReplay (Acr.ensureLocalWav cfg env fs i).1.1 = 0%nat.
Proof.
  unfold Acr.ensureLocalWav. cbv zeta.
  destruct (Acr.cachedNonEmpty fs _); [done|].
  unfold Acr.downloadRawFromAcr.
  destruct (Acr.downloadAnswer env i) as [dl|m]; [|done].
  destruct ((Acr.dl_status dl <? 200) || (400 <=? Acr.dl_status dl)); [done|].
  destruct (Acr.dl_streamError dl); [done|].
  unfold Acr.transcodeToWav.
  destruct (Acr.ffmpegAnswer env _) as [t|m]; [|done].
  by destruct (Acr.tc_exit t =? 0).
Qed.

Lemma rowsOf_app (a b : list Acr.Event) : Acr.rowsOf (a ++ b) = Acr.rowsOf a ++ Acr.rowsOf b.
Proof. apply omap_app. Qed.

Lemma countReplay_app (a b : list Acr.Event) :
  Acr.countEvents Acr.isReplay (a ++ b)
  = (Acr.countEvents Acr.isReplay a + Acr.countEvents Acr.isReplay b)%nat.
Proof. unfold Acr.countEvents. by rewrite List.filter_app, length_app. Qed.

Lemma afterHeaders_nil (resp : Acr.Response) : Acr.afterHeaders [] resp = resp.
Proof. by destruct resp. Qed.

(** A file of the cache is streamed when the range, if there is one, can
    be served. *)
Lemma streamFile_cached (fs : Acr.Files) (p : string) (range : option string) :
  Acr.cachedNonEmpty fs p = true ->
  Acr.servableRange range ->
  exists resp,
    Acr.streamFile fs p range "audio/wav" = Acr.Piped resp
    /\ (Acr.status resp = 200 \/ Acr.status resp = 206)
    /\ exists part, Acr.body resp = Acr.BFile p part.
Proof.
  unfold Acr.cachedNonEmpty, Acr.streamFile.
  destruct (fs !! p) as [content|]; [|done]. intros _ Hr.
  destruct (JS.truthy range) eqn:Ht;
    [|by eexists; split; [reflexivity|split; [left|eexists]]].
  destruct Hr as [Hr|Hr]; [congruence|].
  destruct (Acr.execRange (JS.strOrEmpty range)) as [[m1 m2]|] eqn:E;
    [|by eexists; split; [reflexivity|split; [left|eexists]]].
  destruct Hr as (Hne2 & Hle & Hmax).
  destruct (execRange_digits _ _ _ E) as (Hne1 & Hd1 & Hd2).
  rewrite (parseInt_digits m1 Hd1 Hne1).
  assert (JS.truthy (Some m2) = true) as ->
    by (unfold JS.truthy; by destruct (String.eqb_spec m2 "")).
  rewrite (parseInt_digits m2 Hd2 Hne2). cbn [JS.toNum].
  pose proof (digitsValue_nonneg m1 0 Hd1 ltac:(lia)) as H1.
  pose proof (digitsValue_nonneg m2 0 Hd2 ltac:(lia)) as H2.
  pose proof MAX_SAFE_INTEGER_pos as Hpos.
  rewrite (number_safe (JS.digitsValue 0 m1)) by lia.
  rewrite (number_safe (JS.digitsValue 0 m2)) by lia.
  assert (Acr.readStreamRefuses (JS.Fin (JS.digitsValue 0 m1))
            (JS.Fin (JS.digitsValue 0 m2)) = false) as ->.
  { unfold Acr.readStreamRefuses, Acr.validBound, JS.gt.
    assert ((0 <=? JS.digitsValue 0 m1) = true) as -> by (apply Z.leb_le; lia).
    assert ((JS.digitsValue 0 m1 <=? JS.MAX_SAFE_INTEGER) = true) as ->
      by (apply Z.leb_le; lia).
    assert ((0 <=? JS.digitsValue 0 m2) = true) as -> by (apply Z.leb_le; lia).
    assert ((JS.digitsValue 0 m2 <=? JS.MAX_SAFE_INTEGER) = true) as ->
      by (apply Z.leb_le; lia).
    by assert ((JS.digitsValue 0 m2 <? JS.digitsValue 0 m1) = false) as ->
      by (apply Z.ltb_ge; lia). }
  eexists. split; [reflexivity|]. cbn [Acr.status Acr.body].
  split; [by right|by eexists].
Qed.


End ByUcid.

(** X19. For a search by ucid that the archive answers: [/find] reads
    the first result only; with an identifier in it, the answer is 200
    with the record of this result, [found] counts all the results, and
    this record is the one row that is written; without identifier in the
    first result the answer is 502 and nothing is written, whatever the
    other results are; and when the archive has no result the answer is
    200 with no item. *)
Theorem find_reads_first_result :
  forall (cfg : Acr.Config) (env : Acr.Env) (q : Acr.Query) (w : Acr.Window)
         (results : list Acr.Result),
    Acr.UcidSearch env q w results ->
    let run := Acr.find cfg env q in
    match results with
    | [] =>
        Acr.status run.2 = 200 /\ Acr.body run.2 = Acr.BNone None /\ Acr.rowsOf run.1 = []
    | first :: _ =>
        if Acr.hasInum first then
          Acr.status run.2 = 200
          /\ Acr.foundOf (Acr.body run.2) = Some (length results)
          /\ exists item,
               Acr.itemsOf (Acr.body run.2) = [item]
               /\ Acr.rowsOf run.1 = [item]
               /\ Acr.p_inum item = JS.strOrEmpty (Acr.r_inum first)
               /\ Acr.playback_url item
                  = "/api/acr/replay/"
                    +:+ Acr.encodeURIComponent env (JS.strOrEmpty (Acr.r_inum first))
        else
          Acr.status run.2 = 502
          /\ Acr.body run.2 = Acr.BError "ACR returned no INUM"
          /\ Acr.rowsOf run.1 = []
    end.
Proof.
  intros cfg env q w results Hs run. subst run.
  destruct results as [|first rest].
  - destruct Hs as [Hu Hst Hw Ha]. unfold Acr.find.
    rewrite missingOf_none_acr by (repeat constructor; done).
    cbn [length Nat.eqb negb]. rewrite Hw. cbv zeta. by rewrite Ha.
  - rewrite (find_answered cfg env q w first rest Hs).
    destruct (Acr.hasInum first); [|done].
    unfold Acr.buildReplayUrls. cbv zeta. cbn [fst snd Acr.reply Acr.status Acr.body].
    split; [done|]. split; [done|]. eexists. by repeat split.
Qed.

Lemma sample_ucidSearch (results : list Acr.Result) (redirect local : option string) :
  Acr.UcidSearch (Sample.archive results) (Sample.byUcid redirect local)
    {| Acr.w_start := {| Acr.year := 2024; Acr.month := 1; Acr.day := 29 |};
       Acr.w_end := Some {| Acr.year := 2024; Acr.month := 1; Acr.day := 29 |};
       Acr.w_p1 := "29/02/24"; Acr.w_p3 := "29/02/24" |}
    results.
Proof. constructor; reflexivity. Qed.

Lemma find_reads_first_result_witness :
  let run :=
    Acr.find Sample.acfg
      (Sample.archive [Sample.record (Some "R2") "2000"; Sample.record None "5000"])
      (Sample.byUcid None None) in
  Acr.status run.2 = 200
  /\ Acr.foundOf (Acr.body run.2) = Some 2%nat
  /\ List.map Acr.p_inum (Acr.rowsOf run.1) = ["R2"].
Proof.
  pose proof (find_reads_first_result Sample.acfg _ _ _ _
                (sample_ucidSearch [Sample.record (Some "R2") "2000";
                                    Sample.record None "5000"] None None)) as H.
  cbv zeta in H. cbn [Acr.hasInum Sample.record Acr.r_inum JS.truthy] in H.
  destruct H as (Hst & Hf & item & _ & Hrows & Hi & _).
  cbv zeta. split; [exact Hst|]. split; [exact Hf|].
  rewrite Hrows. cbn [List.map]. by rewrite Hi.
Defined.

(** X20. For a search by ucid that the archive answers with an identifier
    in its first result: when a redirect is asked for, [/replayByUcid]
    answers 302 with the replay address of the archive for this
    identifier, whatever [local] says; when not, and the cache is
    preferred, the recording is valid and the request has no range, or a
    range that names no bytes, or one that names a start and an end not
    before it, it answers 200 or 206 with the cached file of this
    identifier. In both cases one audit row is written and the proxy is
    not used. *)
Theorem replayByUcid_served_directly :
  forall (cfg : Acr.Config) (env : Acr.Env) (fs : Acr.Files) (q : Acr.Query)
         (w : Acr.Window) (first : Acr.Result) (rest : list Acr.Result),
    Acr.UcidSearch env q w (first :: rest) ->
    Acr.hasInum first = true ->
    let inum := JS.strOrEmpty (Acr.r_inum first) in
    Acr.wantsRedirect q = true
    \/ (Acr.prefersLocal cfg q = true /\ Acr.validRecording env inum
        /\ Acr.servableRange (Acr.range q)) ->
    let '(tr, fs', resp) := Acr.replayByUcid cfg env fs q in
    (if Acr.wantsRedirect q
     then resp = Acr.reply 302 (Acr.BRedirect (Acr.buildReplayUrls cfg env inum).1)
          /\ fs' = fs
     else (Acr.status resp = 200 \/ Acr.status resp = 206)
          /\ exists part,
               Acr.body resp
               = Acr.BFile (Acr.wav (Acr.localPathsFor cfg (Some inum))) part)
    /\ (exists row, Acr.rowsOf tr = [row] /\ Acr.p_inum row = inum)
    /\ Acr.countEvents Acr.isReplay tr = 0%nat.
Proof.
  intros cfg env fs q w first rest Hs Hi inum Hcase. subst inum.
  rewrite (replayByUcid_answered cfg env q w first rest Hs fs Hi).
  unfold Acr.buildReplayUrls. cbv zeta. cbn [fst].
  destruct (Acr.wantsRedirect q) eqn:Hr.
  - split; [done|]. split; [by eexists|done].
  - destruct Hcase as [|(Hl & Hv & Hrange)]; [done|]. rewrite Hl.
    set (inum := JS.strOrEmpty (Acr.r_inum first)) in *.
    pose proof (ensureLocalWav_no_rows cfg env fs inum) as [Hrows Hrep].
    assert (exists trW fs1,
               Acr.ensureLocalWav cfg env fs inum
               = (trW, fs1, Onex.Returned (Acr.wav (Acr.localPathsFor cfg (Some inum))))
               /\ Acr.cachedNonEmpty fs1 (Acr.wav (Acr.localPathsFor cfg (Some inum)))
                  = true)
      as (trW & fs1 & E & Hc).
    { destruct (Acr.cachedNonEmpty fs (Acr.wav (Acr.localPathsFor cfg (Some inum))))
        eqn:Hc.
      - exists [], fs. by rewrite (ensureLocalWav_hit cfg env fs inum Hc).
      - destruct (ensureLocalWav_miss cfg env fs inum Hv Hc) as (fs1 & E & Hc1).
        by eexists _, fs1. }
    rewrite E in Hrows, Hrep |- *. cbn [fst snd] in Hrows, Hrep.
    destruct (streamFile_cached fs1 _ (Acr.range q) Hc Hrange) as (resp & -> & Hst & Hb).
    split; [done|]. split.
    + eexists. split.
      * rewrite rowsOf_app, Hrows. reflexivity.
      * reflexivity.
    + by rewrite countReplay_app, Hrep.
Qed.

Lemma replayByUcid_served_directly_witness :
  let '(tr, fs', resp) :=
    Acr.replayByUcid Sample.acfg (Sample.archive [Sample.record (Some "R1") "1000"])
      Sample.files (Sample.byUcid (Some "1") (Some "true")) in
  resp = Acr.reply 302 (Acr.BRedirect "http://acr.local:8080/searchapi?command=replay&id=R1")
  /\ fs' = Sample.files
  /\ Acr.countEvents Acr.isReplay tr = 0%nat.
Proof.
  pose proof (replayByUcid_served_directly Sample.acfg _ Sample.files _ _ _ _
                (sample_ucidSearch [Sample.record (Some "R1") "1000"]
                   (Some "1") (Some "true"))
                ltac:(reflexivity) ltac:(left; reflexivity)) as H.
  cbv zeta in H.
  destruct (Acr.replayByUcid Sample.acfg (Sample.archive [Sample.record (Some "R1") "1000"])
              Sample.files (Sample.byUcid (Some "1") (Some "true"))) as [[tr fs'] resp].
  cbn [Acr.wantsRedirect Sample.byUcid Acr.redirect String.eqb Ascii.eqb Bool.eqb orb] in H.
  destruct H as ((Hresp & Hfs) & _ & Hrep).
  split; [exact Hresp|]. split; [exact Hfs|exact Hrep].
Defined.

(** X21. For a search by ucid that the archive answers with an identifier
    in its first result, and without redirect: when the cache is not
    preferred, or the cache cannot produce the file, [/replayByUcid]
    answers with the answer of the proxy for this identifier; the archive
    is asked once for the replay, and two audit rows are written for this
    one request, one by the route and one by the proxy. *)
Theorem replayByUcid_falls_back_to_proxy :
  forall (cfg : Acr.Config) (env : Acr.Env) (fs : Acr.Files) (q : Acr.Query)
         (w : Acr.Window) (first : Acr.Result) (rest : list Acr.Result),
    Acr.UcidSearch env q w (first :: rest) ->
    Acr.hasInum first = true ->
    Acr.wantsRedirect q = false ->
    let inum := JS.strOrEmpty (Acr.r_inum first) in
    Acr.prefersLocal cfg q = false
    \/ (exists m, (Acr.ensureLocalWav cfg env fs inum).2 = Onex.Thrown m) ->
    let '(tr, fs', resp) := Acr.replayByUcid cfg env fs q in
    resp = (Acr.replayHandler cfg env q inum).2
    /\ (exists row1 row2, Acr.rowsOf tr = [row1; row2]
                          /\ Acr.p_inum row1 = inum /\ Acr.p_inum row2 = inum)
    /\ Acr.countEvents Acr.isReplay tr = 1%nat.
Proof.
  intros cfg env fs q w first rest Hs Hi Hr inum Hcase. subst inum.
  rewrite (replayByUcid_answered cfg env q w first rest Hs fs Hi).
  unfold Acr.buildReplayUrls at 1. cbv zeta. rewrite Hr.
  set (inum := JS.strOrEmpty (Acr.r_inum first)) in *.
  destruct (replayHandler_run cfg env q inum (hasInum_nonempty first Hi))
    as (row2 & Htr & Hi2 & _ & _).
  destruct (Acr.replayHandler cfg env q inum) as [trR respR]. cbn [fst snd] in *.
  subst trR.
  pose proof (ensureLocalWav_no_rows cfg env fs inum) as [Hrows Hrep].
  assert (forall trW,
             Acr.rowsOf trW = [] -> Acr.countEvents Acr.isReplay trW = 0%nat ->
             forall row1 p u r,
               Acr.p_inum row1 = inum ->
               (exists r1 r2,
                   Acr.rowsOf (([Acr.EvSearch p; Acr.EvInsertRow row1] ++ trW)
                               ++ [Acr.EvInsertRow row2; Acr.EvReplay u r])
                   = [r1; r2] /\ Acr.p_inum r1 = inum /\ Acr.p_inum r2 = inum)
               /\ Acr.countEvents Acr.isReplay
                    (([Acr.EvSearch p; Acr.EvInsertRow row1] ++ trW)
                     ++ [Acr.EvInsertRow row2; Acr.EvReplay u r]) = 1%nat) as Hgen.
  { intros trW H1 H2 row1 p u r Hrow1. rewrite !rowsOf_app, !countReplay_app, H1, H2.
    split; [|done]. by exists row1, row2. }
  destruct (Acr.prefersLocal cfg q) eqn:Hl.
  - destruct Hcase as [|[m Hm]]; [done|].
    destruct (Acr.ensureLocalWav cfg env fs inum) as [[trW fs1] r].
    cbn [fst snd] in *. subst r. split; [apply afterHeaders_nil|]. by apply Hgen.
  - split; [apply afterHeaders_nil|].
    apply (Hgen [] eq_refl eq_refl). done.
Qed.

Lemma replayByUcid_falls_back_to_proxy_witness :
  let '(tr, fs', resp) :=
    Acr.replayByUcid Sample.acfg Sample.archiveRefuses Sample.files
      (Sample.byUcid None None) in
  Acr.status resp = 404
  /\ List.map Acr.p_inum (Acr.rowsOf tr) = ["R1"; "R1"]
  /\ Acr.countEvents Acr.isReplay tr = 1%nat.
Proof.
  assert (Acr.UcidSearch Sample.archiveRefuses (Sample.byUcid None None)
            {| Acr.w_start := {| Acr.year := 2024; Acr.month := 1; Acr.day := 29 |};
               Acr.w_end := Some {| Acr.year := 2024; Acr.month := 1; Acr.day := 29 |};
               Acr.w_p1 := "29/02/24"; Acr.w_p3 := "29/02/24" |}
            [Sample.record (Some "R1") "1000"]) as Hs by (constructor; reflexivity).
  pose proof (replayByUcid_falls_back_to_proxy Sample.acfg Sample.archiveRefuses
                Sample.files _ _ _ _ Hs ltac:(reflexivity) ltac:(reflexivity)
                ltac:(right; eexists; reflexivity)) as H.
  cbv zeta in H.
  destruct (Acr.replayByUcid Sample.acfg Sample.archiveRefuses Sample.files
              (Sample.byUcid None None)) as [[tr fs'] resp].
  destruct H as (-> & (row1 & row2 & -> & H1 & H2) & Hrep).
  split; [reflexivity|]. split; [|exact Hrep].
  cbn [List.map]. by rewrite H1, H2.
Defined.



(** X22. For every search by number that the archive answers, the rows
    that the run writes to the audit table are the records that it
    returns, in the same order; when it returns no record, it writes no
    row. *)
Theorem searchByNumber_audits_what_it_returns :
  forall (cfg : Acr.Config) (env : Acr.Env) (q : Acr.Query)
         (w : Acr.Window) (results : list Acr.Result),
    Acr.NumberSearch env q w results ->
    let run := Acr.searchByNumber cfg env q in
    Acr.rowsOf run.1 = Acr.itemsOf (Acr.body run.2).
Proof.
  intros cfg env q w results Hs run. subst run.
  destruct results as [|r results].
  - destruct Hs as [Hn Hst Hw Ha]. unfold Acr.searchByNumber.
    rewrite missingOf_none_acr by (repeat constructor; done).
    cbn [length Nat.eqb negb]. rewrite Hw. cbv zeta. by rewrite Ha.
  - rewrite (searchByNumber_answered cfg env q w _ Hs) by done. cbv zeta.
    destruct (Acr.limitOf q =? 0).
    + destruct (Acr.sortItems env _) as [|first rest]; [|done].
      unfold Acr.catchJson. by destruct (Acr.isInputErr _).
    + cbn [fst snd Acr.body Acr.reply Acr.itemsOf].
      change (Acr.rowsOf (Acr.EvSearch ?p :: ?l)) with (Acr.rowsOf l).
      apply rowsOf_flat_map.
Qed.

Lemma searchByNumber_audits_what_it_returns_witness :
  let run :=
    Acr.searchByNumber Sample.acfg (Sample.archive Sample.mixedResults)
      (Sample.byNumber (Some "2")) in
  Acr.rowsOf run.1 = Acr.itemsOf (Acr.body run.2)
  /\ List.map Acr.p_inum (Acr.rowsOf run.1) = ["R3"; "R2"].
Proof.
  split; [|reflexivity].
  apply (searchByNumber_audits_what_it_returns Sample.acfg
           (Sample.archive Sample.mixedResults) (Sample.byNumber (Some "2")) _
           Sample.mixedResults (sample_numberSearch Sample.mixedResults (Some "2"))).
Defined.

(** ** The sweep of the media root *)

Lemma endsWith_app (a suffix : string) : Acr.endsWith (a +:+ suffix) suffix = true.
Proof.
  induction a as [|c a IH].
  - change ("" +:+ suffix) with suffix.
    destruct suffix; cbn [Acr.endsWith]; first [by rewrite String.eqb_refl | done].
  - rewrite sapp_cons. cbn [Acr.endsWith]. rewrite IH. apply orb_true_r.
Qed.

Lemma toLowerCase_app (a b : string) :
  JS.toLowerCase (a +:+ b) = JS.toLowerCase a +:+ JS.toLowerCase b.
Proof.
  unfold JS.toLowerCase. induction a as [|c a IH]; [done|].
  rewrite sapp_cons. cbn [JS.map]. by rewrite IH.
Qed.

(** X23. The three files that the cache keeps for a recording have names
    that the sweep of the media root looks at, and the paths at which it
    looks for them are the paths of the cache. *)
Theorem cache_files_are_artifacts :
  forall (cfg : Acr.Config) (inum : option string),
    let p := Acr.localPathsFor cfg inum in
    Forall (fun '(path, name) =>
              path = Acr.pathJoin (Acr.MEDIA_ROOT cfg) name
              /\ Acr.isArtifactName name = true)
      [(Acr.raw p, Acr.safeName inum +:+ ".raw.bin");
       (Acr.wav p, Acr.safeName inum +:+ ".wav");
       (Acr.meta p, Acr.safeName inum +:+ ".json")].
Proof.
  intros cfg inum p. subst p.
  repeat constructor; unfold Acr.isArtifactName; cbv zeta; rewrite toLowerCase_app.
  - change (JS.toLowerCase ".raw.bin") with ".raw.bin".
    rewrite endsWith_app. by rewrite !orb_true_r.
  - change (JS.toLowerCase ".wav") with ".wav". by rewrite endsWith_app.
  - change (JS.toLowerCase ".json") with ".json".
    rewrite endsWith_app. by rewrite orb_true_r.
Qed.

Section Sweep.

Variables (cfg : Acr.Config) (se : Acr.SweepEnv).

(** The file at [path] is old and can be removed. *)
Let evictable (files : Acr.Mtimes) (path : string) : bool :=
  match files !! path with
  | Some mtimeMs => Acr.isOld se mtimeMs
  | None => false
  end
  && negb (Acr.unlinkFails se path).

Lemma swept_cons (name : string) (names : list string) (files : Acr.Mtimes)
    (path : string) :
  Acr.swept cfg se (name :: names) files path
  = (Acr.isArtifactName name
     && String.eqb (Acr.pathJoin (Acr.MEDIA_ROOT cfg) name) path
     && evictable files path)
    || Acr.swept cfg se names files path.
Proof.
  unfold Acr.swept, Acr.listedArtifact, evictable. cbn [existsb].
  destruct (Acr.isArtifactName name && _), (existsb _ names),
    (match files !! path with Some _ => _ | None => _ end),
    (negb (Acr.unlinkFails se path)); reflexivity.
Qed.

Lemma swept_same (names : list string) (files files' : Acr.Mtimes) (path : string) :
  files' !! path = files !! path ->
  Acr.swept cfg se names files' path = Acr.swept cfg se names files path.
Proof. intros E. unfold Acr.swept. by rewrite E. Qed.

Lemma swept_absent (names : list string) (files : Acr.Mtimes) (path : string) :
  files !! path = None -> Acr.swept cfg se names files path = false.
Proof. intros E. unfold Acr.swept. rewrite E. by rewrite andb_false_r. Qed.

Lemma size_delete_Some (files : Acr.Mtimes) (path : string) (m : Z) :
  files !! path = Some m -> size files = S (size (delete path files)).
Proof.
  intros H. rewrite <- (insert_delete_id files path m H) at 1.
  rewrite map_size_insert_None; [done|]. apply lookup_delete_eq.
Qed.

(** One name of the listing: the file that it names goes when it is an
    old artifact that can be removed, and then the count goes up by one;
    otherwise nothing changes. *)
Lemma sweepStep_spec (st : Acr.Mtimes * Z) (name : string) :
  let st' := Acr.sweepStep cfg se st name in
  (forall path,
      st'.1 !! path
      = if Acr.isArtifactName name
           && String.eqb (Acr.pathJoin (Acr.MEDIA_ROOT cfg) name) path
           && evictable st.1 path
        then None else st.1 !! path)
  /\ st'.2 - st.2 = Z.of_nat (size st.1) - Z.of_nat (size st'.1).
Proof.
  unfold Acr.sweepStep, evictable. cbv zeta.
  destruct (Acr.isArtifactName name); cbn [negb andb];
    [|split; [done|lia]].
  set (p := Acr.pathJoin (Acr.MEDIA_ROOT cfg) name).
  destruct (st.1 !! p) as [m|] eqn:Hp.
  - destruct (Acr.isOld se m) eqn:Ho.
    + destruct (Acr.unlinkFails se p) eqn:Hu.
      * split; [|lia]. intros path.
        destruct (String.eqb_spec p path) as [<-|]; [|done].
        by rewrite Hp, Ho, Hu.
      * cbn [fst snd]. split.
        -- intros path. destruct (String.eqb_spec p path) as [<-|Hne].
           ++ by rewrite Hp, Ho, Hu, lookup_delete_eq.
           ++ by rewrite lookup_delete_ne.
        -- rewrite (size_delete_Some _ _ _ Hp). lia.
    + split; [|lia]. intros path.
      destruct (String.eqb_spec p path) as [<-|]; [|done]. by rewrite Hp, Ho.
  - split; [|lia]. intros path.
    destruct (String.eqb_spec p path) as [<-|]; [|done]. by rewrite Hp.
Qed.

Lemma sweep_fold (names : list string) (st : Acr.Mtimes * Z) :
  let st' := List.fold_left (Acr.sweepStep cfg se) names st in
  (forall path,
      st'.1 !! path
      = if Acr.swept cfg se names st.1 path then None else st.1 !! path)
  /\ st'.2 - st.2 = Z.of_nat (size st.1) - Z.of_nat (size st'.1).
Proof.
  revert st. induction names as [|name names IH]; intros st; cbv zeta.
  - cbn [List.fold_left]. split; [|lia]. intros path.
    unfold Acr.swept, Acr.listedArtifact. done.
  - cbn [List.fold_left].
    destruct (sweepStep_spec st name) as [Hstep Hcount].
    destruct (IH (Acr.sweepStep cfg se st name)) as [Hrest Hcount'].
    split; [|lia]. intros path. rewrite Hrest, swept_cons.
    specialize (Hstep path).
    destruct (Acr.isArtifactName name
              && String.eqb (Acr.pathJoin (Acr.MEDIA_ROOT cfg) name) path
              && evictable st.1 path) eqn:Hhere.
    + cbn [orb]. rewrite (swept_absent _ _ _ Hstep). exact Hstep.
    + cbn [orb]. rewrite (swept_same _ _ _ _ Hstep).
      by destruct (Acr.swept cfg se names st.1 path).
Qed.

End Sweep.

(** X24. [cleanupOldMedia] removes the files of the listing that have an
    artifact name, that are older than the time to live and that can be
    removed, and no other file; the count that it logs is the number of
    files gone. A file that is not older than the cutoff stays, and so
    does every file when the time to live is not a number. *)
Theorem cleanupOldMedia_removes_old_artifacts_only :
  forall (cfg : Acr.Config) (se : Acr.SweepEnv) (files : Acr.Mtimes)
         (names : list string),
    Acr.listing se = Onex.Returned names ->
    let '(files', removed) := Acr.cleanupOldMedia cfg se files in
    (forall path,
        files' !! path
        = if Acr.swept cfg se names files path then None else files !! path)
    /\ removed = Some (Z.of_nat (size files) - Z.of_nat (size files'))
    /\ (forall path mtimeMs,
           files !! path = Some mtimeMs -> Acr.isOld se mtimeMs = false ->
           files' !! path = Some mtimeMs)
    /\ (forall path,
           Acr.listedArtifact cfg names path = false -> files' !! path = files !! path)
    /\ (Acr.CACHE_TTL_HOURS se = None -> files' = files).
Proof.
  intros cfg se files names Hl. unfold Acr.cleanupOldMedia. rewrite Hl.
  destruct (sweep_fold cfg se names (files, 0)) as [Hlook Hcount].
  cbn [fst snd] in Hlook, Hcount.
  split; [exact Hlook|]. split; [f_equal; lia|].
  split; [|split].
  - intros path m Hp Ho. rewrite Hlook. unfold Acr.swept. rewrite Hp, Ho.
    by rewrite andb_false_r.
  - intros path Hn. rewrite Hlook. unfold Acr.swept. by rewrite Hn.
  - intros Httl. apply map_eq. intros path. rewrite Hlook.
    unfold Acr.swept, Acr.isOld, Acr.cutoff. rewrite Httl. cbn [option_map].
    destruct (files !! path); by rewrite ?andb_false_r.
Qed.

Lemma cleanupOldMedia_removes_old_artifacts_only_witness :
  let '(files', removed) :=
    Acr.cleanupOldMedia Sample.acfg (Sample.sweepEnv (Some 72)) Sample.mtimes in
  files' !! "/var/media/old.wav" = None
  /\ files' !! "/var/media/fresh.WAV" = Some 999999000
  /\ files' !! "/var/media/old.txt" = Some 1000
  /\ removed = Some 1.
Proof.
  pose proof (cleanupOldMedia_removes_old_artifacts_only Sample.acfg
                (Sample.sweepEnv (Some 72)) Sample.mtimes _ ltac:(reflexivity)) as H.
  assert ((Acr.cleanupOldMedia Sample.acfg (Sample.sweepEnv (Some 72)) Sample.mtimes).2
          = Some 1) as E by (vm_compute; reflexivity).
  destruct (Acr.cleanupOldMedia Sample.acfg (Sample.sweepEnv (Some 72)) Sample.mtimes)
    as [files' removed].
  destruct H as (Hlook & Hrem & Hrecent & Hother & _).
  split; [by rewrite Hlook|].
  split; [by apply Hrecent|].
  split; [by apply Hother|].
  exact E.
Defined.

(** ** The ucid of a ticket *)




(** ** Failures of the side channel *)

Section SideChannel.

Variables (cfg : Onex.Config) (env : Onex.Env).

Let quiet := Onex.withoutSideFailures env.

Lemma pollLoop_quiet (baseUrl cid : string) (interval max : Z) (fuel : nat)
    (attempts : Z) (i u : option string) :
  Onex.pollLoop quiet baseUrl cid interval max fuel attempts i u
  = Onex.pollLoop env baseUrl cid interval max fuel attempts i u.
Proof.
  revert attempts i u. induction fuel as [|fuel IH]; intros attempts i u; [done|].
  cbn [Onex.pollLoop]. rewrite IH. done.
Qed.

Lemma getStationByIp_quiet (ip : string) :
  Onex.getStationByIp quiet ip = Onex.getStationByIp env ip.
Proof.
  unfold Onex.getStationByIp, quiet, Onex.withoutSideFailures. cbn [Onex.stationRow].
  by destruct (Onex.stationRow env ip).
Qed.

Lemma getUcidFromJava_quiet (station : string) :
  Onex.getUcidFromJava cfg quiet station = Onex.getUcidFromJava cfg env station.
Proof.
  unfold Onex.getUcidFromJava, quiet, Onex.withoutSideFailures. cbn [Onex.javaAnswer].
  destruct (negb _); [done|]. by destruct (Onex.javaAnswer env station).
Qed.

Lemma startcallTry_quiet (q : Onex.Query) (baseUrl : string) (station : option string)
    (interval max : Z) :
  Onex.startcallTry cfg quiet q baseUrl station interval max
  = Onex.startcallTry cfg env q baseUrl station interval max.
Proof.
  unfold Onex.startcallTry.
  change (Onex.ensureClient quiet) with (Onex.ensureClient env).
  change (Onex.clientNameOf quiet) with (Onex.clientNameOf env).
  destruct (Onex.ensureClient env _ _ _) as [tr1 [[cid created]|m]]; [|done].
  rewrite getUcidFromJava_quiet.
  change (Onex.makecallAnswer quiet) with (Onex.makecallAnswer env).
  by rewrite pollLoop_quiet.
Qed.

End SideChannel.

(** X26. A failure of the station lookup or of the Java monitor changes
    nothing in a run of [startcall] compared with an empty answer of the
    same service: the requests sent, the row written and the answer are
    those of the run in which the lookup finds no station and the monitor
    answers that it has no ucid. *)
Theorem startcall_side_channel_failures_swallowed :
  forall (cfg : Onex.Config) (env : Onex.Env) (q : Onex.Query),
    Onex.startcall cfg env q = Onex.startcall cfg (Onex.withoutSideFailures env) q.
Proof.
  intros cfg env q. unfold Onex.startcall.
  rewrite getStationByIp_quiet.
  destruct (negb _); [done|].
  destruct (Onex.UCID_POLL_INTERVAL_MS cfg) as [interval|]; [|done].
  destruct (Onex.UCID_POLL_MAX_ATTEMPTS cfg) as [max|]; [|done].
  change (Onex.buildBaseUrl cfg (Onex.withoutSideFailures env))
    with (Onex.buildBaseUrl cfg env).
  destruct (Onex.buildBaseUrl cfg env _) as [baseUrl|m]; [|done].
  destruct (Onex.getStationByIp env _) as [trS station].
  by rewrite startcallTry_quiet.
Qed.

(** ** The [local] flag *)

Lemma rev_app_app (a b : string) : String.rev_app a b = String.rev a +:+ b.
Proof.
  unfold String.rev. revert b. induction a as [|c a IH]; intros b; [done|].
  cbn [String.rev_app]. rewrite (IH (String c b)), (IH (String c "")).
  by rewrite sapp_assoc.
Qed.

Lemma rev_cons (c : ascii) (a : string) :
  String.rev (String c a) = String.rev a +:+ String c "".
Proof. unfold String.rev at 1. cbn [String.rev_app]. apply rev_app_app. Qed.

Lemma rev_sapp (a b : string) : String.rev (a +:+ b) = String.rev b +:+ String.rev a.
Proof.
  induction a as [|c a IH].
  - change ("" +:+ b) with b. by rewrite sapp_nil_r.
  - rewrite sapp_cons, !rev_cons, IH. by rewrite sapp_assoc.
Qed.

Lemma rev_rev (a : string) : String.rev (String.rev a) = a.
Proof.
  induction a as [|c a IH]; [done|]. rewrite rev_cons, rev_sapp, IH. done.
Qed.

Lemma prefix_iff (p s : string) : String.prefix p s = true <-> exists r, s = p +:+ r.
Proof.
  split.
  - intros H. eexists. by apply prefix_drop.
  - intros [r ->]. apply prefix_app.
Qed.

Lemma endsWith_iff (s suffix : string) :
  Acr.endsWith s suffix = true <-> exists pre, s = pre +:+ suffix.
Proof.
  split.
  - induction s as [|c s IH]; cbn [Acr.endsWith].
    + rewrite orb_false_r. intros H%String.eqb_eq. by exists "".
    + intros [H%String.eqb_eq|H]%orb_prop; [by exists ""|].
      destruct (IH H) as [pre ->]. by exists (String c pre).
  - intros [pre ->]. apply endsWith_app.
Qed.

Lemma prefix_rev (s suffix : string) :
  String.prefix (String.rev suffix) (String.rev s) = Acr.endsWith s suffix.
Proof.
  apply eq_true_iff_eq. rewrite prefix_iff, endsWith_iff. split.
  - intros [r H]. exists (String.rev r).
    by rewrite <- (rev_rev s), H, rev_sapp, rev_rev.
  - intros [pre ->]. exists (String.rev pre). apply rev_sapp.
Qed.

Lemma map_app_inv f (s a b : string) :
  JS.map f s = a +:+ b -> exists a' b', s = a' +:+ b' /\ JS.map f a' = a /\ JS.map f b' = b.
Proof.
  revert s. induction a as [|c a IH]; intros s H.
  - by exists "", s.
  - destruct s as [|d s]; [done|]. rewrite sapp_cons in H. cbn [JS.map] in H.
    injection H as Hc H. destruct (IH s H) as (a' & b' & -> & Ha & Hb).
    exists (String d a'), b'. cbn [JS.map]. by rewrite Hc, Ha.
Qed.

Lemma map_sapp f (a b : string) : JS.map f (a +:+ b) = JS.map f a +:+ JS.map f b.
Proof. induction a as [|c a IH]; [done|]. rewrite sapp_cons. cbn [JS.map]. by rewrite IH. Qed.

(** X27. The [local] parameter of [/replayByUcid] asks for the cache
    exactly when it starts with 1 or ends with true, case being ignored
    in the ending: the pattern is not anchored at both ends, so 10 and
    1false ask for the cache as well, while yes does not. *)
Theorem testLocalFlag_starts_with_1_or_ends_with_true :
  forall (s : string),
    (Acr.testLocalFlag s = true
     <-> (exists r, s = "1" +:+ r)
         \/ (exists pre t, s = pre +:+ t /\ JS.toLowerCase t = "true"))
    /\ Acr.testLocalFlag ("1" +:+ s) = true
    /\ Acr.testLocalFlag (s +:+ "TRUE") = true.
Proof.
  assert (forall s,
             Acr.testLocalFlag s = true
             <-> (exists r, s = "1" +:+ r)
                 \/ (exists pre t, s = pre +:+ t /\ JS.toLowerCase t = "true")) as H.
  { intros s. unfold Acr.testLocalFlag.
    change "eurt" with (String.rev "true").
    rewrite prefix_rev, orb_true_iff, prefix_iff, endsWith_iff.
    split; (intros [H|H]; [by left|right]).
    - destruct H as [pre H]. apply map_app_inv in H as (a & b & -> & _ & Hb).
      by exists a, b.
    - destruct H as (pre & t & -> & Ht). exists (JS.toLowerCase pre).
      unfold JS.toLowerCase in *. by rewrite map_sapp, Ht. }
  intros s. split; [apply H|]. split; apply H.
  - left. by exists s.
  - right. by exists s, "TRUE".
Qed.
